(** * PolyStudio stream translation: a shallow embedding and its properties

    The development embeds [backend/app/services/stream_processor.py]
    (class [StreamProcessor]) and the entry point [process_chat_stream] of
    [backend/app/services/agent_service.py].  Around them it embeds
    [create_agent] and the [/chat] endpoint of [backend/app/routers/chat.py],
    the canvas history of [backend/app/services/history_service.py], and
    [parse_size] and [prepare_image_input] of
    [backend/app/tools/volcano_image_generation.py], the helpers of the tools
    that the agent is given, and [upload_image] of the router.

    Conventions of the embedding.
    - A Python [str] is a Rocq [string] holding its UTF-8 encoding;
      [PyStr.py_len] counts code points, as Python's [len] does.
    - JSON payloads ([Any] in contents and tool arguments) are values of
      [JVal]; a Python [dict] with string keys is an insertion-ordered
      association list, because [json.dumps] shows the order on the wire.
      Floating point numbers are left out of the universe.
    - [StreamProcessor.tool_call_args], a dict keyed by call id that is never
      serialised, is a [gmap string pydict].
    - The async generators are computations of the monad [Gen]: they thread
      the processor state, append the frames they yield, and either return or
      raise.  State changes and frames yielded before an exception persist, as
      they do in Python.
    - Logging has no effect on the result and is dropped; the log buffer
      [text_buffer] is state and is kept.
    - Inbound values are typed as langchain declares them: call ids and tool
      names are optional strings, contents and argument values are JSON
      payloads.  The [args] of a tool-call entry may also be a string, the
      shape of arguments that were never parsed, on which [dict.update]
      raises.
    - A yielded string is kept as the event it serialises ([FData]) or as
      the terminal marker ([FDone]); [wire] gives the text.
    - What the libraries do is a parameter where the code only forwards the
      result ([Externals]): the text of [str] and of exceptions,
      [convert_to_openai_messages], which returns or raises, and the truth
      value and the items of objects of other classes.  The validation of a
      message content by pydantic is modelled ([valid_content]), because it
      decides whether the agent is run at all. *)

Set Warnings "-register-all".

From Stdlib Require Import ZArith List Ascii String Bool Lia DecimalString.
From Stdlib Require Import DecimalPos DecimalZ.
From stdpp Require Import base option list strings gmap fin_maps.

Import ListNotations.
Local Open Scope string_scope.
Local Open Scope list_scope.
Local Open Scope Z_scope.

(** ** Python values *)

(** JSON payloads. *)
Inductive JVal : Type :=
| JNull
| JBool (b : bool)
| JInt (n : Z)
| JStr (s : string)
| JList (xs : list JVal)
| JDict (kvs : list (string * JVal)).

(** A Python dict with string keys, in insertion order. *)
Abbreviation pydict := (list (string * JVal)).

(** Python truthiness ([if v:]). *)
Definition truthy (v : JVal) : bool :=
  match v with
  | JNull => false
  | JBool b => b
  | JInt n => negb (n =? 0)
  | JStr s => negb (String.eqb s "")
  | JList xs => match xs with [] => false | _ => true end
  | JDict kvs => match kvs with [] => false | _ => true end
  end.

Module PyDict.

(** [d.get(k)] *)
Fixpoint get (k : string) (d : pydict) : option JVal :=
  match d with
  | [] => None
  | (k', v) :: d' => if String.eqb k k' then Some v else get k d'
  end.

(** [d[k] = v]: an existing key keeps its position, a new key goes last. *)
Fixpoint set (k : string) (v : JVal) (d : pydict) : pydict :=
  match d with
  | [] => [(k, v)]
  | (k', v') :: d' =>
      if String.eqb k k' then (k, v) :: d' else (k', v') :: set k v d'
  end.

(** [d.update(other)] for a dict [other]: its items are stored in order. *)
Definition update (d other : pydict) : pydict :=
  fold_left (fun acc kv => set (fst kv) (snd kv) acc) other d.

Definition keys (d : pydict) : list string := map fst d.

End PyDict.

(** ** [json.dumps(obj, ensure_ascii=False)] *)

Module Json.

Definition nl : string := String (ascii_of_nat 10) EmptyString.
Definition dq : string := String (ascii_of_nat 34) EmptyString.
Definition bs : string := String (ascii_of_nat 92) EmptyString.

Definition hex_digit (n : nat) : ascii :=
  ascii_of_nat (if Nat.ltb n 10 then 48 + n else 87 + n)%nat.

(** One character of a string literal: quote, backslash and the control
    characters below 0x20 are escaped, everything else is copied (non-ASCII
    text stays verbatim). *)
Definition escape_char (c : ascii) : string :=
  let n := nat_of_ascii c in
  if Nat.eqb n 34 then bs +:+ dq
  else if Nat.eqb n 92 then bs +:+ bs
  else if Nat.eqb n 8 then bs +:+ "b"
  else if Nat.eqb n 12 then bs +:+ "f"
  else if Nat.eqb n 10 then bs +:+ "n"
  else if Nat.eqb n 13 then bs +:+ "r"
  else if Nat.eqb n 9 then bs +:+ "t"
  else if Nat.ltb n 32 then
    bs +:+ "u00" +:+ String (hex_digit (n / 16)) (String (hex_digit (n mod 16)) "")
  else String c "".

Fixpoint escape (s : string) : string :=
  match s with
  | EmptyString => ""
  | String c s' => escape_char c +:+ escape s'
  end.

Definition quote (s : string) : string := dq +:+ escape s +:+ dq.

Definition dumps_int (n : Z) : string := NilZero.string_of_int (Z.to_int n).

Fixpoint dumps (v : JVal) : string :=
  match v with
  | JNull => "null"
  | JBool true => "true"
  | JBool false => "false"
  | JInt n => dumps_int n
  | JStr s => quote s
  | JList xs =>
      let fix items (l : list JVal) : string :=
        match l with
        | [] => ""
        | [x] => dumps x
        | x :: l' => dumps x +:+ ", " +:+ items l'
        end in
      "[" +:+ items xs +:+ "]"
  | JDict kvs =>
      let fix members (l : list (string * JVal)) : string :=
        match l with
        | [] => ""
        | [(k, x)] => quote k +:+ ": " +:+ dumps x
        | (k, x) :: l' => quote k +:+ ": " +:+ dumps x +:+ ", " +:+ members l'
        end in
      "{" +:+ members kvs +:+ "}"
  end.

End Json.

Import Json (nl, dq).

(** ** Strings as Python sees them *)

Module PyStr.

(** [len(s)]: the number of code points, that is the bytes of the UTF-8
    encoding that are not continuation bytes (0x80..0xBF). *)
Fixpoint py_len (s : string) : Z :=
  match s with
  | EmptyString => 0
  | String c s' =>
      let n := nat_of_ascii c in
      (if (Nat.leb 128 n && Nat.ltb n 192)%bool then 0 else 1) + py_len s'
  end.

(** [p in s] for strings. *)
Fixpoint contains (p s : string) : bool :=
  String.prefix p s ||
  match s with
  | EmptyString => false
  | String _ s' => contains p s'
  end.

End PyStr.

(** ** Inbound values *)

(** What [tool_call.get("args", {})] (or [getattr(tool_call, "args", {})])
    finds in a tool-call entry. *)
Inductive ArgsField : Type :=
| ArgsDict (d : pydict)      (* a mapping; a missing field reads as the empty one *)
| ArgsNone                   (* None *)
| ArgsText (s : string).     (* a str: arguments that were left unparsed *)

(** One entry of [AIMessageChunk.tool_calls], as read by either access path
    (the [dict] one or the attribute one): [None] stands for a missing field
    and for a field holding [None]. *)
Record ToolCall : Type := mkToolCall {
  tc_id : option string;
  tc_name : option string;
  tc_args : ArgsField
}.

(** One entry of [AIMessageChunk.tool_call_chunks]. *)
Inductive ToolCallChunk : Type :=
| TCCDict (d : pydict)       (* a dict *)
| TCCModel (d : pydict)      (* an object with a [dict()] method, which returns [d] *)
| TCCOther (text : string).  (* any other object; [text] is [str(obj)] *)

(** A value received from [agent.astream], or a part of one. *)
Inductive Chunk : Type :=
| CNone
| CStr (s : string)
| CList (xs : list Chunk)
| CTuple (xs : list Chunk)
| CDict (kvs : list (string * Chunk))
| CToolMessage (tool_call_id : string) (content : JVal)
| CAIMessageChunk (content : JVal) (tool_calls : list ToolCall)
                  (tool_call_chunks : list ToolCallChunk)
| COther (cls : string) (data : JVal).  (* any other object, of class [cls] *)

Definition class_name (c : Chunk) : string :=
  match c with
  | CNone => "NoneType"
  | CStr _ => "str"
  | CList _ => "list"
  | CTuple _ => "tuple"
  | CDict _ => "dict"
  | CToolMessage _ _ => "ToolMessage"
  | CAIMessageChunk _ _ _ => "AIMessageChunk"
  | COther cls _ => cls
  end.

(** [c == s] for a string literal [s]. *)
Definition chunk_is_str (c : Chunk) (s : string) : bool :=
  match c with
  | CStr s' => String.eqb s' s
  | _ => false
  end.

Fixpoint chunk_dict_get (k : string) (d : list (string * Chunk)) : option Chunk :=
  match d with
  | [] => None
  | (k', v) :: d' => if String.eqb k k' then Some v else chunk_dict_get k d'
  end.

(** ** Exceptions, the processor, frames *)

Record Exn : Type := mkExn { exn_class : string; exn_str : string }.

Inductive Outcome (A : Type) : Type :=
| Return (a : A)
| Raise (e : Exn).
Arguments Return {A} a.
Arguments Raise {A} e.

(** The fields of [StreamProcessor] that the stream methods read or write
    ([current_content] and [current_tool_calls] are only initialised). *)
Record StreamProcessor : Type := mkStreamProcessor {
  session_id : option string;
  text_buffer : string;
  tool_call_args : gmap string pydict;
  recursion_limit : Z
}.

Definition set_text_buffer (b : string) (self : StreamProcessor) : StreamProcessor :=
  {| session_id := session_id self; text_buffer := b;
     tool_call_args := tool_call_args self; recursion_limit := recursion_limit self |}.

Definition set_tool_call_args (m : gmap string pydict) (self : StreamProcessor)
  : StreamProcessor :=
  {| session_id := session_id self; text_buffer := text_buffer self;
     tool_call_args := m; recursion_limit := recursion_limit self |}.

(** A yielded string: [FData event] is the frame of [event],
    [FDone] the terminal frame. *)
Inductive Frame : Type :=
| FData (event : pydict)
| FDone.

(** The text of a frame. *)
Definition wire (f : Frame) : string :=
  match f with
  | FData event => "data: " +:+ Json.dumps (JDict event) +:+ nl +:+ nl
  | FDone => "data: [DONE]" +:+ nl +:+ nl
  end.

(** ** The generator monad *)

Definition Gen (A : Type) : Type :=
  StreamProcessor -> StreamProcessor * list Frame * Outcome A.

Module Gen.

Definition ret {A} (a : A) : Gen A := fun self => (self, [], Return a).

Definition bind {A B} (m : Gen A) (k : A -> Gen B) : Gen B :=
  fun self =>
    match m self with
    | (self1, out1, Return a) =>
        match k a self1 with
        | (self2, out2, r) => (self2, out1 ++ out2, r)
        end
    | (self1, out1, Raise e) => (self1, out1, Raise e)
    end.

Definition yield (f : Frame) : Gen unit := fun self => (self, [f], Return tt).

Definition raise {A} (e : Exn) : Gen A := fun self => (self, [], Raise e).

Definition get_self : Gen StreamProcessor := fun self => (self, [], Return self).

Definition modify (f : StreamProcessor -> StreamProcessor) : Gen unit :=
  fun self => (f self, [], Return tt).

(** [try: m  except Exception as e: h e] *)
Definition try_except (m : Gen unit) (h : Exn -> Gen unit) : Gen unit :=
  fun self =>
    match m self with
    | (self1, out1, Return _) => (self1, out1, Return tt)
    | (self1, out1, Raise e) =>
        match h e self1 with
        | (self2, out2, r) => (self2, out1 ++ out2, r)
        end
    end.

(** [for x in xs: body x] *)
Fixpoint for_each {A} (xs : list A) (body : A -> Gen unit) : Gen unit :=
  match xs with
  | [] => ret tt
  | x :: xs' => bind (body x) (fun _ => for_each xs' body)
  end.

Definition when (b : bool) (m : Gen unit) : Gen unit := if b then m else ret tt.

Definition state_of {A} (r : StreamProcessor * list Frame * Outcome A) := fst (fst r).
Definition frames_of {A} (r : StreamProcessor * list Frame * Outcome A) := snd (fst r).
Definition outcome_of {A} (r : StreamProcessor * list Frame * Outcome A) := snd r.

#[global] Arguments state_of {A} !r /.
#[global] Arguments frames_of {A} !r /.
#[global] Arguments outcome_of {A} !r /.

End Gen.

Notation "x <- m ;; k" := (Gen.bind m (fun x => k))
  (at level 100, m at next level, right associativity, only parsing).
Notation "m ;;; k" := (Gen.bind m (fun _ => k))
  (at level 100, right associativity, only parsing).

(** ** The agent *)

(** The messages built for the agent, with the constructors of
    langchain_core. *)
Inductive LCMessage : Type :=
| HumanMessage (content : JVal)
| AIMessage (content : JVal).

(** What one run of [agent.astream] delivers: the chunks it produces, and the
    exception that ends it when it does not end normally. *)
Record Source : Type := mkSource {
  src_chunks : list Chunk;
  src_failure : option Exn
}.

(** A compiled agent: [astream] on the conversation and the recursion limit. *)
Definition Agent : Type := list LCMessage -> Z -> Source.

(** The process environment of [agent_service]: the result of
    [create_agent()], which raises when no API key is configured, and of
    [int(os.getenv("RECURSION_LIMIT", "200"))]. *)
Record Env : Type := mkEnv {
  create_agent : Outcome Agent;
  env_recursion_limit : Outcome Z
}.

(** ** Library functions the code calls *)

(** Functions of the interpreter and of the libraries whose results the code
    only forwards. *)
Class Externals : Type := {
  (** [str(v)] for a content that is not a [str] *)
  py_str : JVal -> string;
  (** [traceback.format_exc()] while [e] is being handled *)
  format_exc : Exn -> string;
  (** [langchain_core.messages.convert_to_openai_messages]: the normalised
      messages, or the exception it raises for a value that is not a
      sequence of messages *)
  convert_to_openai_messages : Chunk -> Outcome JVal;
  (** what iterating an object yields, [None] when its class has no
      [__iter__]; asked only for message objects and other objects *)
  object_items : Chunk -> option (list Chunk);
  (** [bool(obj)] for an object of another class ([False] for [0], [False]
      and empty containers); asked only for [COther] values *)
  object_truthy : Chunk -> bool;
  (** [str(e)] for the [ValidationError] that pydantic raises when
      [cls(content=content)] is built from a content it rejects *)
  validation_error_str : string -> JVal -> string
}.

(** [if c:] for inbound values.  The message objects are pydantic models,
    which define neither [__bool__] nor [__len__]; for an object of
    another class its class decides. *)
Definition chunk_truthy `{Externals} (c : Chunk) : bool :=
  match c with
  | CNone => false
  | CStr s => negb (String.eqb s "")
  | CList xs => match xs with [] => false | _ => true end
  | CTuple xs => match xs with [] => false | _ => true end
  | CDict kvs => match kvs with [] => false | _ => true end
  | CToolMessage _ _ => true
  | CAIMessageChunk _ _ _ => true
  | COther _ _ => object_truthy c
  end.

(** ** Events *)

Definition delta_event (content_str : string) : pydict :=
  [("type", JStr "delta"); ("content", JStr content_str)].

Definition tool_call_event (tool_call_id tool_name : string) (final_args : pydict)
  : pydict :=
  [("type", JStr "tool_call"); ("id", JStr tool_call_id);
   ("name", JStr tool_name); ("arguments", JDict final_args)].

Definition tool_call_chunk_event (index tc_id args_chunk : JVal) : pydict :=
  [("type", JStr "tool_call_chunk"); ("index", index);
   ("id", tc_id); ("args", args_chunk)].

Definition tool_result_event (tool_call_id : string) (content : JVal) : pydict :=
  [("type", JStr "tool_result"); ("tool_call_id", JStr tool_call_id);
   ("content", content)].

Definition messages_event (oai_messages : JVal) : pydict :=
  [("type", JStr "messages"); ("messages", oai_messages)].

Definition error_event (msg : string) : pydict :=
  [("type", JStr "error"); ("error", JStr msg)].

Definition stream_error_event (msg tb : string) : pydict :=
  [("type", JStr "error"); ("error", JStr msg); ("traceback", JStr tb)].

(** [d.get(k)], with Python's [None] read as JSON [null]. *)
Definition py_get (k : string) (d : pydict) : JVal := default JNull (PyDict.get k d).

(** [not s] for an optional string: missing, [None] and the empty string. *)
Definition str_falsy (s : option string) : bool :=
  match s with
  | None => true
  | Some s => String.eqb s ""
  end.

Section StreamProcessor.

Context `{Externals}.

(** *** [StreamProcessor._handle_message_chunk] *)

Definition punctuation : list string := ["。"; "！"; "？"; "."; "!"; "?"].

(** The log buffer: the text is appended, and the buffer is printed and
    emptied on a line break, or on punctuation once it is over 50
    characters. *)
Definition log_text (content_str : string) : Gen unit :=
  Gen.modify (fun self =>
    let buf := text_buffer self +:+ content_str in
    if PyStr.contains nl buf
       || ((50 <? PyStr.py_len buf)
           && existsb (fun p => PyStr.contains p buf) punctuation)
    then set_text_buffer "" self
    else set_text_buffer buf self).

(** Lines 193-223: the text content of an [AIMessageChunk]. *)
Definition handle_content (content : JVal) : Gen unit :=
  let is_none := match content with JNull => true | _ => false end in
  let is_empty_str := match content with JStr s => String.eqb s "" | _ => false end in
  if negb is_none && negb is_empty_str then
    let content_str := match content with JStr s => s | _ => py_str content end in
    if negb (String.eqb content_str "") then
      log_text content_str ;;;
      Gen.yield (FData (delta_event content_str))
    else Gen.ret tt
  else Gen.ret tt.

(** [self.tool_call_args[tool_call_id].update(tool_args)] for a truthy
    [tool_args]. *)
Definition update_args (tool_call_id : string) (tool_args : ArgsField) : Gen unit :=
  self <- Gen.get_self ;;
  match tool_call_args self !! tool_call_id with
  | None => Gen.raise (mkExn "KeyError" ("'" +:+ tool_call_id +:+ "'"))
  | Some entry =>
      match tool_args with
      | ArgsDict d =>
          Gen.modify (set_tool_call_args
                        (<[tool_call_id := PyDict.update entry d]> (tool_call_args self)))
      | ArgsText _ =>
          Gen.raise (mkExn "ValueError"
            "dictionary update sequence element #0 has length 1; 2 is required")
      | ArgsNone => Gen.raise (mkExn "TypeError" "'NoneType' object is not iterable")
      end
  end.

Definition args_truthy (tool_args : ArgsField) : bool :=
  match tool_args with
  | ArgsDict d => match d with [] => false | _ => true end
  | ArgsNone => false
  | ArgsText s => negb (String.eqb s "")
  end.

(** Lines 227-265: one iteration of the loop over [tool_calls]. *)
Definition handle_tool_call (tool_call : ToolCall) : Gen unit :=
  if str_falsy (tc_name tool_call) || str_falsy (tc_id tool_call) then
    Gen.ret tt                                            (* continue *)
  else
    let tool_call_id := default "" (tc_id tool_call) in
    let tool_name := default "" (tc_name tool_call) in
    let tool_args := tc_args tool_call in
    Gen.modify (fun self =>
      match tool_call_args self !! tool_call_id with
      | None => set_tool_call_args (<[tool_call_id := []]> (tool_call_args self)) self
      | Some _ => self
      end) ;;;
    Gen.when (args_truthy tool_args) (update_args tool_call_id tool_args) ;;;
    self <- Gen.get_self ;;
    match tool_call_args self !! tool_call_id with
    | None => Gen.raise (mkExn "KeyError" ("'" +:+ tool_call_id +:+ "'"))
    | Some final_args =>
        Gen.yield (FData (tool_call_event tool_call_id tool_name final_args))
    end.

(** Lines 275-281: the entry as a dict. *)
Definition chunk_dict_of (tool_call_chunk : ToolCallChunk) : pydict :=
  match tool_call_chunk with
  | TCCDict d => d
  | TCCModel d => d
  | TCCOther text => [("args", JStr text)]
  end.

(** Lines 269-295: one iteration of the loop over [tool_call_chunks]. *)
Definition handle_tool_call_chunk (tool_call_chunk : ToolCallChunk) : Gen unit :=
  let chunk_dict := chunk_dict_of tool_call_chunk in
  let args_chunk := py_get "args" chunk_dict in
  let index := default (JInt 0) (PyDict.get "index" chunk_dict) in
  let tc_id := py_get "id" chunk_dict in
  if truthy args_chunk then
    Gen.yield (FData (tool_call_chunk_event index tc_id args_chunk))
  else Gen.ret tt.

(** Lines 174-186: a [ToolMessage]. *)
Definition handle_tool_message (tool_call_id : string) (content : JVal) : Gen unit :=
  Gen.modify (fun self =>
    match tool_call_args self !! tool_call_id with
    | Some _ => set_tool_call_args (delete tool_call_id (tool_call_args self)) self
    | None => self
    end) ;;;
  Gen.yield (FData (tool_result_event tool_call_id content)).

(** The body of the [try] of [_handle_message_chunk]. *)
Definition message_chunk_body (message_chunk : Chunk) : Gen unit :=
  match message_chunk with
  | CToolMessage tool_call_id content => handle_tool_message tool_call_id content
  | CAIMessageChunk content tool_calls tool_call_chunks =>
      handle_content content ;;;
      Gen.when (match tool_calls with [] => false | _ => true end)
               (Gen.for_each tool_calls handle_tool_call) ;;;
      Gen.when (match tool_call_chunks with [] => false | _ => true end)
               (Gen.for_each tool_call_chunks handle_tool_call_chunk)
  | _ => Gen.ret tt
  end.

Definition message_error_event (e : Exn) : pydict :=
  error_event ("处理消息chunk时出错: " +:+ exn_str e).

Definition _handle_message_chunk (message_chunk : Chunk) : Gen unit :=
  Gen.try_except (message_chunk_body message_chunk)
                 (fun e => Gen.yield (FData (message_error_event e))).

(** *** [StreamProcessor._handle_values_chunk] *)

Definition _handle_values_chunk (chunk_data : Chunk) : Gen unit :=
  match chunk_data with
  | CDict kvs =>
      let all_messages := default (CList []) (chunk_dict_get "messages" kvs) in
      if chunk_truthy all_messages then
        match convert_to_openai_messages all_messages with
        | Return oai_messages => Gen.yield (FData (messages_event oai_messages))
        | Raise e => Gen.raise e
        end
      else Gen.ret tt
  | _ =>
      Gen.raise (mkExn "AttributeError"
        ("'" +:+ class_name chunk_data +:+ "' object has no attribute 'get'"))
  end.

(** *** [StreamProcessor._handle_chunk] *)

(** [hasattr(chunk_data, '__iter__') and not isinstance(chunk_data, str)]:
    the items of the iteration, or [None] when the test fails. *)
Definition iter_items (chunk_data : Chunk) : option (list Chunk) :=
  match chunk_data with
  | CNone => None
  | CStr _ => None
  | CList xs => Some xs
  | CTuple xs => Some xs
  | CDict kvs => Some (map (fun kv => CStr (fst kv)) kvs)
  | _ => object_items chunk_data
  end.

(** [isinstance(chunk, tuple) and len(chunk) == 2] *)
Definition as_pair (chunk : Chunk) : option (Chunk * Chunk) :=
  match chunk with
  | CTuple [chunk_type; chunk_data] => Some (chunk_type, chunk_data)
  | _ => None
  end.

(** [isinstance(chunk, list) and len(chunk) > 0] *)
Definition as_nonempty_list (chunk : Chunk) : option (list Chunk) :=
  match chunk with
  | CList ((_ :: _) as messages) => Some messages
  | _ => None
  end.

(** The body of the [try] of [_handle_chunk]. *)
Definition chunk_body (chunk : Chunk) : Gen unit :=
  match as_pair chunk with
  | Some (chunk_type, chunk_data) =>
      if chunk_is_str chunk_type "values" then _handle_values_chunk chunk_data
      else
        match as_nonempty_list chunk_data with
        | Some messages => Gen.for_each messages _handle_message_chunk
        | None =>
            match iter_items chunk_data with
            | Some messages => Gen.for_each messages _handle_message_chunk
            | None => _handle_message_chunk chunk_data
            end
        end
  | None =>
      match as_nonempty_list chunk with
      | Some messages => Gen.for_each messages _handle_message_chunk
      | None => _handle_message_chunk chunk
      end
  end.

Definition chunk_error_event (e : Exn) : pydict :=
  error_event ("处理chunk时出错: " +:+ exn_str e).

Definition _handle_chunk (chunk : Chunk) : Gen unit :=
  Gen.try_except (chunk_body chunk)
                 (fun e => Gen.yield (FData (chunk_error_event e))).

(** *** [StreamProcessor.process_stream] *)

(** The contents that the message classes of langchain_core take: the
    field is declared [content: str | list[str | dict]], and pydantic
    validates it when a message is built. *)
Definition valid_content (content : JVal) : bool :=
  match content with
  | JStr _ => true
  | JList items =>
      forallb (fun item => match item with JStr _ | JDict _ => true | _ => false end)
              items
  | _ => false
  end.

(** [cls(content=content)] for the message class [cls], whose constructor
    is [make]: the message, or the [ValidationError] of pydantic. *)
Definition new_message (cls : string) (make : JVal -> LCMessage) (content : JVal)
  : Outcome LCMessage :=
  if valid_content content then Return (make content)
  else Raise (mkExn "ValidationError" (validation_error_str cls content)).

(** Lines 52-57: the conversation handed to the agent.  The loop stops at
    the first message whose construction raises. *)
Fixpoint langchain_messages (messages : list pydict) : Outcome (list LCMessage) :=
  match messages with
  | [] => Return []
  | msg :: rest =>
      let content := default (JStr "") (PyDict.get "content" msg) in
      let append (built : Outcome LCMessage) :=
        match built with
        | Return m =>
            match langchain_messages rest with
            | Return ms => Return (m :: ms)
            | Raise e => Raise e
            end
        | Raise e => Raise e
        end in
      match PyDict.get "role" msg with
      | Some (JStr role) =>
          if String.eqb role "user" then
            append (new_message "HumanMessage" HumanMessage content)
          else if String.eqb role "assistant" then
            append (new_message "AIMessage" AIMessage content)
          else langchain_messages rest
      | _ => langchain_messages rest
      end
  end.

(** The body of the [try] of [process_stream]. *)
Definition stream_body (agent : Agent) (messages : list pydict) : Gen unit :=
  match langchain_messages messages with
  | Raise e => Gen.raise e
  | Return conversation =>
      self <- Gen.get_self ;;
      let source := agent conversation (recursion_limit self) in
      Gen.for_each (src_chunks source) _handle_chunk ;;;
      match src_failure source with
      | Some e => Gen.raise e
      | None =>
          Gen.modify (fun self =>
            if negb (String.eqb (text_buffer self) "") then set_text_buffer "" self
            else self) ;;;
          Gen.yield FDone
      end
  end.

Definition process_stream (agent : Agent) (messages : list pydict) : Gen unit :=
  Gen.try_except (stream_body agent messages)
    (fun e => Gen.yield (FData (stream_error_event (exn_str e) (format_exc e)))).

(** *** [agent_service.process_chat_stream] *)

(** [StreamProcessor(session_id)] *)
Definition new_StreamProcessor (env : Env) (sid : option string)
  : Outcome StreamProcessor :=
  match env_recursion_limit env with
  | Return n =>
      Return {| session_id := sid; text_buffer := ""; tool_call_args := ∅;
                recursion_limit := n |}
  | Raise e => Raise e
  end.

Definition process_chat_stream (env : Env) (messages : list pydict)
           (sid : option string) : list Frame :=
  let failed e := [FData (error_event (exn_str e)); FDone] in
  match create_agent env with
  | Raise e => failed e
  | Return agent =>
      match new_StreamProcessor env sid with
      | Raise e => failed e
      | Return processor =>
          match process_stream agent messages processor with
          | (_, events, Return _) => events
          | (_, events, Raise e) => events ++ failed e
          end
      end
  end.

End StreamProcessor.

(** ** Reading a stream back *)

(** The [type] field of a frame's event. *)
Definition frame_type (f : Frame) : option string :=
  match f with
  | FData event =>
      match PyDict.get "type" event with
      | Some (JStr t) => Some t
      | _ => None
      end
  | FDone => None
  end.

Definition has_type (t : string) (f : Frame) : bool :=
  match frame_type f with
  | Some t' => String.eqb t' t
  | None => false
  end.

Definition is_done (f : Frame) : bool :=
  match f with
  | FDone => true
  | FData _ => false
  end.

Definition count_type (t : string) (out : list Frame) : nat :=
  length (List.filter (has_type t) out).

Definition count_done (out : list Frame) : nat :=
  length (List.filter is_done out).

(** A frame that is neither an error record nor the terminal marker. *)
Definition payload (f : Frame) : Prop := has_type "error" f = false /\ is_done f = false.

(** A field of a frame's event. *)
Definition frame_field (k : string) (f : Frame) : option JVal :=
  match f with
  | FData event => PyDict.get k event
  | FDone => None
  end.

(** The terminal marker as it is written on the wire. *)
Definition done_marker : string := "data: [DONE]" +:+ nl +:+ nl.

(** ** Notions used to state the properties *)

(** The accumulated arguments of call [id] once [args] is merged in. *)
Definition merged_args (self : StreamProcessor) (id : string) (args : pydict) : pydict :=
  PyDict.update (default [] (tool_call_args self !! id)) args.

(** An entry of [tool_calls] that passes the test of line 241. *)
Definition valid_tool_call (tool_call : ToolCall) : bool :=
  negb (str_falsy (tc_name tool_call) || str_falsy (tc_id tool_call)).

(** The call id and the tool name of an entry. *)
Definition call_of (tool_call : ToolCall) : string * string :=
  (default "" (tc_id tool_call), default "" (tc_name tool_call)).

(** The call id and the tool name that a [tool_call] frame carries. *)
Definition frame_call (f : Frame) : option (string * string) :=
  match frame_field "id" f, frame_field "name" f with
  | Some (JStr id), Some (JStr name) => Some (id, name)
  | _, _ => None
  end.

(** The frames of one entry of [tool_call_chunks]. *)
Definition fragment_frames (tool_call_chunk : ToolCallChunk) : list Frame :=
  let chunk_dict := chunk_dict_of tool_call_chunk in
  if truthy (py_get "args" chunk_dict) then
    [FData [("type", JStr "tool_call_chunk");
            ("index", default (JInt 0) (PyDict.get "index" chunk_dict));
            ("id", py_get "id" chunk_dict);
            ("args", py_get "args" chunk_dict)]]
  else [].

(** A computation that always returns. *)
Definition returns {A} (m : Gen A) : Prop :=
  forall self, exists a, Gen.outcome_of (m self) = Return a.

(** The values that [_handle_message_chunk] translates: tool messages and
    assistant message chunks. *)
Definition is_message (c : Chunk) : bool :=
  match c with
  | CToolMessage _ _ => true
  | CAIMessageChunk _ _ _ => true
  | _ => false
  end.

Definition message_count (messages : list Chunk) : nat :=
  length (List.filter is_message messages).

(** A unit that [_handle_chunk] reads as a full snapshot. *)
Definition is_snapshot (chunk : Chunk) : bool :=
  match as_pair chunk with
  | Some (chunk_type, _) => chunk_is_str chunk_type "values"
  | None => false
  end.

(** The processor at the end of a stream that completes: the log buffer
    is printed and emptied. *)
Definition flushed (self : StreamProcessor) : StreamProcessor :=
  if negb (String.eqb (text_buffer self) "") then set_text_buffer "" self else self.

Section Notions.

Context `{Externals}.

(** The text that an [AIMessageChunk] content stands for: nothing for
    [None], the string itself, [str(content)] otherwise. *)
Definition text_of (content : JVal) : string :=
  match content with
  | JNull => ""
  | JStr s => s
  | _ => py_str content
  end.

(** The inbound units are handled one after the other. *)
Definition run_units (chunks : list Chunk) : Gen unit :=
  Gen.for_each chunks _handle_chunk.

Definition raises {A} (r : StreamProcessor * list Frame * Outcome A) : bool :=
  match Gen.outcome_of r with
  | Raise _ => true
  | Return _ => false
  end.

(** The number of message chunks of [messages] whose translation raises,
    each started in the state its predecessors leave. *)
Fixpoint message_failures (messages : list Chunk) (self : StreamProcessor) : nat :=
  match messages with
  | [] => O
  | m :: rest =>
      ((if raises (message_chunk_body m self) then 1 else 0)
       + message_failures rest (Gen.state_of (_handle_message_chunk m self)))%nat
  end.

(** The message chunks that [_handle_chunk] translates for an inbound unit
    (none for a full snapshot). *)
Definition unit_messages (chunk : Chunk) : list Chunk :=
  match as_pair chunk with
  | Some (chunk_type, chunk_data) =>
      if chunk_is_str chunk_type "values" then []
      else
        match as_nonempty_list chunk_data with
        | Some messages => messages
        | None =>
            match iter_items chunk_data with
            | Some messages => messages
            | None => [chunk_data]
            end
        end
  | None =>
      match as_nonempty_list chunk with
      | Some messages => messages
      | None => [chunk]
      end
  end.

(** The number of exceptions raised while an inbound unit is handled:
    those of its message chunks, and the one of the unit-level code. *)
Definition unit_failures (chunk : Chunk) (self : StreamProcessor) : nat :=
  (message_failures (unit_messages chunk) self
   + (if raises (chunk_body chunk self) then 1 else 0))%nat.

End Notions.

(** The role of an input message, when it is a string. *)
Definition role_of (msg : pydict) : option string :=
  match PyDict.get "role" msg with
  | Some (JStr role) => Some role
  | _ => None
  end.

(** The reading of lines 53-57 in the words of the specification: a message
    whose role is exactly [user] or [assistant] is forwarded, with the empty
    string for an absent content; any other message is dropped. *)
Definition forwarded (msg : pydict) : option LCMessage :=
  let content := match PyDict.get "content" msg with
                 | Some c => c
                 | None => JStr ""
                 end in
  if decide (role_of msg = Some "user") then Some (HumanMessage content)
  else if decide (role_of msg = Some "assistant") then Some (AIMessage content)
  else None.

(** The class and the content of a message built for the agent. *)
Definition class_of (m : LCMessage) : string :=
  match m with
  | HumanMessage _ => "HumanMessage"
  | AIMessage _ => "AIMessage"
  end.

Definition content_of (m : LCMessage) : JVal :=
  match m with
  | HumanMessage content => content
  | AIMessage content => content
  end.


(** The exception of pydantic for such a message. *)
Definition validation_error `{Externals} (m : LCMessage) : Exn :=
  mkExn "ValidationError" (validation_error_str (class_of m) (content_of m)).

(** A unit as [stream_mode=["messages"]] delivers it: the mode, and the
    pair of a message and its metadata. *)
Definition messages_unit (message : Chunk) (metadata : list (string * Chunk)) : Chunk :=
  CTuple [CStr "messages"; CTuple [message; CDict metadata]].

(** ** Sample instances, for evaluation *)

Module Sample.


(** The normalisation, on the values that the samples below hold under
    [messages]: a list of human messages becomes the list of the dicts of
    their role and content, without the other fields of the messages, and a
    number is refused because it cannot be iterated. *)
Definition openai_message (message : Chunk) : Outcome JVal :=
  match message with
  | COther cls (JDict fields) =>
      if String.eqb cls "HumanMessage" then
        Return (JDict [("role", JStr "user"); ("content", py_get "content" fields)])
      else Raise (mkExn "NotImplementedError"
                        ("Unsupported message type: <class '" +:+ cls +:+ "'>"))
  | _ => Raise (mkExn "NotImplementedError"
                      ("Unsupported message type: <class '" +:+ class_name message +:+ "'>"))
  end.

Fixpoint openai_message_list (messages : list Chunk) : Outcome (list JVal) :=
  match messages with
  | [] => Return []
  | message :: rest =>
      match openai_message message with
      | Return oai_msg =>
          match openai_message_list rest with
          | Return oai_messages => Return (oai_msg :: oai_messages)
          | Raise e => Raise e
          end
      | Raise e => Raise e
      end
  end.

Definition openai_messages (all_messages : Chunk) : Outcome JVal :=
  match all_messages with
  | CList messages =>
      match openai_message_list messages with
      | Return oai_messages => Return (JList oai_messages)
      | Raise e => Raise e
      end
  | _ => Raise (mkExn "TypeError"
                      ("'" +:+ class_name all_messages +:+ "' object is not iterable"))
  end.

(** Library functions for the samples below, none of which iterates over an
    object or prints a content that is not a string.  Numbers and booleans
    are truthy by their value, and a validation error is described by the
    first line of pydantic's report. *)
Definition externals : Externals :=
  {| py_str := fun _ => "[]";
     format_exc := fun e => "Traceback (most recent call last): " +:+ exn_str e;
     convert_to_openai_messages := openai_messages;
     object_items := fun _ => None;
     object_truthy := fun c =>
       match c with
       | COther _ (JInt n) => negb (n =? 0)
       | COther _ (JBool b) => b
       | _ => true
       end;
     validation_error_str := fun cls _ => "2 validation errors for " +:+ cls |}.

Definition processor : StreamProcessor :=
  {| session_id := None; text_buffer := ""; tool_call_args := ∅;
     recursion_limit := 200 |}.





(** A message chunk whose tool-call arguments are a string. *)
Definition malformed_message : Chunk :=
  CAIMessageChunk (JStr "Hi") [mkToolCall (Some "c1") (Some "gen") (ArgsText "oops")] [].

(** The exception of langgraph for an exceeded step budget. *)
Definition recursion_error : Exn :=
  mkExn "GraphRecursionError"
        "Recursion limit of 200 reached without hitting a stop condition.".

(** A unit as [stream_mode=["messages"]] delivers it: the mode, and the pair
    of a message chunk and its metadata. *)
Definition text_unit : Chunk :=
  CTuple [CStr "messages";
          CTuple [CAIMessageChunk (JStr "Hi") [] []; CDict [("langgraph_step", CNone)]]].

(** An agent that delivers one text chunk and then exceeds its step
    budget. *)
Definition failing_agent : Agent :=
  fun _ _ => mkSource [text_unit] (Some recursion_error).

Definition env : Env :=
  {| create_agent := Return failing_agent; env_recursion_limit := Return 200 |}.

Definition conversation : list pydict :=
  [[("role", JStr "user"); ("content", JStr "draw a cat")]].

(** A processor that has accumulated [{a: 1}] for call [c1]. *)
Definition processor_c1 : StreamProcessor :=
  set_tool_call_args {[ "c1" := [("a", JInt 1)] ]} processor.

(** A unit that groups two malformed message chunks, and an agent that
    delivers it and ends normally. *)
Definition malformed_unit : Chunk := CList [malformed_message; malformed_message].

Definition exhausted_agent : Agent :=
  fun _ _ => mkSource [malformed_unit] None.

(** The scenario of the specification: a text delta, a tool-call request,
    two argument fragments and the tool result, each in its own unit. *)
Definition wrap (message : Chunk) : Chunk :=
  CTuple [CStr "messages"; CTuple [message; CDict [("langgraph_step", CNone)]]].

(** A message chunk with a text, two tool-call requests and two argument
    fragments. *)
Definition busy_message : Chunk :=
  CAIMessageChunk (JStr "Hi")
    [mkToolCall (Some "c1") (Some "gen") (ArgsDict [("b", JInt 2)]);
     mkToolCall (Some "c2") (Some "edit") (ArgsDict [])]
    [TCCDict [("args", JStr "{"); ("id", JStr "c1"); ("index", JInt 0)];
     TCCDict [("args", JStr "}"); ("id", JNull); ("index", JInt 1)]].

Definition fragment (text : string) : ToolCallChunk :=
  TCCDict [("name", JNull); ("args", JStr text); ("id", JStr "c1"); ("index", JInt 0)].

Definition scenario : list Chunk :=
  [wrap (CAIMessageChunk (JStr "Hi") [] []);
   wrap (CAIMessageChunk (JStr "") [mkToolCall (Some "c1") (Some "gen") (ArgsDict [])] []);
   wrap (CAIMessageChunk (JStr "") [] [fragment ("{" +:+ dq +:+ "prompt" +:+ dq)]);
   wrap (CAIMessageChunk (JStr "") [] [fragment (":" +:+ dq +:+ "cat" +:+ dq +:+ "}")]);
   wrap (CToolMessage "c1" (JStr "ok"))].

Definition scenario_env : Env :=
  {| create_agent := Return (fun _ _ => mkSource scenario None);
     env_recursion_limit := Return 200 |}.

(** What an agent delivers in the messages mode, each message with its
    metadata: a text chunk, a chunk with a text and malformed tool-call
    arguments, a tool result and another text chunk; and an agent that
    delivers them and then exceeds its step budget. *)
Definition deliveries : list (Chunk * list (string * Chunk)) :=
  [(CAIMessageChunk (JStr "Hel") [] [], [("langgraph_step", CNone)]);
   (malformed_message, [("langgraph_step", CNone)]);
   (CToolMessage "c1" (JStr "ok"), [("langgraph_step", CNone)]);
   (CAIMessageChunk (JStr "lo") [] [], [("langgraph_step", CNone)])].

Definition delivering_agent : Agent :=
  fun _ _ => mkSource (map (fun d => messages_unit d.1 d.2) deliveries)
                      (Some recursion_error).

End Sample.

(** ** Further notions on streams *)

(** Induction on JSON payloads that reaches the items of lists and the
    values of dicts. *)
Section JValInduction.

Variable P : JVal -> Prop.
Hypothesis Hnull : P JNull.
Hypothesis Hbool : forall b, P (JBool b).
Hypothesis Hint : forall n, P (JInt n).
Hypothesis Hstr : forall s, P (JStr s).
Hypothesis Hlist : forall xs, Forall P xs -> P (JList xs).
Hypothesis Hdict : forall kvs, Forall (fun kv => P (snd kv)) kvs -> P (JDict kvs).

Fixpoint JVal_nested_ind (v : JVal) : P v :=
  match v with
  | JNull => Hnull
  | JBool b => Hbool b
  | JInt n => Hint n
  | JStr s => Hstr s
  | JList xs =>
      Hlist xs
        ((fix items (l : list JVal) : Forall P l :=
            match l with
            | [] => @Stdlib.Lists.List.Forall_nil _ P
            | x :: l' =>
                @Stdlib.Lists.List.Forall_cons _ P x l' (JVal_nested_ind x) (items l')
            end) xs)
  | JDict kvs =>
      Hdict kvs
        ((fix members (l : list (string * JVal)) : Forall (fun kv => P (snd kv)) l :=
            match l with
            | [] => @Stdlib.Lists.List.Forall_nil _ (fun kv => P (snd kv))
            | kv :: l' =>
                @Stdlib.Lists.List.Forall_cons _ (fun kv => P (snd kv)) kv l'
                  (JVal_nested_ind (snd kv)) (members l')
            end) kvs)
  end.

End JValInduction.

(** The characters that end a line of an event stream: line feed and
    carriage return. *)
Definition line_break (c : ascii) : bool :=
  let n := nat_of_ascii c in Nat.eqb n 10 || Nat.eqb n 13.

(** A text without line breaks. *)
Fixpoint single_line (s : string) : bool :=
  match s with
  | EmptyString => true
  | String c s' => negb (line_break c) && single_line s'
  end.

(** The record types that the translation writes. *)
Definition record_kinds : list string :=
  ["delta"; "tool_call"; "tool_call_chunk"; "tool_result"; "messages"; "error"].

(** A frame of the protocol: the terminal marker, or a record of one of
    the six types. *)
Definition known_frame (f : Frame) : bool :=
  is_done f || existsb (fun t => has_type t f) record_kinds.

(** The processor with another session id and another log buffer. *)
Definition relog (sid : option string) (buf : string) (self : StreamProcessor)
  : StreamProcessor :=
  {| session_id := sid; text_buffer := buf;
     tool_call_args := tool_call_args self; recursion_limit := recursion_limit self |}.

(** The call ids that a message chunk names: the id of a tool result, and
    the ids of the valid tool-call entries of an assistant chunk. *)
Definition named_ids (message_chunk : Chunk) : list string :=
  match message_chunk with
  | CToolMessage tool_call_id _ => [tool_call_id]
  | CAIMessageChunk _ tool_calls _ =>
      map (fun tool_call => (call_of tool_call).1) (List.filter valid_tool_call tool_calls)
  | _ => []
  end.

(** The call ids that a message chunk requests a tool call for. *)
Definition requested_ids (message_chunk : Chunk) : list string :=
  match message_chunk with
  | CAIMessageChunk _ tool_calls _ =>
      map (fun tool_call => (call_of tool_call).1) (List.filter valid_tool_call tool_calls)
  | _ => []
  end.

(** A computation whose frames, outcome and accumulator do not depend on
    the session id and the log buffer of the processor it starts from. *)
Definition log_blind {A} (m : Gen A) : Prop :=
  forall self sid buf, exists buf',
    m (relog sid buf self)
    = (relog sid buf' (Gen.state_of (m self)), Gen.frames_of (m self),
       Gen.outcome_of (m self)).

(** How an accumulator may differ after message chunks that name the call
    ids [named] and request tool calls for the ids [requested]: the entry
    of any other id is as before, and an entry that exists was there before
    or was requested. *)
Definition footprint (named requested : list string)
           (before after : gmap string pydict) : Prop :=
  (forall id, ~ In id named -> after !! id = before !! id)
  /\ (forall id, is_Some (after !! id) -> is_Some (before !! id) \/ In id requested).

(** The text that a frame adds to the answer: the content of a [delta]
    record, nothing for any other frame. *)
Definition delta_text (f : Frame) : string :=
  if has_type "delta" f then
    match frame_field "content" f with
    | Some (JStr s) => s
    | _ => ""
    end
  else "".

(** The answer text that a stream carries. *)
Definition stream_text (out : list Frame) : string :=
  fold_right (fun f rest => delta_text f +:+ rest) "" out.

(** The tool result that a frame reports: the call id and the content of a
    [tool_result] record. *)
Definition frame_result (f : Frame) : option (string * JVal) :=
  if has_type "tool_result" f then
    match frame_field "tool_call_id" f, frame_field "content" f with
    | Some (JStr id), Some content => Some (id, content)
    | _, _ => None
    end
  else None.

(** The tool result that a message chunk is. *)
Definition message_result (message_chunk : Chunk) : option (string * JVal) :=
  match message_chunk with
  | CToolMessage tool_call_id content => Some (tool_call_id, content)
  | _ => None
  end.

Section MessageText.
Context `{Externals}.

(** The text of a message chunk: that of the content of an assistant
    chunk. *)
Definition message_text (message_chunk : Chunk) : string :=
  match message_chunk with
  | CAIMessageChunk content _ _ => text_of content
  | _ => ""
  end.

End MessageText.

(** ** [agent_service.create_agent] and the chat endpoint *)

Definition missing_key_error : Exn :=
  mkExn "RuntimeError"
    "未配置 OPENAI_API_KEY。请在 backend/.env 中设置，可参考 env.example（cp env.example .env）。".

(** [create_agent()]: [OPENAI_API_KEY] is the module constant (the
    environment variable, stripped), [build] what constructing the model
    and [create_react_agent] give. *)
Definition create_agent_with (OPENAI_API_KEY : string) (build : Outcome Agent)
  : Outcome Agent :=
  if String.eqb OPENAI_API_KEY "" then Raise missing_key_error else build.

(** The body of a request to [/chat] ([routers/chat.py], [ChatRequest]). *)
Record ChatRequest : Type := mkChatRequest {
  req_message : string;
  req_messages : option (list pydict);
  req_session_id : option string
}.

(** Lines 103-107 of [chat]: the history, or the empty list when it is
    absent or empty, followed by the new user message. *)
Definition chat_messages (request : ChatRequest) : list pydict :=
  (match req_messages request with
   | Some ((_ :: _) as history) => history
   | _ => []
   end)
  ++ [[("role", JStr "user"); ("content", JStr (req_message request))]].

(** [chat]: the body of the streaming response. *)
Definition chat `{Externals} (env : Env) (request : ChatRequest) : list Frame :=
  process_chat_stream env (chat_messages request) (req_session_id request).

(** ** The canvas history ([services/history_service.py])

    The history file is kept as what reading it gives: [json.loads] of a
    text that [json.dump] wrote is the value that was written, so a file
    that was saved holds its data.  Whether the file and its backup can be
    written is part of the store, since [_save_data] and [_load_data]
    swallow the exceptions of the file system. *)

(** The class of a JSON value, as the interpreter prints it. *)
Definition json_class (v : JVal) : string :=
  match v with
  | JNull => "NoneType"
  | JBool _ => "bool"
  | JInt _ => "int"
  | JStr _ => "str"
  | JList _ => "list"
  | JDict _ => "dict"
  end.

(** [a == b] on JSON values: [True] and [False] are the numbers 1 and 0,
    lists are compared item by item, dicts as mappings. *)
Fixpoint py_eq (a b : JVal) : bool :=
  match a, b with
  | JNull, JNull => true
  | JBool x, JBool y => Bool.eqb x y
  | JBool x, JInt n => n =? (if x then 1 else 0)
  | JInt n, JBool x => n =? (if x then 1 else 0)
  | JInt n, JInt m => n =? m
  | JStr s, JStr t => String.eqb s t
  | JList xs, JList ys =>
      (fix items (l l' : list JVal) : bool :=
         match l, l' with
         | [], [] => true
         | x :: r, y :: r' => py_eq x y && items r r'
         | _, _ => false
         end) xs ys
  | JDict kvs, JDict kvs' =>
      Nat.eqb (length kvs) (length kvs')
      && (fix members (l : list (string * JVal)) : bool :=
            match l with
            | [] => true
            | (k, x) :: r =>
                match PyDict.get k kvs' with
                | Some y => py_eq x y && members r
                | None => false
                end
            end) kvs
  | _, _ => false
  end.

(** [v.get(k)] *)
Definition json_get (k : string) (v : JVal) : Outcome JVal :=
  match v with
  | JDict d => Return (py_get k d)
  | _ => Raise (mkExn "AttributeError"
                  ("'" +:+ json_class v +:+ "' object has no attribute 'get'"))
  end.

(** What is at the path of the history file. *)
Inductive FileContent : Type :=
| Missing                   (* no file *)
| Blank                     (* a text that is empty once stripped *)
| Parsed (data : JVal)      (* a text that [json.loads] reads as [data] *)
| Corrupt (text : string)   (* a text on which [json.loads] raises [JSONDecodeError] *)
| Unreadable.               (* opening or decoding the file raises *)

Record Store : Type := mkStore {
  history_file : FileContent;
  backup_file : FileContent;          (* the path with [.backup] appended *)
  writable : bool;                    (* opening the history file for writing succeeds *)
  backup_writable : bool;             (* [shutil.copy2] to the backup path succeeds *)
  makedirs_failure : option Exn       (* what [os.makedirs] raises, if it does *)
}.

Definition set_history_file (c : FileContent) (st : Store) : Store :=
  {| history_file := c; backup_file := backup_file st; writable := writable st;
     backup_writable := backup_writable st; makedirs_failure := makedirs_failure st |}.

Definition set_backup_file (c : FileContent) (st : Store) : Store :=
  {| history_file := history_file st; backup_file := c; writable := writable st;
     backup_writable := backup_writable st; makedirs_failure := makedirs_failure st |}.

(** [HistoryService._save_data]: a failed write is logged and nothing
    else. *)
Definition _save_data (data : JVal) (st : Store) : Store :=
  if writable st then set_history_file (Parsed data) st else st.

(** [HistoryService._load_data] *)
Definition _load_data (st : Store) : Store * JVal :=
  match history_file st with
  | Missing => (st, JList [])
  | Blank => (st, JList [])
  | Parsed data => (st, data)
  | Corrupt text =>
      if backup_writable st
      then (_save_data (JList []) (set_backup_file (Corrupt text) st), JList [])
      else (st, JList [])
  | Unreadable => (st, JList [])
  end.

(** [HistoryService._ensure_storage_dir], the body of [__init__]. *)
Definition _ensure_storage_dir (st : Store) : Store * Outcome unit :=
  match makedirs_failure st with
  | Some e => (st, Raise e)
  | None =>
      match history_file st with
      | Parsed _ => (st, Return tt)
      | _ => (_save_data (JList []) st, Return tt)
      end
  end.

Definition get_canvases (st : Store) : Store * JVal := _load_data st.

(** Lines 88-92 of [save_canvas]: the index of the first canvas whose id
    equals that of [canvas_data], counted from [i]. *)
Fixpoint find_index (canvas_data : JVal) (canvases : list JVal) (i : nat)
  : Outcome (option nat) :=
  match canvases with
  | [] => Return None
  | c :: rest =>
      match json_get "id" c with
      | Raise e => Raise e
      | Return id_c =>
          match json_get "id" canvas_data with
          | Raise e => Raise e
          | Return id_new =>
              if py_eq id_c id_new then Return (Some i)
              else find_index canvas_data rest (S i)
          end
      end
  end.

(** What the loops of [save_canvas] and [delete_canvas] raise on a loaded
    value that is not a list, [None] when they run through: a dict or a str
    is iterated, and its first item, a str, has no [get]; the empty dict and
    the empty str have no item. *)
Definition iteration_error (canvases : JVal) : option Exn :=
  let no_get := mkExn "AttributeError" "'str' object has no attribute 'get'" in
  match canvases with
  | JList _ => None
  | JDict [] => None
  | JDict (_ :: _) => Some no_get
  | JStr s => if String.eqb s "" then None else Some no_get
  | _ => Some (mkExn "TypeError"
                 ("'" +:+ json_class canvases +:+ "' object is not iterable"))
  end.

(** [HistoryService.save_canvas] *)
Definition save_canvas (canvas_data : JVal) (st : Store) : Store * Outcome JVal :=
  let (st1, canvases) := _load_data st in
  match canvases with
  | JList cs =>
      match find_index canvas_data cs 0 with
      | Raise e => (st1, Raise e)
      | Return (Some index) =>
          (_save_data (JList (<[index := canvas_data]> cs)) st1, Return canvas_data)
      | Return None =>
          (_save_data (JList (canvas_data :: cs)) st1, Return canvas_data)
      end
  | _ =>
      match iteration_error canvases with
      | Some e => (st1, Raise e)
      | None =>
          (st1, Raise (mkExn "AttributeError"
                         ("'" +:+ json_class canvases
                          +:+ "' object has no attribute 'insert'")))
      end
  end.

(** Line 104: the canvases whose id differs from [canvas_id]. *)
Fixpoint keep_others (canvas_id : string) (canvases : list JVal)
  : Outcome (list JVal) :=
  match canvases with
  | [] => Return []
  | c :: rest =>
      match json_get "id" c with
      | Raise e => Raise e
      | Return id_c =>
          match keep_others canvas_id rest with
          | Raise e => Raise e
          | Return kept =>
              Return (if py_eq id_c (JStr canvas_id) then kept else c :: kept)
          end
      end
  end.

(** [HistoryService.delete_canvas] *)
Definition delete_canvas (canvas_id : string) (st : Store) : Store * Outcome bool :=
  let (st1, canvases) := _load_data st in
  match canvases with
  | JList cs =>
      match keep_others canvas_id cs with
      | Raise e => (st1, Raise e)
      | Return kept => (_save_data (JList kept) st1, Return true)
      end
  | _ =>
      match iteration_error canvases with
      | Some e => (st1, Raise e)
      | None => (_save_data (JList []) st1, Return true)
      end
  end.

(** *** Notions for the canvas history *)

(** The id of a stored canvas, [None] read as [null]. *)
Definition canvas_id_of (c : JVal) : JVal :=
  match c with
  | JDict d => py_get "id" d
  | _ => JNull
  end.

Definition is_dict (c : JVal) : bool :=
  match c with
  | JDict _ => true
  | _ => false
  end.

(** A canvas whose id is [id]. *)
Definition has_id (id : JVal) (c : JVal) : bool := py_eq (canvas_id_of c) id.

(** The id of a canvas that is a dict with a string id, as [Canvas]
    declares it. *)
Definition string_id (c : JVal) : option string :=
  match c with
  | JDict d =>
      match PyDict.get "id" d with
      | Some (JStr s) => Some s
      | _ => None
      end
  | _ => None
  end.

(** A list of canvases with string ids, no two of them equal. *)
Definition distinct_ids (cs : list JVal) : Prop :=
  Forall (fun c => is_Some (string_id c)) cs /\ NoDup (omap string_id cs).

Module SampleStore.

Definition canvas (id name : string) : JVal :=
  JDict [("id", JStr id); ("name", JStr name)].

Definition canvases : list JVal := [canvas "a" "first"; canvas "b" "second"].

(** A store that holds two canvases. *)
Definition store : Store :=
  {| history_file := Parsed (JList canvases); backup_file := Missing;
     writable := true; backup_writable := true; makedirs_failure := None |}.

(** The same store on a file system that refuses writes. *)
Definition read_only : Store :=
  {| history_file := Parsed (JList canvases); backup_file := Missing;
     writable := false; backup_writable := false; makedirs_failure := None |}.

(** A store whose history file is cut off in the middle. *)
Definition damaged : Store :=
  {| history_file := Corrupt "[{"; backup_file := Missing;
     writable := true; backup_writable := true; makedirs_failure := None |}.

(** A store whose history file holds an object, not a list. *)
Definition broken : Store :=
  {| history_file := Parsed (JDict [("version", JInt 1)]); backup_file := Missing;
     writable := true; backup_writable := true; makedirs_failure := None |}.

End SampleStore.

(** ** Image sizes ([tools/volcano_image_generation.py]) *)

Definition ASPECT_RATIO_MAP : list (string * (Z * Z)) :=
  [("1:1", (2048, 2048)); ("4:3", (2304, 1728)); ("3:4", (1728, 2304));
   ("16:9", (2560, 1440)); ("9:16", (1440, 2560)); ("3:2", (2496, 1664));
   ("2:3", (1664, 2496)); ("21:9", (3024, 1296))].

(** [ASPECT_RATIO_MAP.get(size)] *)
Definition aspect_ratio (size : string) : option (Z * Z) :=
  snd <$> List.find (fun kv => String.eqb size (fst kv)) ASPECT_RATIO_MAP.

(** [c.upper()] for an ASCII letter; other bytes are kept. *)
Definition upper_char (c : ascii) : ascii :=
  let n := nat_of_ascii c in
  if (Nat.leb 97 n && Nat.leb n 122)%bool then ascii_of_nat (n - 32) else c.

(** [s.upper()] on ASCII text.  [parse_size] only compares the result with
    [2K], [4K] and [1K], and returns it when it is one of them; no character
    outside ASCII has an upper case that occurs in these names, so the
    comparison does not depend on how other characters are mapped. *)
Fixpoint upper (s : string) : string :=
  match s with
  | EmptyString => EmptyString
  | String c s' => String (upper_char c) (upper s')
  end.

(** [s.replace(old, new)] for single characters. *)
Fixpoint replace_char (old new : ascii) (s : string) : string :=
  match s with
  | EmptyString => EmptyString
  | String c s' => String (if Ascii.eqb c old then new else c) (replace_char old new s')
  end.

(** [s.split(sep)] for a single character. *)
Fixpoint split_char (sep : ascii) (s : string) : list string :=
  match s with
  | EmptyString => [EmptyString]
  | String c s' =>
      if Ascii.eqb c sep then EmptyString :: split_char sep s'
      else match split_char sep s' with
           | part :: parts => String c part :: parts
           | [] => [String c EmptyString]
           end
  end.

(** [f"{width}x{height}"] *)
Definition pixels (wh : Z * Z) : string :=
  Json.dumps_int (fst wh) +:+ "x" +:+ Json.dumps_int (snd wh).

Definition api_sizes : list string := ["2K"; "4K"; "1K"].

Section ParseSize.

(** [int(s.strip())]: the integer, or [None] when [int] raises
    [ValueError]. *)
Variable py_int : string -> option Z.

(** Lines 85-93: the custom format [widthxheight]. *)
Definition custom_size (size : string) : option string :=
  if PyStr.contains "x" size || PyStr.contains "X" size then
    match split_char "x" (replace_char "X" "x" size) with
    | [part0; part1] =>
        match py_int part0 with
        | Some width =>
            match py_int part1 with
            | Some height => Some (pixels (width, height))
            | None => None
            end
        | None => None
        end
    | _ => None
    end
  else None.

Definition parse_size (size : string) : string :=
  if existsb (String.eqb (upper size)) api_sizes then upper size
  else
    match aspect_ratio size with
    | Some wh => pixels wh
    | None =>
        match custom_size size with
        | Some result => result
        | None => pixels (default (2048, 2048) (aspect_ratio "1:1"))
        end
    end.

End ParseSize.

(** *** Notions for sizes *)

(** The number of separators, [x] or [X], in a size. *)
Fixpoint separators (s : string) : nat :=
  match s with
  | EmptyString => O
  | String c s' =>
      ((if (Ascii.eqb c "x" || Ascii.eqb c "X")%bool then 1 else 0) + separators s')%nat
  end.

Fixpoint has_char (c : ascii) (s : string) : bool :=
  match s with
  | EmptyString => false
  | String c' s' => Ascii.eqb c' c || has_char c s'
  end.

Module SampleSizes.

(** A reader of plain decimal text, for the examples. *)
Definition decimal_int (s : string) : option Z :=
  Z.of_int <$> NilZero.int_of_string s.

End SampleSizes.

(** ** Image inputs ([tools/volcano_image_generation.py], [prepare_image_input]) *)

(** What is at a path below [BASE_DIR]. *)
Inductive FileRead : Type :=
| NoFile                          (* [exists()] is false *)
| FileData (image_data : string)  (* the bytes that [f.read()] returns *)
| ReadError (e : Exn).            (* the file exists and reading it raises *)

(** The file system and the library functions that [prepare_image_input]
    calls; a path is given by the text that is joined to [BASE_DIR]. *)
Class ImageFiles : Type := {
  (** the file at [BASE_DIR / path] *)
  read_file : string -> FileRead;
  (** [str(BASE_DIR / path)] *)
  path_str : string -> string;
  (** [(BASE_DIR / path).suffix.lower()] *)
  suffix_lower : string -> string;
  (** [base64.b64encode(image_data).decode("utf-8")] *)
  b64encode : string -> string;
  (** [urlparse(url)]: its [hostname] and its [path] *)
  urlparse : string -> Outcome (option string * string)
}.

(** [s.lstrip("/")] *)
Fixpoint lstrip_slash (s : string) : string :=
  match s with
  | String c s' => if Ascii.eqb c "/" then lstrip_slash s' else s
  | EmptyString => EmptyString
  end.

(** [s[:n]]: the first [n] code points. *)
Fixpoint take_chars (n : nat) (s : string) : string :=
  match s with
  | EmptyString => EmptyString
  | String c s' =>
      let b := nat_of_ascii c in
      if (Nat.leb 128 b && Nat.ltb b 192)%bool then String c (take_chars n s')
      else match n with
           | O => EmptyString
           | S n' => String c (take_chars n' s')
           end
  end.

Definition public_url_error (image_url : string) : Exn :=
  mkExn "ValueError"
    ("不支持公网URL（会过期）: " +:+ take_chars 50 image_url +:+ "..." +:+ nl
     +:+ "请使用本地路径（如 /storage/images/xxx.jpg）或 localhost URL（如 http://localhost:8000/storage/images/xxx.jpg）").

(** The test of line 151 on [parsed.hostname]. *)
Definition local_host (hostname : option string) : bool :=
  match hostname with
  | None => false
  | Some h =>
      existsb (String.eqb h) ["localhost"; "127.0.0.1"; "0.0.0.0"]
      || (negb (String.eqb h "") && PyStr.contains "localhost" h)
  end.

Section PrepareImageInput.

Context `{ImageFiles}.

(** Lines 115-146: a local path. *)
Definition read_local_path (image_url : string) : Outcome string :=
  let file_path := lstrip_slash image_url in
  match read_file file_path with
  | NoFile => Raise (mkExn "FileNotFoundError" ("本地文件不存在: " +:+ path_str file_path))
  | ReadError e => Raise e
  | FileData image_data =>
      let ext := suffix_lower file_path in
      let image_format :=
        if existsb (String.eqb ext) [".jpg"; ".jpeg"] then "jpeg"
        else if String.eqb ext ".png" then "png"
        else if String.eqb ext ".webp" then "webp"
        else if String.eqb ext ".bmp" then "bmp"
        else if existsb (String.eqb ext) [".tiff"; ".tif"] then "tiff"
        else if String.eqb ext ".gif" then "gif"
        else "jpeg" in
      let base64_data := b64encode image_data in
      Return ("data:image/" +:+ image_format +:+ ";base64," +:+ base64_data)
  end.

(** Lines 153-181: the path of a localhost URL. *)
Definition read_localhost_path (path : string) : Outcome string :=
  let file_path := lstrip_slash path in
  match read_file file_path with
  | NoFile => Raise (mkExn "FileNotFoundError" ("本地文件不存在: " +:+ path_str file_path))
  | ReadError e => Raise e
  | FileData image_data =>
      let ext := suffix_lower file_path in
      let image_format :=
        if existsb (String.eqb ext) [".jpg"; ".jpeg"] then "jpeg"
        else if String.eqb ext ".png" then "png"
        else if String.eqb ext ".webp" then "webp"
        else if String.eqb ext ".bmp" then "bmp"
        else if existsb (String.eqb ext) [".tiff"; ".tif"] then "tiff"
        else if String.eqb ext ".gif" then "gif"
        else "jpeg" in
      let base64_data := b64encode image_data in
      Return ("data:image/" +:+ image_format +:+ ";base64," +:+ base64_data)
  end.

Definition prepare_image_input (image_url : string) : Outcome string :=
  if String.prefix "/storage/" image_url then read_local_path image_url
  else
    match urlparse image_url with
    | Raise e => Raise e
    | Return (hostname, path) =>
        if local_host hostname && String.prefix "/storage/" path
        then read_localhost_path path
        else Raise (public_url_error image_url)
    end.

End PrepareImageInput.

(** The image formats that a prepared input can name. *)
Definition image_formats : list string := ["jpeg"; "png"; "webp"; "bmp"; "tiff"; "gif"].

Module SampleFiles.

(** A storage directory that holds one image, and the library functions on
    the paths and URLs of the examples. *)
Definition files : ImageFiles :=
  {| read_file := fun path =>
       if String.eqb path "storage/images/cat.png" then FileData "abc" else NoFile;
     path_str := fun path => "/app/backend/" +:+ path;
     suffix_lower := fun path =>
       if String.eqb path "storage/images/cat.png" then ".png" else "";
     b64encode := fun _ => "YWJj";
     urlparse := fun url =>
       if String.eqb url "http://localhost:8000/storage/images/cat.png"
       then Return (Some "localhost", "/storage/images/cat.png")
       else Return (Some "example.com", "/cat.png") |}.

(** A base directory next to whose storage directory lies a file
    [secret.jpg]; a plain path has no host and is its own path. *)
Definition outside : ImageFiles :=
  {| read_file := fun path =>
       if String.eqb path "storage/../secret.jpg" then FileData "key" else NoFile;
     path_str := fun path => "/app/backend/" +:+ path;
     suffix_lower := fun path =>
       if String.eqb path "storage/../secret.jpg" then ".jpg" else "";
     b64encode := fun _ => "a2V5";
     urlparse := fun url => Return (None, url) |}.

End SampleFiles.

(** ** Uploads ([routers/chat.py], [upload_image]) *)

(** The part of [s] after the last [sep], [None] when [sep] does not
    occur. *)
Fixpoint last_segment (sep : ascii) (s : string) : option string :=
  match s with
  | EmptyString => None
  | String c s' =>
      match last_segment sep s' with
      | Some r => Some r
      | None => if Ascii.eqb c sep then Some s' else None
      end
  end.

(** [s.lstrip(".")] *)
Fixpoint lstrip_dot (s : string) : string :=
  match s with
  | String c s' => if Ascii.eqb c "." then lstrip_dot s' else s
  | EmptyString => EmptyString
  end.

(** [os.path.splitext(p)[1]] on POSIX: the text from the last dot of the
    last path component on, provided the dot is not one of the dots that
    the component starts with. *)
Definition splitext_ext (p : string) : string :=
  let name := default p (last_segment "/" p) in
  match last_segment "." (lstrip_dot name) with
  | Some e => String "." e
  | None => EmptyString
  end.

(** What [upload_image] reads of the uploaded file. *)
Record UploadFile : Type := mkUploadFile {
  upload_filename : option string;
  upload_content_type : option string
}.

(** The surroundings of [upload_image]. *)
Class UploadEnv : Type := {
  (** what [IMAGES_DIR.mkdir] raises, if it does *)
  mkdir_failure : option Exn;
  (** [datetime.now().strftime("%Y%m%d_%H%M%S")] *)
  timestamp : string;
  (** [str(uuid.uuid4())[:8]] *)
  unique_id : string;
  (** what opening the file of that name, reading the upload or writing it
      raises, if one of them does *)
  save_failure : string -> option Exn;
  (** [str(HTTPException(status_code, detail))] *)
  http_exception_str : Z -> string -> string
}.

(** The answer of an endpoint: the body it returns, or the [HTTPException]
    it raises. *)
Inductive HTTPResult : Type :=
| Responded (body : pydict)
| HTTPException (status_code : Z) (detail : string).

Section UploadImage.

Context `{UploadEnv}.

(** Lines 74-79: the name the upload is stored under. *)
Definition upload_name (file : UploadFile) : string :=
  let original_filename :=
    match upload_filename file with
    | Some name => if String.eqb name "" then "image" else name
    | None => "image"
    end in
  let ext := splitext_ext original_filename in
  let ext := if String.eqb ext "" then ".jpg" else ext in
  let ext := if negb (String.prefix "." ext) then ".jpg" else ext in
  "upload_" +:+ timestamp +:+ "_" +:+ unique_id +:+ ext.

Definition upload_image (file : UploadFile) : HTTPResult :=
  let failed (text : string) := HTTPException 500 ("上传失败: " +:+ text) in
  match mkdir_failure with
  | Some e => failed (exn_str e)
  | None =>
      let content_type := default "" (upload_content_type file) in
      if negb (String.prefix "image/" content_type)
      then failed (http_exception_str 400 "只支持图片文件")
      else
        let filename := upload_name file in
        match save_failure filename with
        | Some e => failed (exn_str e)
        | None =>
            Responded [("url", JStr ("/storage/images/" +:+ filename));
                       ("filename", JStr filename)]
        end
  end.

End UploadImage.

Module SampleUpload.

Definition env : UploadEnv :=
  {| mkdir_failure := None;
     timestamp := "20250101_120000";
     unique_id := "1a2b3c4d";
     save_failure := fun _ => None;
     http_exception_str := fun status_code detail => "400: " +:+ detail |}.

(** An upload whose name tries to leave the images directory. *)
Definition file : UploadFile :=
  {| upload_filename := Some "../../etc/passwd.png";
     upload_content_type := Some "image/png" |}.

End SampleUpload.

(** Runs one iteration of the loop over [tool_calls] on a processor whose
    lookup of the call id is known ([Hl]). *)
Ltac run_tool_call Hl :=
  unfold update_args;
  repeat (cbn;
          unfold Gen.bind, Gen.modify, Gen.get_self, Gen.yield, Gen.when, Gen.ret,
            Gen.raise;
          rewrite ?Hl, ?lookup_insert_eq);
  unfold set_tool_call_args; cbn;
  rewrite ?insert_insert_eq, ?(insert_id _ _ _ Hl); reflexivity.

(** ** Running generators *)

Section GenFacts.

Context {A B : Type}.

Lemma bind_return (m : Gen A) (k : A -> Gen B) self self1 out1 a :
  m self = (self1, out1, Return a) ->
  Gen.bind m k self =
    (Gen.state_of (k a self1), out1 ++ Gen.frames_of (k a self1),
     Gen.outcome_of (k a self1)).
Proof.
  intros Hm. unfold Gen.bind. rewrite Hm.
  destruct (k a self1) as [[s2 o2] r2]. reflexivity.
Qed.

Lemma bind_raise (m : Gen A) (k : A -> Gen B) self self1 out1 e :
  m self = (self1, out1, Raise e) ->
  Gen.bind m k self = (self1, out1, Raise e).
Proof. intros Hm. unfold Gen.bind. rewrite Hm. reflexivity. Qed.

End GenFacts.

Lemma triple_eta {A} (r : StreamProcessor * list Frame * Outcome A) :
  r = (Gen.state_of r, Gen.frames_of r, Gen.outcome_of r).
Proof. destruct r as [[s o] x]. reflexivity. Qed.

Lemma try_except_returns (m : Gen unit) (h : Exn -> Gen unit) :
  (forall e, returns (h e)) -> returns (Gen.try_except m h).
Proof.
  intros Hh self. unfold Gen.try_except.
  destruct (m self) as [[s1 o1] [[]|e]]; [exists tt; reflexivity|].
  destruct (Hh e s1) as [a Ha].
  destruct (h e s1) as [[s2 o2] r2]. simpl in *. subst. exists a. reflexivity.
Qed.

Lemma yield_returns f : returns (Gen.yield f).
Proof. intros self. exists tt. reflexivity. Qed.

(** A loop whose body always returns runs to the end, and the run over a
    concatenation is the run over the first part followed by the run over
    the second part from the state the first part leaves. *)
Lemma for_each_returns {A} (xs : list A) (body : A -> Gen unit) :
  (forall x, returns (body x)) -> returns (Gen.for_each xs body).
Proof.
  intros Hb. induction xs as [|x xs IH]; intros self; simpl.
  - exists tt. reflexivity.
  - destruct (Hb x self) as [[] Hx].
    rewrite (triple_eta (body x self)) in *. simpl in Hx.
    unfold Gen.bind. rewrite (triple_eta (body x self)). rewrite Hx.
    destruct (IH (Gen.state_of (body x self))) as [[] Hr].
    destruct (Gen.for_each xs body _) as [[s2 o2] r2]. simpl in *.
    exists tt. assumption.
Qed.

Lemma for_each_cons_returns {A} (x : A) (xs : list A) (body : A -> Gen unit) self :
  returns (body x) ->
  Gen.for_each (x :: xs) body self =
    let r := Gen.for_each xs body (Gen.state_of (body x self)) in
    (Gen.state_of r, Gen.frames_of (body x self) ++ Gen.frames_of r, Gen.outcome_of r).
Proof.
  intros Hx. destruct (Hx self) as [[] H1]. simpl.
  rewrite (bind_return _ _ self (Gen.state_of (body x self))
             (Gen.frames_of (body x self)) tt).
  - reflexivity.
  - rewrite <- H1. apply triple_eta.
Qed.

Lemma for_each_app_returns {A} (xs ys : list A) (body : A -> Gen unit) self :
  (forall x, returns (body x)) ->
  Gen.for_each (xs ++ ys) body self =
    let r1 := Gen.for_each xs body self in
    let r2 := Gen.for_each ys body (Gen.state_of r1) in
    (Gen.state_of r2, Gen.frames_of r1 ++ Gen.frames_of r2, Gen.outcome_of r2).
Proof.
  intros Hb. revert self. induction xs as [|x xs IH]; intros self.
  - cbn. apply triple_eta.
  - rewrite <- app_comm_cons.
    rewrite !for_each_cons_returns by apply Hb.
    cbv zeta. rewrite IH. cbv zeta. simpl. rewrite <- app_assoc. reflexivity.
Qed.

(** ** Dict operations *)

Module PyDictFacts.
Import PyDict.

Lemma get_set_eq k v d : get k (set k v d) = Some v.
Proof.
  induction d as [|[k' v'] d IH]; simpl.
  - rewrite String.eqb_refl. reflexivity.
  - destruct (String.eqb k k') eqn:E; simpl.
    + rewrite String.eqb_refl. reflexivity.
    + rewrite E. exact IH.
Qed.

Lemma get_set_ne k k' v d : k <> k' -> get k' (set k v d) = get k' d.
Proof.
  intros Hne. induction d as [|[k0 v0] d IH]; simpl.
  - destruct (String.eqb k' k) eqn:E; [|reflexivity].
    apply String.eqb_eq in E. congruence.
  - destruct (String.eqb k k0) eqn:E; simpl.
    + apply String.eqb_eq in E. subst k0.
      destruct (String.eqb k' k) eqn:E'; [|reflexivity].
      apply String.eqb_eq in E'. congruence.
    + rewrite IH. reflexivity.
Qed.

Lemma update_nil d : update d [] = d.
Proof. reflexivity. Qed.

Lemma update_cons d k v other : update d ((k, v) :: other) = update (set k v d) other.
Proof. reflexivity. Qed.

Lemma update_app d a b : update d (a ++ b) = update (update d a) b.
Proof. unfold update. apply fold_left_app. Qed.

Lemma get_update_notin k d other :
  k ∉ keys other -> get k (update d other) = get k d.
Proof.
  revert d. induction other as [|[k' v'] other IH]; intros d Hk; [reflexivity|].
  rewrite update_cons. unfold keys in *. simpl in Hk.
  rewrite IH by (intros Hin; apply Hk; right; exact Hin).
  apply get_set_ne. intros ->. apply Hk. left.
Qed.

Lemma get_update_last k v d pre post :
  k ∉ keys post -> get k (update d (pre ++ (k, v) :: post)) = Some v.
Proof.
  intros Hk. rewrite update_app, update_cons.
  rewrite get_update_notin by exact Hk. apply get_set_eq.
Qed.

Lemma get_set_is_Some k k' v d : is_Some (get k' d) -> is_Some (get k' (set k v d)).
Proof.
  intros Hs. destruct (String.eqb_spec k k') as [->|Hne].
  - rewrite get_set_eq. eauto.
  - rewrite get_set_ne by exact Hne. exact Hs.
Qed.

Lemma get_update_is_Some k d other :
  is_Some (get k d) -> is_Some (get k (update d other)).
Proof.
  revert d. induction other as [|[k' v'] other IH]; intros d Hs; [exact Hs|].
  rewrite update_cons. apply IH, get_set_is_Some, Hs.
Qed.

Lemma get_Some_keys k d : is_Some (get k d) <-> k ∈ keys d.
Proof.
  unfold keys. induction d as [|[k' v'] d IH]; simpl.
  - split; [intros [? ?]; discriminate | intros Hin; inversion Hin].
  - destruct (String.eqb_spec k k') as [->|Hne].
    + split; [intros _; left | eauto].
    + rewrite IH. split; [intros Hin; right; exact Hin|].
      intros Hin. inversion Hin; subst; [congruence | assumption].
Qed.

Lemma set_same k v d : get k d = Some v -> set k v d = d.
Proof.
  induction d as [|[k' v'] d IH]; simpl; [discriminate|].
  destruct (String.eqb_spec k k') as [->|Hne].
  - intros [= ->]. reflexivity.
  - intros Hg. rewrite IH by exact Hg. reflexivity.
Qed.

Lemma update_same d other :
  (forall k v, (k, v) ∈ other -> get k d = Some v) -> update d other = d.
Proof.
  induction other as [|[k v] other IH]; intros Hall; [reflexivity|].
  rewrite update_cons, set_same.
  - apply IH. intros k' v' Hin. apply Hall. right. exact Hin.
  - apply Hall. left.
Qed.

Lemma get_update_in k v d other :
  NoDup (keys other) -> (k, v) ∈ other -> get k (update d other) = Some v.
Proof.
  intros Hnd Hin. apply list_elem_of_split in Hin as (pre & post & ->).
  apply get_update_last.
  unfold keys in *. rewrite map_app in Hnd. cbn in Hnd.
  apply NoDup_app in Hnd as (_ & _ & Hnd). apply NoDup_cons in Hnd as [Hk _]. exact Hk.
Qed.

(** Merging the same mapping again changes nothing. *)
Lemma update_idempotent d other :
  NoDup (keys other) -> update (update d other) other = update d other.
Proof.
  intros Hnd. apply update_same. intros k v Hin. apply get_update_in; assumption.
Qed.
End PyDictFacts.

(** ** The steps of [_handle_message_chunk] *)

Lemma str_falsy_Some s : str_falsy (Some s) = false <-> s <> "".
Proof.
  simpl. destruct (String.eqb_spec s ""); split; congruence.
Qed.

Lemma set_tool_call_args_same self :
  set_tool_call_args (tool_call_args self) self = self.
Proof. destruct self; reflexivity. Qed.

Section HandlerFacts.
Context `{Externals}.

Lemma handle_tool_call_skip tool_call self :
  str_falsy (tc_name tool_call) || str_falsy (tc_id tool_call) = true ->
  handle_tool_call tool_call self = (self, [], Return tt).
Proof. intros Hs. unfold handle_tool_call. rewrite Hs. reflexivity. Qed.

Lemma handle_tool_call_dict id name args self :
  id <> "" -> name <> "" ->
  handle_tool_call (mkToolCall (Some id) (Some name) (ArgsDict args)) self =
    (set_tool_call_args (<[id := merged_args self id args]> (tool_call_args self)) self,
     [FData (tool_call_event id name (merged_args self id args))],
     Return tt).
Proof.
  intros Hid Hname. unfold handle_tool_call, merged_args.
  apply str_falsy_Some in Hid, Hname. cbn [tc_name tc_id tc_args].
  rewrite Hid, Hname. cbn [orb default].
  destruct self as [sid buf tca lim].
  destruct (tca !! id) as [entry|] eqn:Hl; destruct args as [|kv args].
  all: run_tool_call Hl.
Qed.

Lemma handle_tool_call_text id name s self :
  id <> "" -> name <> "" -> s <> "" ->
  handle_tool_call (mkToolCall (Some id) (Some name) (ArgsText s)) self =
    (set_tool_call_args
       (<[id := default [] (tool_call_args self !! id)]> (tool_call_args self)) self,
     [],
     Raise (mkExn "ValueError"
              "dictionary update sequence element #0 has length 1; 2 is required")).
Proof.
  intros Hid Hname Hs. unfold handle_tool_call.
  apply str_falsy_Some in Hid, Hname. cbn [tc_name tc_id tc_args].
  rewrite Hid, Hname. cbn [orb default].
  assert (Ht : args_truthy (ArgsText s) = true).
  { simpl. destruct (String.eqb_spec s ""); [contradiction | reflexivity]. }
  rewrite Ht.
  destruct self as [sid buf tca lim].
  destruct (tca !! id) as [entry|] eqn:Hl.
  all: run_tool_call Hl.
Qed.

Lemma handle_tool_call_chunk_run tcc self :
  handle_tool_call_chunk tcc self =
    (self,
     (if truthy (py_get "args" (chunk_dict_of tcc))
      then [FData (tool_call_chunk_event
                     (default (JInt 0) (PyDict.get "index" (chunk_dict_of tcc)))
                     (py_get "id" (chunk_dict_of tcc))
                     (py_get "args" (chunk_dict_of tcc)))]
      else []),
     Return tt).
Proof.
  unfold handle_tool_call_chunk.
  destruct (truthy _); reflexivity.
Qed.

Lemma handle_tool_call_chunk_returns tcc : returns (handle_tool_call_chunk tcc).
Proof. intros self. rewrite handle_tool_call_chunk_run. exists tt. reflexivity. Qed.

Lemma handle_tool_message_run id content self :
  handle_tool_message id content self =
    (set_tool_call_args (delete id (tool_call_args self)) self,
     [FData (tool_result_event id content)], Return tt).
Proof.
  unfold handle_tool_message, Gen.bind, Gen.modify, Gen.yield.
  destruct self as [sid buf tca lim]. cbn.
  destruct (tca !! id) eqn:Hl; cbn; [reflexivity|].
  unfold set_tool_call_args; cbn. rewrite delete_id by exact Hl. reflexivity.
Qed.
End HandlerFacts.

Lemma when_nonempty {A} (l : list A) (body : A -> Gen unit) :
  Gen.when (match l with [] => false | _ => true end) (Gen.for_each l body)
  = Gen.for_each l body.
Proof. destruct l; reflexivity. Qed.

Section MessageFacts.
Context `{Externals}.

Lemma log_text_run s self :
  log_text s self = (Gen.state_of (log_text s self), [], Return tt).
Proof. reflexivity. Qed.

Lemma log_text_tool_call_args s self :
  tool_call_args (Gen.state_of (log_text s self)) = tool_call_args self.
Proof.
  unfold log_text, Gen.modify. cbn.
  destruct (_ || _); reflexivity.
Qed.

(** The text content: one [delta] frame for a non-empty text, and a state
    that differs in the log buffer only. *)
Lemma handle_content_run content self :
  handle_content content self =
    (if String.eqb (text_of content) "" then self
     else Gen.state_of (log_text (text_of content) self),
     if String.eqb (text_of content) "" then []
     else [FData (delta_event (text_of content))],
     Return tt).
Proof.
  unfold handle_content.
  destruct content as [|b|n|s|xs|kvs]; cbn [text_of negb andb]; try reflexivity.
  all: try (destruct (String.eqb (py_str _) ""); reflexivity).
  destruct (String.eqb s ""); reflexivity.
Qed.

Lemma handle_content_tool_call_args content self :
  tool_call_args (Gen.state_of (handle_content content self)) = tool_call_args self.
Proof.
  rewrite handle_content_run. cbn.
  destruct (String.eqb _ ""); [reflexivity | apply log_text_tool_call_args].
Qed.

Lemma handle_tool_call_falsy id name args self :
  id <> "" -> name <> "" -> args_truthy args = false ->
  handle_tool_call (mkToolCall (Some id) (Some name) args) self =
    (set_tool_call_args
       (<[id := default [] (tool_call_args self !! id)]> (tool_call_args self)) self,
     [FData (tool_call_event id name (default [] (tool_call_args self !! id)))],
     Return tt).
Proof.
  intros Hid Hname Ht. unfold handle_tool_call.
  apply str_falsy_Some in Hid, Hname. cbn [tc_name tc_id tc_args].
  rewrite Hid, Hname, Ht. cbn [orb default].
  destruct self as [sid buf tca lim].
  destruct (tca !! id) as [entry|] eqn:Hl.
  all: run_tool_call Hl.
Qed.

Lemma valid_tool_call_inv tool_call :
  valid_tool_call tool_call = true ->
  exists id name args, id <> "" /\ name <> "" /\
    tool_call = mkToolCall (Some id) (Some name) args.
Proof.
  destruct tool_call as [[id|] [name|] args]; unfold valid_tool_call; cbn;
    rewrite ?orb_true_r; try discriminate.
  intros Hv. exists id, name, args.
  destruct (String.eqb_spec name ""), (String.eqb_spec id ""); try discriminate.
  repeat split; assumption.
Qed.

(** What one tool-call entry does: it is skipped, or it yields one
    [tool_call] frame for its id and name, or it raises before yielding. *)
Lemma handle_tool_call_cases tool_call self :
  (valid_tool_call tool_call = false /\
   handle_tool_call tool_call self = (self, [], Return tt))
  \/ (valid_tool_call tool_call = true /\
      exists self' final_args,
        handle_tool_call tool_call self =
          (self',
           [FData (tool_call_event (call_of tool_call).1 (call_of tool_call).2 final_args)],
           Return tt))
  \/ (valid_tool_call tool_call = true /\
      (exists s, tc_args tool_call = ArgsText s /\ s <> "") /\
      exists self',
        handle_tool_call tool_call self =
          (self', [],
           Raise (mkExn "ValueError"
                    "dictionary update sequence element #0 has length 1; 2 is required"))).
Proof.
  destruct (valid_tool_call tool_call) eqn:Hv.
  - right. destruct (valid_tool_call_inv _ Hv) as (id & name & args & Hid & Hname & ->).
    cbn [tc_args call_of tc_id tc_name default fst snd].
    destruct args as [d| |s].
    + left. split; [reflexivity|]. eexists _, _. apply handle_tool_call_dict; assumption.
    + left. split; [reflexivity|]. eexists _, _.
      apply handle_tool_call_falsy; [assumption..|reflexivity].
    + destruct (String.eqb_spec s "") as [->|Hs].
      * left. split; [reflexivity|]. eexists _, _.
        apply handle_tool_call_falsy; [assumption..|reflexivity].
      * right. split; [reflexivity|]. split; [exists s; split; [reflexivity | exact Hs]|].
        eexists. apply handle_tool_call_text; assumption.
  - left. split; [reflexivity|]. apply handle_tool_call_skip.
    unfold valid_tool_call in Hv. apply negb_false_iff in Hv. exact Hv.
Qed.

End MessageFacts.

Section LoopFacts.
Context `{Externals}.

(** The loop over [tool_call_chunks] leaves the processor as it is and
    yields the frames of the entries in their order. *)
Lemma tool_call_chunks_loop_run tccs self :
  Gen.for_each tccs handle_tool_call_chunk self =
    (self, flat_map fragment_frames tccs, Return tt).
Proof.
  induction tccs as [|tcc tccs IH]; [reflexivity|].
  rewrite for_each_cons_returns by apply handle_tool_call_chunk_returns.
  rewrite handle_tool_call_chunk_run. cbn [Gen.state_of Gen.frames_of Gen.outcome_of fst snd].
  rewrite IH. reflexivity.
Qed.

Lemma tool_calls_loop_frames tcs self :
  let r := Gen.for_each tcs handle_tool_call self in
  Forall (fun f => has_type "tool_call" f = true) (Gen.frames_of r)
  /\ omap frame_call (Gen.frames_of r)
       `prefix_of` map call_of (List.filter valid_tool_call tcs)
  /\ (raises r = false ->
      omap frame_call (Gen.frames_of r) = map call_of (List.filter valid_tool_call tcs)).
Proof.
  revert self. induction tcs as [|tc tcs IH]; intros self.
  - cbn. repeat split; [constructor | reflexivity].
  - cbn zeta. cbn [Gen.for_each List.filter].
    destruct (handle_tool_call_cases tc self)
      as [[Hv Hr] | [[Hv (s' & fa & Hr)] | [Hv (_ & s' & Hr)]]]; rewrite Hv.
    + rewrite (bind_return _ _ _ _ _ _ Hr). cbn [Gen.state_of Gen.frames_of Gen.outcome_of fst snd app].
      destruct (IH self) as (IH1 & IH2 & IH3).
      repeat split; try assumption. 
    + rewrite (bind_return _ _ _ _ _ _ Hr). cbn [Gen.state_of Gen.frames_of Gen.outcome_of fst snd app map].
      destruct (IH s') as (IH1 & IH2 & IH3).
      destruct (call_of tc) as [id name] eqn:Hc. cbn [fst snd] in *.
      repeat split.
      * constructor; [reflexivity | exact IH1].
      * cbn. apply prefix_cons. exact IH2.
      * intros Hnr. cbn. f_equal. apply IH3. exact Hnr.
    + rewrite (bind_raise _ _ _ _ _ _ Hr). cbn.
      repeat split; [constructor | apply prefix_nil | discriminate].
Qed.

Lemma ai_chunk_body_run content tcs tccs self :
  message_chunk_body (CAIMessageChunk content tcs tccs) self =
    let r1 := handle_content content self in
    let r2 := Gen.for_each tcs handle_tool_call (Gen.state_of r1) in
    match Gen.outcome_of r2 with
    | Return _ =>
        (Gen.state_of r2,
         Gen.frames_of r1 ++ Gen.frames_of r2 ++ flat_map fragment_frames tccs,
         Return tt)
    | Raise e => (Gen.state_of r2, Gen.frames_of r1 ++ Gen.frames_of r2, Raise e)
    end.
Proof.
  cbn [message_chunk_body]. rewrite !when_nonempty. cbv zeta.
  rewrite (bind_return _ _ _ _ _ _ (handle_content_run content self)).
  rewrite handle_content_run. cbn [Gen.state_of Gen.frames_of Gen.outcome_of fst snd].
  set (s1 := if String.eqb (text_of content) "" then self else _).
  destruct (Gen.for_each tcs handle_tool_call s1) as [[s2 o2] [[]|e]] eqn:Hr.
  - rewrite (bind_return _ _ _ _ _ _ Hr). rewrite tool_call_chunks_loop_run. reflexivity.
  - rewrite (bind_raise _ _ _ _ _ _ Hr). reflexivity.
Qed.

End LoopFacts.

(** ** Kinds of frames *)


Lemma count_type_app t out1 out2 :
  count_type t (out1 ++ out2) = (count_type t out1 + count_type t out2)%nat.
Proof. unfold count_type. rewrite List.filter_app, length_app. reflexivity. Qed.

Lemma count_done_app out1 out2 :
  count_done (out1 ++ out2) = (count_done out1 + count_done out2)%nat.
Proof. unfold count_done. rewrite List.filter_app, length_app. reflexivity. Qed.

Lemma has_type_payload t f :
  has_type t f = true -> t <> "error" -> payload f.
Proof.
  unfold payload, has_type. destruct f as [event|]; [|discriminate].
  destruct (frame_type (FData event)) as [t'|]; [|discriminate].
  intros Ht Hne. apply String.eqb_eq in Ht. subst t'. split; [|reflexivity].
  destruct (String.eqb_spec t "error"); congruence.
Qed.

Lemma payload_counts out :
  Forall payload out -> count_type "error" out = O /\ count_done out = O.
Proof.
  induction 1 as [|f out [He Hd] _ [IH1 IH2]]; [split; reflexivity|].
  unfold count_type, count_done in *. cbn [List.filter]. rewrite He, Hd. split; assumption.
Qed.

Lemma fragment_frames_type tcc :
  Forall (fun f => has_type "tool_call_chunk" f = true) (fragment_frames tcc).
Proof.
  unfold fragment_frames. destruct (truthy _); repeat constructor.
Qed.

Lemma Forall_flat_map {A B} (P : B -> Prop) (f : A -> list B) (l : list A) :
  (forall x, Forall P (f x)) -> Forall P (flat_map f l).
Proof.
  intros Hf. induction l as [|x l IH]; cbn; [constructor|].
  apply Forall_app. split; [apply Hf | exact IH].
Qed.

Section UnitFacts.
Context `{Externals}.

Lemma handle_content_frames content self :
  Forall (fun f => has_type "delta" f = true)
         (Gen.frames_of (handle_content content self)).
Proof.
  rewrite handle_content_run. cbn [Gen.frames_of fst snd].
  destruct (String.eqb _ ""); repeat constructor.
Qed.

(** The translation of a message chunk yields payload frames only. *)
Lemma message_chunk_body_payload m self :
  Forall payload (Gen.frames_of (message_chunk_body m self)).
Proof.
  destruct m as [|s|xs|xs|kvs|id content|content tcs tccs|cls data];
    try solve [cbn; constructor].
  - cbn [message_chunk_body]. rewrite handle_tool_message_run. cbn.
    constructor; [|constructor]. split; reflexivity.
  - rewrite ai_chunk_body_run. cbv zeta.
    pose proof (handle_content_frames content self) as H1.
    destruct (tool_calls_loop_frames tcs (Gen.state_of (handle_content content self)))
      as (H2 & _).
    assert (P1 : Forall payload (Gen.frames_of (handle_content content self))).
    { eapply Forall_impl; [exact H1|]. intros f Hf.
      eapply has_type_payload; [exact Hf | discriminate]. }
    assert (P2 : Forall payload
              (Gen.frames_of (Gen.for_each tcs handle_tool_call
                                (Gen.state_of (handle_content content self))))).
    { eapply Forall_impl; [exact H2|]. intros f Hf.
      eapply has_type_payload; [exact Hf | discriminate]. }
    destruct (Gen.outcome_of _); cbn [Gen.frames_of fst snd].
    + rewrite !Forall_app. repeat split; try assumption.
      apply Forall_flat_map. intros tcc.
      eapply Forall_impl; [apply fragment_frames_type|]. intros f Hf.
      eapply has_type_payload; [exact Hf | discriminate].
    + rewrite Forall_app. split; assumption.
Qed.

Lemma handle_message_chunk_run m self :
  _handle_message_chunk m self =
    let r := message_chunk_body m self in
    match Gen.outcome_of r with
    | Return _ => (Gen.state_of r, Gen.frames_of r, Return tt)
    | Raise e =>
        (Gen.state_of r, Gen.frames_of r ++ [FData (message_error_event e)], Return tt)
    end.
Proof.
  unfold _handle_message_chunk, Gen.try_except.
  destruct (message_chunk_body m self) as [[s o] [[]|e]]; reflexivity.
Qed.

Lemma handle_message_chunk_returns m : returns (_handle_message_chunk m).
Proof. apply try_except_returns. intros e. apply yield_returns. Qed.

Lemma handle_message_chunk_counts m self :
  count_type "error" (Gen.frames_of (_handle_message_chunk m self))
    = (if raises (message_chunk_body m self) then 1 else 0)%nat
  /\ count_done (Gen.frames_of (_handle_message_chunk m self)) = O.
Proof.
  rewrite handle_message_chunk_run. cbv zeta. unfold raises.
  destruct (payload_counts _ (message_chunk_body_payload m self)) as [He Hd].
  destruct (Gen.outcome_of (message_chunk_body m self)); cbn [Gen.frames_of fst snd].
  - split; assumption.
  - rewrite count_type_app, count_done_app, He, Hd. split; reflexivity.
Qed.

Lemma messages_loop_counts ms self :
  count_type "error" (Gen.frames_of (Gen.for_each ms _handle_message_chunk self))
    = message_failures ms self
  /\ count_done (Gen.frames_of (Gen.for_each ms _handle_message_chunk self)) = O.
Proof.
  revert self. induction ms as [|m ms IH]; intros self; [split; reflexivity|].
  rewrite for_each_cons_returns by apply handle_message_chunk_returns.
  cbv zeta. cbn [Gen.frames_of fst snd message_failures].
  rewrite count_type_app, count_done_app.
  destruct (handle_message_chunk_counts m self) as [-> ->].
  destruct (IH (Gen.state_of (_handle_message_chunk m self))) as [-> ->].
  split; reflexivity.
Qed.

Lemma for_each_singleton {A} (x : A) (body : A -> Gen unit) self :
  Gen.for_each [x] body self = body x self.
Proof.
  cbn. unfold Gen.bind. destruct (body x self) as [[s o] [[]|e]]; cbn;
    rewrite ?app_nil_r; reflexivity.
Qed.

Lemma values_chunk_run chunk_data self :
  _handle_values_chunk chunk_data self =
    match chunk_data with
    | CDict kvs =>
        let all_messages := default (CList []) (chunk_dict_get "messages" kvs) in
        if chunk_truthy all_messages then
          match convert_to_openai_messages all_messages with
          | Return oai_messages => (self, [FData (messages_event oai_messages)], Return tt)
          | Raise e => (self, [], Raise e)
          end
        else (self, [], Return tt)
    | _ =>
        (self, [],
         Raise (mkExn "AttributeError"
                  ("'" +:+ class_name chunk_data +:+ "' object has no attribute 'get'")))
    end.
Proof.
  destruct chunk_data; try reflexivity.
  cbn. destruct (chunk_truthy _); [|reflexivity].
  destruct (convert_to_openai_messages _); reflexivity.
Qed.

(** An inbound unit is either a full snapshot or a sequence of message
    chunks that are translated in order. *)
Lemma chunk_body_run chunk self :
  chunk_body chunk self =
    match as_pair chunk with
    | Some (chunk_type, chunk_data) =>
        if chunk_is_str chunk_type "values" then _handle_values_chunk chunk_data self
        else Gen.for_each (unit_messages chunk) _handle_message_chunk self
    | None => Gen.for_each (unit_messages chunk) _handle_message_chunk self
    end.
Proof.
  unfold chunk_body, unit_messages.
  destruct (as_pair chunk) as [[chunk_type chunk_data]|].
  - destruct (chunk_is_str chunk_type "values"); [reflexivity|].
    destruct (as_nonempty_list chunk_data); [reflexivity|].
    destruct (iter_items chunk_data); [reflexivity|].
    symmetry. apply for_each_singleton.
  - destruct (as_nonempty_list chunk); [reflexivity|].
    symmetry. apply for_each_singleton.
Qed.

Lemma handle_chunk_run chunk self :
  _handle_chunk chunk self =
    let r := chunk_body chunk self in
    match Gen.outcome_of r with
    | Return _ => (Gen.state_of r, Gen.frames_of r, Return tt)
    | Raise e =>
        (Gen.state_of r, Gen.frames_of r ++ [FData (chunk_error_event e)], Return tt)
    end.
Proof.
  unfold _handle_chunk, Gen.try_except.
  destruct (chunk_body chunk self) as [[s o] [[]|e]]; reflexivity.
Qed.

Lemma handle_chunk_returns chunk : returns (_handle_chunk chunk).
Proof. apply try_except_returns. intros e. apply yield_returns. Qed.

Lemma messages_loop_not_raises ms self :
  raises (Gen.for_each ms _handle_message_chunk self) = false.
Proof.
  destruct (for_each_returns ms _ handle_message_chunk_returns self) as [a Ha].
  unfold raises. rewrite Ha. reflexivity.
Qed.

Lemma handle_chunk_counts chunk self :
  count_type "error" (Gen.frames_of (_handle_chunk chunk self)) = unit_failures chunk self
  /\ count_done (Gen.frames_of (_handle_chunk chunk self)) = O.
Proof.
  unfold unit_failures. rewrite handle_chunk_run. cbv zeta.
  rewrite chunk_body_run. unfold unit_messages.
  destruct (as_pair chunk) as [[chunk_type chunk_data]|].
  2:{ fold (unit_messages chunk).
      set (ms := match as_nonempty_list chunk with Some m => m | None => [chunk] end).
      destruct (messages_loop_counts ms self) as [He Hd].
      pose proof (messages_loop_not_raises ms self) as Hr. unfold raises in *.
      destruct (Gen.outcome_of _); [|discriminate]. cbn [Gen.frames_of fst snd].
      rewrite He, Hd. split; [lia | reflexivity]. }
  destruct (chunk_is_str chunk_type "values").
  - rewrite values_chunk_run. destruct chunk_data; cbn; try (split; reflexivity).
    destruct (chunk_truthy _); [|split; reflexivity].
    destruct (convert_to_openai_messages _); split; reflexivity.
  - set (ms := match as_nonempty_list chunk_data with
               | Some m => m
               | None => match iter_items chunk_data with Some m => m | None => [chunk_data] end
               end).
    destruct (messages_loop_counts ms self) as [He Hd].
    pose proof (messages_loop_not_raises ms self) as Hr. unfold raises in *.
    destruct (Gen.outcome_of _); [|discriminate]. cbn [Gen.frames_of fst snd].
    rewrite He, Hd. split; [lia | reflexivity].
Qed.

End UnitFacts.

(** ** The wire text of frames *)

Lemma wire_done : wire FDone = done_marker.
Proof. reflexivity. Qed.

Lemma wire_data_not_done event : wire (FData event) <> done_marker.
Proof. cbn [wire Json.dumps]. discriminate. Qed.

Lemma wire_is_done f : wire f = done_marker <-> is_done f = true.
Proof.
  destruct f as [event|]; cbn [is_done].
  - split; [intros Hw; destruct (wire_data_not_done _ Hw) | discriminate].
  - split; reflexivity.
Qed.

(** The number of terminal markers in the text of a stream. *)
Lemma wire_count_done out :
  length (List.filter (String.eqb done_marker) (map wire out)) = count_done out.
Proof.
  unfold count_done. induction out as [|f out IH]; [reflexivity|].
  cbn [map List.filter].
  destruct (String.eqb_spec done_marker (wire f)) as [Heq|Hne].
  - symmetry in Heq. apply wire_is_done in Heq. rewrite Heq. cbn. rewrite IH. reflexivity.
  - destruct (is_done f) eqn:Hd; [|exact IH].
    apply wire_is_done in Hd. congruence.
Qed.

(** ** The driver *)

Section DriverFacts.
Context `{Externals}.

Lemma run_units_returns chunks : returns (run_units chunks).
Proof. apply for_each_returns. intros c. apply handle_chunk_returns. Qed.

Lemma run_units_outcome chunks self :
  Gen.outcome_of (run_units chunks self) = Return tt.
Proof. destruct (run_units_returns chunks self) as [[] Hr]. exact Hr. Qed.

Lemma handle_chunk_outcome chunk self :
  Gen.outcome_of (_handle_chunk chunk self) = Return tt.
Proof. destruct (handle_chunk_returns chunk self) as [[] Hr]. exact Hr. Qed.

Lemma run_units_app chunks1 chunks2 self :
  run_units (chunks1 ++ chunks2) self =
    let r1 := run_units chunks1 self in
    let r2 := run_units chunks2 (Gen.state_of r1) in
    (Gen.state_of r2, Gen.frames_of r1 ++ Gen.frames_of r2, Return tt).
Proof.
  unfold run_units. rewrite for_each_app_returns by (intros c; apply handle_chunk_returns).
  cbv zeta. f_equal. apply run_units_outcome.
Qed.

Lemma run_units_cons chunk chunks self :
  run_units (chunk :: chunks) self =
    let r1 := _handle_chunk chunk self in
    let r2 := run_units chunks (Gen.state_of r1) in
    (Gen.state_of r2, Gen.frames_of r1 ++ Gen.frames_of r2, Return tt).
Proof.
  unfold run_units. rewrite for_each_cons_returns by apply handle_chunk_returns.
  cbv zeta. f_equal. apply run_units_outcome.
Qed.

Lemma run_units_counts chunks self :
  count_done (Gen.frames_of (run_units chunks self)) = O.
Proof.
  revert self. induction chunks as [|c cs IH]; intros self; [reflexivity|].
  rewrite run_units_cons. cbv zeta. cbn [Gen.frames_of fst snd].
  rewrite count_done_app, IH.
  destruct (handle_chunk_counts c self) as [_ ->]. reflexivity.
Qed.

(** [process_stream] builds the conversation, which fails when a message
    cannot be built; it then runs the units of the source in order, and
    yields the terminal marker when the source is exhausted.  When the
    conversation cannot be built or the source raises, it yields one error
    record. *)
Lemma process_stream_run agent messages self :
  process_stream agent messages self =
    match langchain_messages messages with
    | Raise e =>
        (self, [FData (stream_error_event (exn_str e) (format_exc e))], Return tt)
    | Return conversation =>
        let source := agent conversation (recursion_limit self) in
        let r := run_units (src_chunks source) self in
        match src_failure source with
        | None => (flushed (Gen.state_of r), Gen.frames_of r ++ [FDone], Return tt)
        | Some e =>
            (Gen.state_of r,
             Gen.frames_of r ++ [FData (stream_error_event (exn_str e) (format_exc e))],
             Return tt)
        end
    end.
Proof.
  unfold process_stream, Gen.try_except, stream_body.
  destruct (langchain_messages messages) as [conversation|e]; [|reflexivity].
  cbv zeta. unfold Gen.bind at 1. cbn [Gen.get_self].
  fold (run_units (src_chunks (agent conversation (recursion_limit self)))).
  set (source := agent _ _).
  pose proof (run_units_outcome (src_chunks source) self) as Hr.
  unfold Gen.bind.
  destruct (run_units (src_chunks source) self) as [[s1 o1] r1]. cbn in Hr. subst r1.
  unfold flushed.
  destruct (src_failure source) as [e|]; cbn; rewrite ?app_nil_r; reflexivity.
Qed.

End DriverFacts.

(** * The properties of the specification *)

Section Translator.
Context `{Externals}.

(** The loop over [tool_calls] steps over an entry that does nothing. *)
Lemma tool_calls_loop_skip pre tool_call post self :
  (forall s, handle_tool_call tool_call s = (s, [], Return tt)) ->
  Gen.for_each (pre ++ tool_call :: post) handle_tool_call self
  = Gen.for_each (pre ++ post) handle_tool_call self.
Proof.
  intros Hskip. revert self. induction pre as [|tc pre IH]; intros self.
  - cbn [app Gen.for_each]. rewrite (bind_return _ _ _ _ _ _ (Hskip self)).
    cbn [app]. symmetry. apply triple_eta.
  - cbn [app Gen.for_each]. unfold Gen.bind.
    destruct (handle_tool_call tc self) as [[s1 o1] [[]|e]]; [|reflexivity].
    rewrite IH. reflexivity.
Qed.

(** C3. A tool-call request with a non-empty call id and name merges its
    argument mapping into the accumulator entry of its id and yields
    exactly one [tool_call] record that carries the merged mapping: the
    entry is created when absent, a key of the request overwrites the value
    accumulated for it (the last value given for a key wins), keys that the
    request does not mention keep their values, no key is ever removed, an
    empty mapping leaves the entry as it is, and merging the same mapping
    once more changes nothing.  Merging [{a:1}], [{b:2}] and [{a:1}] for one
    id accumulates [{a:1, b:2}]. *)
Theorem tool_call_request_merges id name args self :
  id <> "" -> name <> "" ->
  let request := mkToolCall (Some id) (Some name) (ArgsDict args) in
  let old := default [] (tool_call_args self !! id) in
  let merged := PyDict.update old args in
  let record :=
    FData [("type", JStr "tool_call"); ("id", JStr id); ("name", JStr name);
           ("arguments", JDict merged)] in
  handle_tool_call request self =
    (set_tool_call_args (<[id := merged]> (tool_call_args self)) self,
     [record],
     Return tt)
  /\ _handle_message_chunk (CAIMessageChunk JNull [request] []) self =
       (set_tool_call_args (<[id := merged]> (tool_call_args self)) self,
        [record],
        Return tt)
  /\ (frame_type record = Some "tool_call"
      /\ frame_field "id" record = Some (JStr id)
      /\ frame_field "name" record = Some (JStr name)
      /\ frame_field "arguments" record = Some (JDict merged)
      /\ tool_call_args (Gen.state_of (handle_tool_call request self)) !! id = Some merged)
  /\ (tool_call_args self !! id = None -> old = [])
  /\ (forall k, k ∉ PyDict.keys args -> PyDict.get k merged = PyDict.get k old)
  /\ (forall k v pre post,
        args = pre ++ (k, v) :: post -> k ∉ PyDict.keys post ->
        PyDict.get k merged = Some v)
  /\ (forall k, k ∈ PyDict.keys old -> k ∈ PyDict.keys merged)
  /\ (args = [] -> merged = old)
  /\ (NoDup (PyDict.keys args) -> PyDict.update merged args = merged)
  /\ (tool_call_args self !! id = None ->
      let fragment kvs := mkToolCall (Some id) (Some name) (ArgsDict kvs) in
      let r := Gen.for_each [fragment [("a", JInt 1)]; fragment [("b", JInt 2)];
                             fragment [("a", JInt 1)]] handle_tool_call self in
      tool_call_args (Gen.state_of r) !! id = Some [("a", JInt 1); ("b", JInt 2)]
      /\ Gen.frames_of r =
           [FData [("type", JStr "tool_call"); ("id", JStr id); ("name", JStr name);
                   ("arguments", JDict [("a", JInt 1)])];
            FData [("type", JStr "tool_call"); ("id", JStr id); ("name", JStr name);
                   ("arguments", JDict [("a", JInt 1); ("b", JInt 2)])];
            FData [("type", JStr "tool_call"); ("id", JStr id); ("name", JStr name);
                   ("arguments", JDict [("a", JInt 1); ("b", JInt 2)])]]).
Proof.
  intros Hid Hname request old merged record.
  assert (Hrun : handle_tool_call request self =
            (set_tool_call_args (<[id := merged]> (tool_call_args self)) self,
             [record], Return tt)).
  { apply handle_tool_call_dict; assumption. }
  split; [exact Hrun|]. split.
  { rewrite handle_message_chunk_run, ai_chunk_body_run. cbv zeta.
    rewrite handle_content_run. cbn [text_of String.eqb Gen.state_of Gen.frames_of fst snd].
    rewrite for_each_singleton, Hrun. reflexivity. }
  split.
  { repeat split. rewrite Hrun.
    cbn [Gen.state_of fst set_tool_call_args tool_call_args]. apply lookup_insert_eq. }
  split. { intros Hnone. subst old. rewrite Hnone. reflexivity. }
  split. { intros k Hk. apply PyDictFacts.get_update_notin, Hk. }
  split. { intros k v pre post -> Hk. apply PyDictFacts.get_update_last, Hk. }
  split. { intros k Hk. apply PyDictFacts.get_Some_keys.
           apply PyDictFacts.get_update_is_Some, PyDictFacts.get_Some_keys, Hk. }
  split. { intros ->. reflexivity. }
  split. { intros Hnd. apply PyDictFacts.update_idempotent, Hnd. }
  intros Hnone fragment r. subst r fragment.
  cbn [Gen.for_each].
  rewrite (bind_return _ _ _ _ _ _ (handle_tool_call_dict id name _ self Hid Hname)).
  rewrite (bind_return _ _ _ _ _ _ (handle_tool_call_dict id name _ _ Hid Hname)).
  rewrite (bind_return _ _ _ _ _ _ (handle_tool_call_dict id name _ _ Hid Hname)).
  unfold merged_args. cbn [Gen.state_of Gen.frames_of Gen.outcome_of fst snd Gen.ret].
  cbn [set_tool_call_args tool_call_args]. rewrite !lookup_insert_eq, Hnone.
  split; reflexivity.
Qed.

(** C4, as the code has it.  A tool result for call id [X] deletes the
    accumulator entry of [X] (nothing changes when there is none, so a second
    release is a no-op) and yields exactly one [tool_result] record with
    [tool_call_id] [X] and the result content.  Afterwards the accumulator
    has no entry for [X]; a later tool-call request for [X] starts from a
    fresh, empty entry, so its record holds the arguments of that request
    alone; later argument fragments for [X] create no entry. *)
Theorem tool_result_releases X content self :
  let r := _handle_message_chunk (CToolMessage X content) self in
  r = (set_tool_call_args (delete X (tool_call_args self)) self,
       [FData [("type", JStr "tool_result"); ("tool_call_id", JStr X);
               ("content", content)]],
       Return tt)
  /\ (tool_call_args self !! X = None -> Gen.state_of r = self)
  /\ tool_call_args (Gen.state_of r) !! X = None
  /\ (forall content',
        Gen.state_of (_handle_message_chunk (CToolMessage X content') (Gen.state_of r))
        = Gen.state_of r)
  /\ (forall name args,
        X <> "" -> name <> "" ->
        let later :=
          handle_tool_call (mkToolCall (Some X) (Some name) (ArgsDict args))
                           (Gen.state_of r) in
        tool_call_args (Gen.state_of later) !! X = Some (PyDict.update [] args)
        /\ Gen.frames_of later
           = [FData [("type", JStr "tool_call"); ("id", JStr X); ("name", JStr name);
                     ("arguments", JDict (PyDict.update [] args))]])
  /\ (forall tool_call_chunks,
        let later :=
          _handle_message_chunk (CAIMessageChunk JNull [] tool_call_chunks)
                                (Gen.state_of r) in
        tool_call_args (Gen.state_of later) !! X = None).
Proof.
  assert (Hrun : forall c s,
    _handle_message_chunk (CToolMessage X c) s =
      (set_tool_call_args (delete X (tool_call_args s)) s,
       [FData (tool_result_event X c)], Return tt)).
  { intros c s. rewrite handle_message_chunk_run. cbv zeta.
    cbn [message_chunk_body]. rewrite handle_tool_message_run. reflexivity. }
  cbv zeta. rewrite Hrun. cbn [Gen.state_of fst snd].
  split; [reflexivity|]. split.
  { intros Hnone. rewrite delete_id by exact Hnone. apply set_tool_call_args_same. }
  split. { cbn. apply lookup_delete_eq. }
  split.
  { intros c'. rewrite Hrun. cbn [Gen.state_of fst snd set_tool_call_args tool_call_args].
    rewrite delete_delete_eq. reflexivity. }
  split.
  { intros name args HX Hname.
    rewrite (handle_tool_call_dict X name args _ HX Hname).
    unfold merged_args.
    cbn [Gen.state_of Gen.frames_of fst snd set_tool_call_args tool_call_args].
    rewrite lookup_delete_eq, lookup_insert_eq. split; reflexivity. }
  intros tccs. rewrite handle_message_chunk_run, ai_chunk_body_run. cbv zeta.
  rewrite handle_content_run. cbn. apply lookup_delete_eq.
Qed.

(** C5. A tool-call entry whose call id or name is missing, [None] or empty
    yields no record at all (so no error record either) and leaves the
    processor, hence the accumulator, as it is; the other entries of the
    chunk are processed as if the entry were not there. *)
Theorem invalid_tool_call_dropped tool_call :
  tc_id tool_call = None \/ tc_id tool_call = Some "" \/
  tc_name tool_call = None \/ tc_name tool_call = Some "" ->
  (forall self, handle_tool_call tool_call self = (self, [], Return tt))
  /\ (forall self,
        _handle_message_chunk (CAIMessageChunk JNull [tool_call] []) self
        = (self, [], Return tt))
  /\ (forall pre post self,
        Gen.for_each (pre ++ tool_call :: post) handle_tool_call self
        = Gen.for_each (pre ++ post) handle_tool_call self)
  /\ (forall content pre post tool_call_chunks self,
        _handle_message_chunk
          (CAIMessageChunk content (pre ++ tool_call :: post) tool_call_chunks) self
        = _handle_message_chunk
            (CAIMessageChunk content (pre ++ post) tool_call_chunks) self).
Proof.
  intros Hbad.
  assert (Hskip : forall self, handle_tool_call tool_call self = (self, [], Return tt)).
  { intros self. apply handle_tool_call_skip.
    destruct Hbad as [-> | [-> | [-> | ->]]]; cbn; rewrite ?orb_true_r; reflexivity. }
  split; [exact Hskip|]. split.
  { intros self. rewrite handle_message_chunk_run, ai_chunk_body_run. cbv zeta.
    rewrite handle_content_run. cbn [text_of String.eqb Gen.state_of Gen.frames_of fst snd].
    rewrite for_each_singleton, Hskip. reflexivity. }
  split.
  { intros pre post self. apply tool_calls_loop_skip, Hskip. }
  intros content pre post tccs self.
  rewrite !handle_message_chunk_run, !ai_chunk_body_run. cbv zeta.
  rewrite (tool_calls_loop_skip _ _ _ _ Hskip). reflexivity.
Qed.


(** C9. A text delta yields exactly one [delta] record carrying its content
    when the content is a non-empty string, and no record when the content
    is [None] or the empty string.  The log buffer plays no part: the
    record is the same for every state of the processor, and the
    accumulator is not touched. *)
Theorem text_delta_forwarded content self :
  let r := _handle_message_chunk (CAIMessageChunk content [] []) self in
  Gen.outcome_of r = Return tt
  /\ (content = JNull \/ content = JStr "" -> Gen.frames_of r = [])
  /\ (forall s, content = JStr s -> s <> "" ->
      Gen.frames_of r = [FData [("type", JStr "delta"); ("content", JStr s)]]
      /\ (forall record, In record (Gen.frames_of r) ->
            frame_type record = Some "delta"
            /\ frame_field "content" record = Some (JStr s)))
  /\ Gen.frames_of r
     = (if String.eqb (text_of content) "" then []
        else [FData [("type", JStr "delta"); ("content", JStr (text_of content))]])
  /\ (forall self',
        Gen.frames_of (_handle_message_chunk (CAIMessageChunk content [] []) self')
        = Gen.frames_of r)
  /\ tool_call_args (Gen.state_of r) = tool_call_args self.
Proof.
  assert (Hrun : forall s,
    _handle_message_chunk (CAIMessageChunk content [] []) s =
      (Gen.state_of (handle_content content s),
       if String.eqb (text_of content) "" then []
       else [FData (delta_event (text_of content))],
       Return tt)).
  { intros s. rewrite handle_message_chunk_run, ai_chunk_body_run. cbv zeta.
    rewrite handle_content_run. cbn [Gen.for_each Gen.ret flat_map].
    cbn [Gen.state_of Gen.frames_of Gen.outcome_of fst snd]. rewrite !app_nil_r.
    reflexivity. }
  cbv zeta. rewrite Hrun. cbn [Gen.state_of Gen.frames_of Gen.outcome_of fst snd].
  split; [reflexivity|]. split.
  { intros [-> | ->]; reflexivity. }
  split.
  { intros s -> Hs. cbn [text_of]. destruct (String.eqb_spec s ""); [congruence|].
    split; [reflexivity|]. intros record [<-|[]]. split; reflexivity. }
  split; [reflexivity|]. split.
  { intros self'. rewrite Hrun. reflexivity. }
  apply handle_content_tool_call_args.
Qed.

End Translator.

Section Driver.
Context `{Externals}.

(** A unit that is not a full snapshot yields the records of its message
    chunks. *)
Lemma handle_chunk_messages chunk self :
  is_snapshot chunk = false ->
  Gen.frames_of (_handle_chunk chunk self)
  = Gen.frames_of (Gen.for_each (unit_messages chunk) _handle_message_chunk self).
Proof.
  intros Hs. rewrite handle_chunk_run. cbv zeta. rewrite chunk_body_run.
  unfold is_snapshot in Hs.
  pose proof (messages_loop_not_raises (unit_messages chunk) self) as Hr.
  unfold raises in Hr.
  destruct (as_pair chunk) as [[ty data]|]; [rewrite Hs|];
    destruct (Gen.outcome_of _); (reflexivity || discriminate).
Qed.

(** A unit delivered in the messages mode is translated as its message;
    the metadata adds nothing. *)
Lemma messages_unit_run message metadata self :
  _handle_chunk (messages_unit message metadata) self
  = _handle_message_chunk message self.
Proof.
  unfold messages_unit, _handle_chunk, chunk_body, Gen.try_except.
  cbn [as_pair chunk_is_str String.eqb Ascii.eqb Bool.eqb as_nonempty_list iter_items].
  rewrite for_each_cons_returns by apply handle_message_chunk_returns.
  cbv zeta. rewrite for_each_singleton.
  destruct (handle_message_chunk_returns message self) as [[] Ho].
  destruct (_handle_message_chunk message self) as [[s1 o1] r1].
  cbn in Ho. subst r1. cbn. rewrite app_nil_r. reflexivity.
Qed.

(** C2. Records keep the order of what they are derived from.  Once the
    conversation is built and the agent runs, the records of the inbound
    units appear unit after unit in arrival order, each unit's records
    depending only on the units up to it; a unit delivered in the messages
    mode yields the records of its message, and the message chunks of a
    grouped unit are translated one after the other in the same way; and
    within one message chunk the text delta comes first, then the
    [tool_call] records in the order of the chunk's valid tool-call entries,
    then the [tool_call_chunk] records in the order of its fragments (an
    error record, if the translation raises, comes last and cuts the rest
    off). *)
Theorem records_keep_source_order :
  (forall agent messages conversation self,
      langchain_messages messages = Return conversation ->
      let source := agent conversation (recursion_limit self) in
      exists last,
        Gen.frames_of (process_stream agent messages self)
        = Gen.frames_of (run_units (src_chunks source) self) ++ [last]
        /\ (is_done last = true \/ has_type "error" last = true))
  /\ (forall chunks1 chunks2 self,
        Gen.frames_of (run_units (chunks1 ++ chunks2) self)
        = Gen.frames_of (run_units chunks1 self)
          ++ Gen.frames_of (run_units chunks2 (Gen.state_of (run_units chunks1 self))))
  /\ (forall chunk self,
        is_snapshot chunk = false ->
        Gen.frames_of (_handle_chunk chunk self)
        = Gen.frames_of (Gen.for_each (unit_messages chunk) _handle_message_chunk self))
  /\ (forall message metadata self,
        _handle_chunk (messages_unit message metadata) self
        = _handle_message_chunk message self)
  /\ (forall messages1 messages2 self,
        let r1 := Gen.for_each messages1 _handle_message_chunk self in
        Gen.frames_of (Gen.for_each (messages1 ++ messages2) _handle_message_chunk self)
        = Gen.frames_of r1
          ++ Gen.frames_of (Gen.for_each messages2 _handle_message_chunk (Gen.state_of r1)))
  /\ (forall content tool_calls tool_call_chunks self,
        exists T K E,
          Gen.frames_of
            (_handle_message_chunk
               (CAIMessageChunk content tool_calls tool_call_chunks) self)
          = (if String.eqb (text_of content) "" then []
             else [FData [("type", JStr "delta"); ("content", JStr (text_of content))]])
            ++ T ++ K ++ E
          /\ Forall (fun f => has_type "tool_call" f = true) T
          /\ omap frame_call T
               `prefix_of` map call_of (List.filter valid_tool_call tool_calls)
          /\ ((E = []
               /\ omap frame_call T = map call_of (List.filter valid_tool_call tool_calls)
               /\ K = flat_map fragment_frames tool_call_chunks)
              \/ (exists e,
                    E = [FData [("type", JStr "error");
                                ("error", JStr ("处理消息chunk时出错: " +:+ exn_str e))]]
                    /\ K = []))).
Proof.
  split.
  { intros agent messages conversation self Hc source.
    rewrite process_stream_run, Hc. cbv zeta. fold source.
    destruct (src_failure source); eexists; (split; [reflexivity|]);
      [right | left]; reflexivity. }
  split.
  { intros cs1 cs2 self. rewrite run_units_app. reflexivity. }
  split.
  { intros chunk self Hs. apply handle_chunk_messages, Hs. }
  split.
  { intros message metadata self. apply messages_unit_run. }
  split.
  { intros ms1 ms2 self r1. subst r1.
    rewrite for_each_app_returns by apply handle_message_chunk_returns.
    reflexivity. }
  intros content tcs tccs self.
  rewrite handle_message_chunk_run, ai_chunk_body_run. cbv zeta.
  rewrite handle_content_run. cbn [Gen.state_of Gen.frames_of Gen.outcome_of fst snd].
  set (s1 := if String.eqb (text_of content) "" then self else _).
  destruct (tool_calls_loop_frames tcs s1) as (HT & Hpre & Hfull).
  unfold raises in Hfull.
  destruct (Gen.outcome_of (Gen.for_each tcs handle_tool_call s1)) as [[]|e] eqn:Ho;
    cbn [Gen.state_of Gen.frames_of Gen.outcome_of fst snd].
  - exists (Gen.frames_of (Gen.for_each tcs handle_tool_call s1)),
           (flat_map fragment_frames tccs), [].
    rewrite app_nil_r. repeat split; try assumption.
    left. repeat split. apply Hfull. reflexivity.
  - exists (Gen.frames_of (Gen.for_each tcs handle_tool_call s1)), [],
           [FData (message_error_event e)].
    cbn [app]. rewrite <- app_assoc. repeat split; try assumption.
    right. exists e. split; reflexivity.
Qed.

(** A unit fails at most once for each message object it carries, and a full
    snapshot at most once. *)
Lemma message_failures_bound ms self :
  (message_failures ms self <= message_count ms)%nat.
Proof.
  revert self. unfold message_count.
  induction ms as [|m ms IH]; intros self; [reflexivity|].
  cbn [message_failures List.filter].
  specialize (IH (Gen.state_of (_handle_message_chunk m self))).
  destruct (is_message m) eqn:Hm.
  - cbn [length]. destruct (raises _); lia.
  - assert (Hb : message_chunk_body m self = (self, [], Return tt))
      by (destruct m; try discriminate Hm; reflexivity).
    rewrite Hb. cbn [raises Gen.outcome_of snd]. lia.
Qed.

Lemma unit_failures_bound chunk self :
  (unit_failures chunk self <= Nat.max 1 (message_count (unit_messages chunk)))%nat.
Proof.
  unfold unit_failures. rewrite chunk_body_run.
  pose proof (message_failures_bound (unit_messages chunk) self) as Hb.
  pose proof (messages_loop_not_raises (unit_messages chunk) self) as Hr.
  unfold unit_messages in *.
  destruct (as_pair chunk) as [[ty data]|]; [|rewrite Hr; lia].
  destruct (chunk_is_str ty "values"); [|rewrite Hr; lia].
  clear Hb Hr.
  change (message_failures [] self) with O. change (message_count []) with O.
  destruct (raises _); cbn; lia.
Qed.

(** C6, as the code has it.  An exception raised while a message chunk is
    translated is caught at the end of that message chunk: the records
    yielded so far stay, one error record describing the exception follows
    them, and the translation of the message chunk returns, so the remaining
    message chunks of the unit are translated too.  An exception of the
    unit-level code is caught in the same way at the end of the unit.  So a
    unit emits one error record for each exception raised while it is
    handled (one for each failing message chunk of a grouped unit, hence at
    most one when it carries a single message object), handling
    a unit always returns to the driver loop, the loop goes on to the next
    unit, and a stream whose conversation was built and whose source is
    exhausted still ends with the terminal marker. *)
Theorem unit_failures_are_contained :
  (forall message_chunk self,
      let r := message_chunk_body message_chunk self in
      count_type "error" (Gen.frames_of r) = O
      /\ _handle_message_chunk message_chunk self =
           match Gen.outcome_of r with
           | Return _ => (Gen.state_of r, Gen.frames_of r, Return tt)
           | Raise e =>
               (Gen.state_of r, Gen.frames_of r ++ [FData (message_error_event e)],
                Return tt)
           end)
  /\ (forall message_chunk messages self,
        let r1 := _handle_message_chunk message_chunk self in
        let r2 := Gen.for_each messages _handle_message_chunk (Gen.state_of r1) in
        Gen.for_each (message_chunk :: messages) _handle_message_chunk self
        = (Gen.state_of r2, Gen.frames_of r1 ++ Gen.frames_of r2, Gen.outcome_of r2))
  /\ (forall chunk self,
        let r := chunk_body chunk self in
        _handle_chunk chunk self =
          match Gen.outcome_of r with
          | Return _ => (Gen.state_of r, Gen.frames_of r, Return tt)
          | Raise e =>
              (Gen.state_of r, Gen.frames_of r ++ [FData (chunk_error_event e)],
               Return tt)
          end)
  /\ (forall e,
        frame_field "error" (FData (message_error_event e))
          = Some (JStr ("处理消息chunk时出错: " +:+ exn_str e))
        /\ frame_field "error" (FData (chunk_error_event e))
             = Some (JStr ("处理chunk时出错: " +:+ exn_str e))
        /\ has_type "error" (FData (message_error_event e)) = true
        /\ has_type "error" (FData (chunk_error_event e)) = true)
  /\ (forall chunk self,
        count_type "error" (Gen.frames_of (_handle_chunk chunk self))
          = unit_failures chunk self
        /\ (unit_failures chunk self
            <= Nat.max 1 (message_count (unit_messages chunk)))%nat
        /\ Gen.outcome_of (_handle_chunk chunk self) = Return tt)
  /\ (forall chunk chunks self,
        let r1 := _handle_chunk chunk self in
        let r2 := run_units chunks (Gen.state_of r1) in
        run_units (chunk :: chunks) self
        = (Gen.state_of r2, Gen.frames_of r1 ++ Gen.frames_of r2, Return tt))
  /\ (forall agent messages conversation self,
        langchain_messages messages = Return conversation ->
        let source := agent conversation (recursion_limit self) in
        src_failure source = None ->
        Gen.frames_of (process_stream agent messages self)
        = Gen.frames_of (run_units (src_chunks source) self) ++ [FDone]).
Proof.
  split.
  { intros m self r. split; [|apply handle_message_chunk_run].
    apply payload_counts, message_chunk_body_payload. }
  split.
  { intros m ms self. apply for_each_cons_returns, handle_message_chunk_returns. }
  split; [intros; apply handle_chunk_run|].
  split; [intros e; repeat split|].
  split.
  { intros chunk self. split; [apply handle_chunk_counts|].
    split; [apply unit_failures_bound | apply handle_chunk_outcome]. }
  split; [intros; apply run_units_cons|].
  intros agent messages conversation self Hc source Hs.
  rewrite process_stream_run, Hc. cbv zeta. fold source. rewrite Hs. reflexivity.
Qed.


Lemma omap_cons_unfold {A B} (f : A -> option B) x l :
  omap f (x :: l) = match f x with Some y => y :: omap f l | None => omap f l end.
Proof. reflexivity. Qed.

Lemma langchain_messages_cons msg rest :
  langchain_messages (msg :: rest) =
    match forwarded msg with
    | Some m =>
        if valid_content (content_of m) then
          match langchain_messages rest with
          | Return ms => Return (m :: ms)
          | Raise e => Raise e
          end
        else Raise (validation_error m)
    | None => langchain_messages rest
    end.
Proof.
  cbn [langchain_messages]. unfold forwarded, role_of, new_message, validation_error.
  destruct (PyDict.get "role" msg) as [[|b|n|role|xs|kvs]|].
  all: try (repeat (destruct (decide _) as [Heq|?]; [discriminate Heq|]); reflexivity).
  destruct (String.eqb_spec role "user") as [->|Hu].
  { destruct (decide (Some "user" = Some "user")) as [_|Hn]; [|congruence].
    destruct (PyDict.get "content" msg) as [content|];
      cbn [default content_of class_of]; destruct (valid_content _); reflexivity. }
  destruct (String.eqb_spec role "assistant") as [->|Ha].
  { destruct (decide (Some "assistant" = Some "user")) as [Heq|_]; [discriminate Heq|].
    destruct (decide (Some "assistant" = Some "assistant")) as [_|Hn]; [|congruence].
    destruct (PyDict.get "content" msg) as [content|];
      cbn [default content_of class_of]; destruct (valid_content _); reflexivity. }
  destruct (decide (Some role = Some "user")) as [Heq|_]; [congruence|].
  destruct (decide (Some role = Some "assistant")) as [Heq|_]; [congruence|].
  reflexivity.
Qed.





(** *** The end of a stream *)

(** What [process_chat_stream] yields, case by case. *)
Lemma process_chat_stream_run env messages sid :
  process_chat_stream env messages sid =
    match create_agent env with
    | Raise e => [FData (error_event (exn_str e)); FDone]
    | Return agent =>
        match env_recursion_limit env with
        | Raise e => [FData (error_event (exn_str e)); FDone]
        | Return limit =>
            match langchain_messages messages with
            | Raise e => [FData (stream_error_event (exn_str e) (format_exc e))]
            | Return conversation =>
                let self := {| session_id := sid; text_buffer := "";
                               tool_call_args := ∅; recursion_limit := limit |} in
                let source := agent conversation limit in
                Gen.frames_of (run_units (src_chunks source) self)
                ++ [match src_failure source with
                    | None => FDone
                    | Some e => FData (stream_error_event (exn_str e) (format_exc e))
                    end]
            end
        end
    end.
Proof.
  unfold process_chat_stream, new_StreamProcessor.
  destruct (create_agent env) as [agent|e]; [|reflexivity].
  destruct (env_recursion_limit env) as [limit|e]; [|reflexivity].
  rewrite process_stream_run.
  destruct (langchain_messages messages) as [conversation|e]; [|reflexivity].
  cbv zeta. cbn [recursion_limit].
  destruct (src_failure _); reflexivity.
Qed.

(** A stream whose source is exhausted has exactly one terminal marker,
    and it is the last frame. *)
Lemma exhausted_stream_ends_with_done env messages sid agent limit conversation :
  create_agent env = Return agent ->
  env_recursion_limit env = Return limit ->
  langchain_messages messages = Return conversation ->
  src_failure (agent conversation limit) = None ->
  let out := process_chat_stream env messages sid in
  count_done out = 1%nat /\ List.last out (FData []) = FDone.
Proof.
  intros Ha Hl Hc Hs out. subst out.
  rewrite process_chat_stream_run, Ha, Hl, Hc. cbv zeta.
  rewrite Hs, count_done_app, run_units_counts, last_last. split; reflexivity.
Qed.

(** A stream that cannot be set up has one error record and then the
    terminal marker. *)
Lemma setup_failure_ends_with_done env messages sid e :
  create_agent env = Raise e ->
  process_chat_stream env messages sid = [FData (error_event (exn_str e)); FDone].
Proof. intros Ha. rewrite process_chat_stream_run, Ha. reflexivity. Qed.

(** A stream whose source raises has one error record as its last frame and
    no terminal marker at all. *)
Lemma failed_stream_has_no_done env messages sid agent limit conversation e :
  create_agent env = Return agent ->
  env_recursion_limit env = Return limit ->
  langchain_messages messages = Return conversation ->
  src_failure (agent conversation limit) = Some e ->
  let out := process_chat_stream env messages sid in
  count_done out = O
  /\ List.last out FDone = FData (stream_error_event (exn_str e) (format_exc e)).
Proof.
  intros Ha Hl Hc Hs out. subst out.
  rewrite process_chat_stream_run, Ha, Hl, Hc. cbv zeta.
  rewrite Hs, count_done_app, run_units_counts, last_last. split; reflexivity.
Qed.

(** On every path the terminal marker occurs at most once, and when it
    occurs it is the last frame. *)
Lemma terminal_marker_at_most_once env messages sid :
  let out := process_chat_stream env messages sid in
  (count_done out <= 1)%nat
  /\ (count_done out = 1%nat -> List.last out (FData []) = FDone).
Proof.
  cbv zeta. rewrite process_chat_stream_run.
  destruct (create_agent env) as [agent|e]; [|split; [cbn; lia | reflexivity]].
  destruct (env_recursion_limit env) as [limit|e]; [|split; [cbn; lia | reflexivity]].
  destruct (langchain_messages messages) as [conversation|e];
    [|split; [cbn; lia | cbn; discriminate]].
  cbv zeta. rewrite count_done_app, run_units_counts, last_last.
  destruct (src_failure _); cbn; split; (lia || reflexivity || discriminate).
Qed.

End Driver.

(** C1, evaluated where the code departs from it.  The agent delivers one
    text chunk and then raises (the step budget is exceeded): the stream is
    the [delta] record followed by the error record of [process_stream], and
    it ends there, with no terminal marker. *)
Theorem failed_stream_omits_terminal_marker :
  let out := process_chat_stream (H := Sample.externals) Sample.env Sample.conversation None in
  out = [FData (delta_event "Hi");
         FData (stream_error_event (exn_str Sample.recursion_error)
                                   (@format_exc Sample.externals Sample.recursion_error))]
  /\ count_done out = O
  /\ List.filter (String.eqb done_marker) (map wire out) = [].
Proof. cbv zeta. repeat split; vm_compute; reflexivity. Qed.


(** C4 fails for a later argument fragment: after the result of call [c1],
    a fragment for [c1] is forwarded and the accumulator still has no entry
    for [c1]. *)
Lemma later_fragment_starts_no_entry :
  let released :=
    Gen.state_of (_handle_message_chunk (H := Sample.externals)
                    (CToolMessage "c1" (JStr "ok")) Sample.processor_c1) in
  let r := _handle_message_chunk (H := Sample.externals)
             (CAIMessageChunk JNull [] [Sample.fragment "{"]) released in
  Gen.frames_of r
  = [FData [("type", JStr "tool_call_chunk"); ("index", JInt 0); ("id", JStr "c1");
            ("args", JStr "{")]]
  /\ tool_call_args (Gen.state_of r) !! "c1" = None.
Proof. cbv zeta. split; vm_compute; reflexivity. Qed.

(** C6 fails for a unit that groups two malformed message chunks: the unit
    yields two error records, one for each of them. *)
Lemma grouped_unit_yields_two_error_records :
  count_type "error"
    (Gen.frames_of (_handle_chunk (H := Sample.externals) Sample.malformed_unit
                                  Sample.processor))
  = 2%nat.
Proof. vm_compute. reflexivity. Qed.


(** ** Instances of the properties *)

Lemma records_keep_source_order_witness :
  let unit1 := Sample.wrap Sample.busy_message in
  let unit2 := Sample.wrap (CToolMessage "c1" (JStr "ok")) in
  let agent : Agent := fun _ _ => mkSource [unit1; unit2; Sample.text_unit] None in
  let records1 :=
    [FData [("type", JStr "delta"); ("content", JStr "Hi")];
     FData [("type", JStr "tool_call"); ("id", JStr "c1"); ("name", JStr "gen");
            ("arguments", JDict [("a", JInt 1); ("b", JInt 2)])];
     FData [("type", JStr "tool_call"); ("id", JStr "c2"); ("name", JStr "edit");
            ("arguments", JDict [])];
     FData [("type", JStr "tool_call_chunk"); ("index", JInt 0); ("id", JStr "c1");
            ("args", JStr "{")];
     FData [("type", JStr "tool_call_chunk"); ("index", JInt 1); ("id", JNull);
            ("args", JStr "}")]] in
  let records2 :=
    [FData [("type", JStr "tool_result"); ("tool_call_id", JStr "c1");
            ("content", JStr "ok")];
     FData [("type", JStr "delta"); ("content", JStr "Hi")]] in
  langchain_messages (H := Sample.externals) Sample.conversation
  = Return [HumanMessage (JStr "draw a cat")]
  /\ is_snapshot unit1 = false
  /\ Gen.frames_of (_handle_chunk (H := Sample.externals) unit1 Sample.processor_c1)
     = records1
  /\ Gen.frames_of (run_units (H := Sample.externals)
                      ([unit1] ++ [unit2; Sample.text_unit]) Sample.processor_c1)
     = records1 ++ records2
  /\ exists last,
       Gen.frames_of (process_stream (H := Sample.externals) agent Sample.conversation
                                     Sample.processor_c1)
       = records1 ++ records2 ++ [last]
       /\ (is_done last = true \/ has_type "error" last = true).
Proof.
  intros unit1 unit2 agent records1 records2.
  assert (Hc : langchain_messages (H := Sample.externals) Sample.conversation
               = Return [HumanMessage (JStr "draw a cat")]) by reflexivity.
  assert (Hs : is_snapshot unit1 = false) by reflexivity.
  destruct (@records_keep_source_order Sample.externals) as (H1 & H2 & H3 & _).
  split; [exact Hc|]. split; [exact Hs|]. split.
  { rewrite (H3 unit1 Sample.processor_c1 Hs). vm_compute. reflexivity. }
  split.
  { rewrite (H2 [unit1] [unit2; Sample.text_unit] Sample.processor_c1).
    vm_compute. reflexivity. }
  destruct (H1 agent Sample.conversation _ Sample.processor_c1 Hc) as (last & Hl & Hk).
  exists last. split; [|exact Hk].
  rewrite Hl, app_assoc. reflexivity.
Defined.

Lemma tool_call_request_merges_witness :
  "c1" <> "" /\ "gen" <> ""
  /\ handle_tool_call
       (mkToolCall (Some "c1") (Some "gen") (ArgsDict [("b", JInt 2)])) Sample.processor_c1
     = (set_tool_call_args {[ "c1" := [("a", JInt 1); ("b", JInt 2)] ]} Sample.processor,
        [FData [("type", JStr "tool_call"); ("id", JStr "c1"); ("name", JStr "gen");
                ("arguments", JDict [("a", JInt 1); ("b", JInt 2)])]],
        Return tt)
  /\ map wire
       (Gen.frames_of
          (handle_tool_call
             (mkToolCall (Some "c1") (Some "gen") (ArgsDict [("b", JInt 2)]))
             Sample.processor_c1))
     = ["data: {" +:+ dq +:+ "type" +:+ dq +:+ ": " +:+ dq +:+ "tool_call" +:+ dq +:+ ", "
        +:+ dq +:+ "id" +:+ dq +:+ ": " +:+ dq +:+ "c1" +:+ dq +:+ ", "
        +:+ dq +:+ "name" +:+ dq +:+ ": " +:+ dq +:+ "gen" +:+ dq +:+ ", "
        +:+ dq +:+ "arguments" +:+ dq +:+ ": {" +:+ dq +:+ "a" +:+ dq +:+ ": 1, "
        +:+ dq +:+ "b" +:+ dq +:+ ": 2}}" +:+ nl +:+ nl].
Proof.
  assert (H1 : "c1" <> "") by discriminate.
  assert (H2 : "gen" <> "") by discriminate.
  split; [exact H1|]. split; [exact H2|].
  rewrite (proj1 (@tool_call_request_merges Sample.externals
                    "c1" "gen" [("b", JInt 2)] Sample.processor_c1 H1 H2)).
  split; vm_compute; reflexivity.
Defined.

Lemma tool_result_releases_witness :
  "c1" <> "" /\ "gen" <> ""
  /\ (let released :=
        Gen.state_of (_handle_message_chunk (H := Sample.externals)
                        (CToolMessage "c1" (JStr "ok")) Sample.processor_c1) in
      let later :=
        handle_tool_call (mkToolCall (Some "c1") (Some "gen") (ArgsDict [("b", JInt 2)]))
                         released in
      tool_call_args released !! "c1" = None
      /\ Gen.frames_of later
         = [FData [("type", JStr "tool_call"); ("id", JStr "c1"); ("name", JStr "gen");
                   ("arguments", JDict [("b", JInt 2)])]]).
Proof.
  assert (H1 : "c1" <> "") by discriminate.
  assert (H2 : "gen" <> "") by discriminate.
  split; [exact H1|]. split; [exact H2|]. cbv zeta.
  destruct (@tool_result_releases Sample.externals "c1" (JStr "ok") Sample.processor_c1)
    as (_ & _ & Hgone & _ & Hlater & _).
  split; [exact Hgone|].
  exact (proj2 (Hlater "gen" [("b", JInt 2)] H1 H2)).
Defined.

Lemma invalid_tool_call_dropped_witness :
  tc_name (mkToolCall (Some "c1") None (ArgsDict [("a", JInt 1)])) = None
  /\ handle_tool_call (mkToolCall (Some "c1") None (ArgsDict [("a", JInt 1)]))
                      Sample.processor_c1
     = (Sample.processor_c1, [], Return tt).
Proof.
  split; [reflexivity|].
  apply (proj1 (@invalid_tool_call_dropped Sample.externals
                  (mkToolCall (Some "c1") None (ArgsDict [("a", JInt 1)]))
                  (or_intror (or_intror (or_introl eq_refl))))).
Defined.

Lemma unit_failures_are_contained_witness :
  langchain_messages (H := Sample.externals) [] = Return []
  /\ src_failure (Sample.exhausted_agent [] 200) = None
  /\ Gen.frames_of (process_stream (H := Sample.externals) Sample.exhausted_agent []
                                   Sample.processor)
     = Gen.frames_of (run_units (H := Sample.externals) [Sample.malformed_unit]
                                Sample.processor)
       ++ [FDone].
Proof.
  split; [reflexivity|]. split; [reflexivity|].
  apply (proj2 (proj2 (proj2 (proj2 (proj2 (proj2
           (@unit_failures_are_contained Sample.externals))))))
           Sample.exhausted_agent [] [] Sample.processor eq_refl).
  reflexivity.
Defined.



Lemma text_delta_forwarded_witness :
  "Hi" <> ""
  /\ Gen.frames_of (_handle_message_chunk (H := Sample.externals)
                      (CAIMessageChunk (JStr "Hi") [] []) Sample.processor)
     = [FData [("type", JStr "delta"); ("content", JStr "Hi")]]
  /\ map wire
       (Gen.frames_of (_handle_message_chunk (H := Sample.externals)
                         (CAIMessageChunk (JStr "Hi") [] []) Sample.processor))
     = ["data: {" +:+ dq +:+ "type" +:+ dq +:+ ": " +:+ dq +:+ "delta" +:+ dq +:+ ", "
        +:+ dq +:+ "content" +:+ dq +:+ ": " +:+ dq +:+ "Hi" +:+ dq +:+ "}" +:+ nl +:+ nl].
Proof.
  assert (H1 : "Hi" <> "") by discriminate.
  split; [exact H1|].
  destruct (@text_delta_forwarded Sample.externals (JStr "Hi") Sample.processor)
    as (_ & _ & Hone & _).
  rewrite (proj1 (Hone "Hi" eq_refl H1)). split; reflexivity.
Defined.


(** ** Worked examples *)

Example dumps_ex1 :
  Json.dumps (JDict [("type", JStr "delta"); ("content", JStr "Hi")])
  = "{" +:+ dq +:+ "type" +:+ dq +:+ ": " +:+ dq +:+ "delta" +:+ dq +:+ ", "
        +:+ dq +:+ "content" +:+ dq +:+ ": " +:+ dq +:+ "Hi" +:+ dq +:+ "}".
Proof. reflexivity. Qed.

Example dumps_ex2 :
  Json.dumps (JDict [("a", JList [JInt (-12); JNull; JBool true; JDict []]);
                     ("b", JStr ("x" +:+ nl +:+ "y"))])
  = "{" +:+ dq +:+ "a" +:+ dq +:+ ": [-12, null, true, {}], "
        +:+ dq +:+ "b" +:+ dq +:+ ": " +:+ dq +:+ "x\ny" +:+ dq +:+ "}".
Proof. reflexivity. Qed.

Example dumps_ex4 :
  Json.dumps (JStr (String (ascii_of_nat 1) (String (ascii_of_nat 31) (dq +:+ Json.bs))))
  = dq +:+ Json.bs +:+ "u0001" +:+ Json.bs +:+ "u001f" +:+ Json.bs +:+ dq
       +:+ Json.bs +:+ Json.bs +:+ dq.
Proof. reflexivity. Qed.

Example dumps_ex3 : Json.dumps (JStr "你好") = dq +:+ "你好" +:+ dq.
Proof. reflexivity. Qed.

(** The scenario of the specification, on the wire. *)
Example scenario_stream :
  map wire (process_chat_stream (H := Sample.externals) Sample.scenario_env
                                Sample.conversation None)
  = let q := Json.dq in
    ["data: {" +:+ q +:+ "type" +:+ q +:+ ": " +:+ q +:+ "delta" +:+ q +:+ ", "
       +:+ q +:+ "content" +:+ q +:+ ": " +:+ q +:+ "Hi" +:+ q +:+ "}" +:+ nl +:+ nl;
     "data: {" +:+ q +:+ "type" +:+ q +:+ ": " +:+ q +:+ "tool_call" +:+ q +:+ ", "
       +:+ q +:+ "id" +:+ q +:+ ": " +:+ q +:+ "c1" +:+ q +:+ ", "
       +:+ q +:+ "name" +:+ q +:+ ": " +:+ q +:+ "gen" +:+ q +:+ ", "
       +:+ q +:+ "arguments" +:+ q +:+ ": {}}" +:+ nl +:+ nl;
     "data: {" +:+ q +:+ "type" +:+ q +:+ ": " +:+ q +:+ "tool_call_chunk" +:+ q +:+ ", "
       +:+ q +:+ "index" +:+ q +:+ ": 0, " +:+ q +:+ "id" +:+ q +:+ ": " +:+ q +:+ "c1" +:+ q
       +:+ ", " +:+ q +:+ "args" +:+ q +:+ ": " +:+ q +:+ "{\" +:+ q +:+ "prompt\" +:+ q +:+ q
       +:+ "}" +:+ nl +:+ nl;
     "data: {" +:+ q +:+ "type" +:+ q +:+ ": " +:+ q +:+ "tool_call_chunk" +:+ q +:+ ", "
       +:+ q +:+ "index" +:+ q +:+ ": 0, " +:+ q +:+ "id" +:+ q +:+ ": " +:+ q +:+ "c1" +:+ q
       +:+ ", " +:+ q +:+ "args" +:+ q +:+ ": " +:+ q +:+ ":\" +:+ q +:+ "cat\" +:+ q +:+ "}" +:+ q
       +:+ "}" +:+ nl +:+ nl;
     "data: {" +:+ q +:+ "type" +:+ q +:+ ": " +:+ q +:+ "tool_result" +:+ q +:+ ", "
       +:+ q +:+ "tool_call_id" +:+ q +:+ ": " +:+ q +:+ "c1" +:+ q +:+ ", "
       +:+ q +:+ "content" +:+ q +:+ ": " +:+ q +:+ "ok" +:+ q +:+ "}" +:+ nl +:+ nl;
     done_marker].
Proof. vm_compute. reflexivity. Qed.

(** A unit that groups two malformed message chunks: each keeps its text
    delta and yields its own error record. *)
Example malformed_unit_stream :
  let r := _handle_chunk (H := Sample.externals) Sample.malformed_unit Sample.processor in
  Gen.frames_of r =
    [FData (delta_event "Hi");
     FData (error_event
       "处理消息chunk时出错: dictionary update sequence element #0 has length 1; 2 is required");
     FData (delta_event "Hi");
     FData (error_event
       "处理消息chunk时出错: dictionary update sequence element #0 has length 1; 2 is required")]
  /\ unit_failures (H := Sample.externals) Sample.malformed_unit Sample.processor = 2%nat
  /\ tool_call_args (Gen.state_of r) !! "c1" = Some [].
Proof. cbv zeta. repeat split; vm_compute; reflexivity. Qed.

(** A snapshot whose data is not a mapping: one error record of the unit. *)
Example malformed_snapshot_stream :
  Gen.frames_of (_handle_chunk (H := Sample.externals)
                   (CTuple [CStr "values"; CList []]) Sample.processor)
  = [FData (error_event "处理chunk时出错: 'list' object has no attribute 'get'")].
Proof. reflexivity. Qed.

(** * Further properties of the code *)

(** ** Frames are single lines *)

Lemma single_line_app a b :
  single_line (a +:+ b) = single_line a && single_line b.
Proof.
  induction a as [|c a IH]; [reflexivity|].
  simpl. rewrite IH. destruct (line_break c), (single_line a); reflexivity.
Qed.

Lemma escape_char_single_line c : single_line (Json.escape_char c) = true.
Proof. destruct c as [[] [] [] [] [] [] [] []]; reflexivity. Qed.

Lemma escape_single_line s : single_line (Json.escape s) = true.
Proof.
  induction s as [|c s IH]; [reflexivity|].
  cbn [Json.escape]. rewrite single_line_app, escape_char_single_line, IH. reflexivity.
Qed.

Lemma quote_single_line s : single_line (Json.quote s) = true.
Proof.
  unfold Json.quote. rewrite !single_line_app, escape_single_line. reflexivity.
Qed.

Lemma string_of_uint_single_line d :
  single_line (NilEmpty.string_of_uint d) = true.
Proof. induction d; cbn; auto. Qed.

Lemma dumps_int_single_line n : single_line (Json.dumps_int n) = true.
Proof.
  unfold Json.dumps_int.
  destruct (Z.to_int n) as [d|d]; cbn [NilZero.string_of_int];
    destruct d; try reflexivity; cbn; apply string_of_uint_single_line.
Qed.

Lemma dumps_single_line v : single_line (Json.dumps v) = true.
Proof.
  induction v as [|b|n|s|xs IH|kvs IH] using JVal_nested_ind.
  - reflexivity.
  - destruct b; reflexivity.
  - apply dumps_int_single_line.
  - apply quote_single_line.
  - cbn [Json.dumps]. rewrite !single_line_app.
    apply andb_true_intro; split; [reflexivity|].
    apply andb_true_intro; split; [|reflexivity].
    induction IH as [|x l Hx Hl IHl]; [reflexivity|].
    destruct l as [|y l]; [exact Hx|].
    rewrite !single_line_app, Hx, IHl. reflexivity.
  - cbn [Json.dumps]. rewrite !single_line_app.
    apply andb_true_intro; split; [reflexivity|].
    apply andb_true_intro; split; [|reflexivity].
    induction IH as [|[k x] l Hx Hl IHl]; [reflexivity|].
    cbn [snd] in Hx.
    destruct l as [|y l].
    + rewrite !single_line_app, quote_single_line, Hx. reflexivity.
    + rewrite !single_line_app, quote_single_line, Hx, IHl. reflexivity.
Qed.

(** X1. The text of every frame is one line of an event stream: the
    prefix [data: ], a body without line feed or carriage return (the body
    is the JSON text of the record, or the terminal marker), and the blank
    line that ends the frame. *)
Theorem frame_is_one_line f :
  exists body,
    wire f = "data: " +:+ body +:+ nl +:+ nl
    /\ single_line ("data: " +:+ body) = true
    /\ match f with
       | FData event => body = Json.dumps (JDict event)
       | FDone => body = "[DONE]"
       end.
Proof.
  destruct f as [event|].
  - exists (Json.dumps (JDict event)). split; [reflexivity|]. split; [|reflexivity].
    rewrite single_line_app, dumps_single_line. reflexivity.
  - exists "[DONE]". repeat split.
Qed.

(** ** The record types of a stream *)

Lemma has_type_known t f :
  has_type t f = true -> In t record_kinds -> known_frame f = true.
Proof.
  intros Ht Hin. unfold known_frame. apply orb_true_iff. right.
  apply existsb_exists. exists t. split; assumption.
Qed.

Lemma Forall_known t out :
  In t record_kinds ->
  Forall (fun f => has_type t f = true) out ->
  Forall (fun f => known_frame f = true) out.
Proof.
  intros Hin Hout. eapply Forall_impl; [exact Hout|].
  intros f Hf. cbv beta in Hf. eapply has_type_known; [exact Hf | exact Hin].
Qed.

Lemma for_each_frames_Forall {A} (P : Frame -> Prop) (xs : list A)
      (body : A -> Gen unit) :
  (forall x self, Forall P (Gen.frames_of (body x self))) ->
  forall self, Forall P (Gen.frames_of (Gen.for_each xs body self)).
Proof.
  intros Hb. induction xs as [|x xs IH]; intros self; [constructor|].
  cbn [Gen.for_each]. unfold Gen.bind.
  specialize (Hb x self).
  destruct (body x self) as [[s1 o1] [[]|e]]; cbn in Hb; [|exact Hb].
  specialize (IH s1).
  destruct (Gen.for_each xs body s1) as [[s2 o2] r2]. cbn in IH |- *.
  apply Forall_app. split; assumption.
Qed.

Section KindFacts.
Context `{Externals}.

Lemma message_chunk_body_known m self :
  Forall (fun f => known_frame f = true) (Gen.frames_of (message_chunk_body m self)).
Proof.
  destruct m as [|s|xs|xs|kvs|id content|content tcs tccs|cls data];
    try solve [cbn; constructor].
  - cbn [message_chunk_body]. rewrite handle_tool_message_run. cbn.
    repeat constructor.
  - rewrite ai_chunk_body_run. cbv zeta.
    pose proof (handle_content_frames content self) as H1.
    destruct (tool_calls_loop_frames tcs (Gen.state_of (handle_content content self)))
      as (H2 & _).
    apply (Forall_known "delta") in H1; [|cbn; tauto].
    apply (Forall_known "tool_call") in H2; [|cbn; tauto].
    assert (H3 : Forall (fun f => known_frame f = true) (flat_map fragment_frames tccs)).
    { apply Forall_flat_map. intros tcc.
      apply (Forall_known "tool_call_chunk"); [cbn; tauto | apply fragment_frames_type]. }
    destruct (Gen.outcome_of _); cbn [Gen.frames_of fst snd];
      rewrite ?Forall_app; repeat split; assumption.
Qed.

Lemma handle_message_chunk_known m self :
  Forall (fun f => known_frame f = true) (Gen.frames_of (_handle_message_chunk m self)).
Proof.
  rewrite handle_message_chunk_run. cbv zeta.
  pose proof (message_chunk_body_known m self) as Hb.
  destruct (Gen.outcome_of _); cbn [Gen.frames_of fst snd]; [exact Hb|].
  apply Forall_app. split; [exact Hb | repeat constructor].
Qed.

Lemma handle_chunk_known chunk self :
  Forall (fun f => known_frame f = true) (Gen.frames_of (_handle_chunk chunk self)).
Proof.
  rewrite handle_chunk_run. cbv zeta.
  assert (Hb : Forall (fun f => known_frame f = true)
                 (Gen.frames_of (chunk_body chunk self))).
  { rewrite chunk_body_run.
    destruct (as_pair chunk) as [[ty data]|];
      [destruct (chunk_is_str ty "values")|];
      try (apply for_each_frames_Forall; intros; apply handle_message_chunk_known).
    rewrite values_chunk_run. destruct data; cbn; try constructor.
    destruct (chunk_truthy _); [|constructor].
    destruct (convert_to_openai_messages _); repeat constructor. }
  destruct (Gen.outcome_of _); cbn [Gen.frames_of fst snd]; [exact Hb|].
  apply Forall_app. split; [exact Hb | repeat constructor].
Qed.

(** X2. Every frame of a chat stream is the terminal marker or a record
    whose [type] is one of [delta], [tool_call], [tool_call_chunk],
    [tool_result], [messages] and [error], whatever the agent delivers and
    however the stream ends. *)
Theorem stream_frames_are_known env messages sid :
  Forall (fun f => known_frame f = true) (process_chat_stream env messages sid).
Proof.
  rewrite process_chat_stream_run.
  destruct (create_agent env) as [agent|e]; [|repeat constructor].
  destruct (env_recursion_limit env) as [limit|e]; [|repeat constructor].
  destruct (langchain_messages messages) as [conversation|e]; [|repeat constructor].
  cbv zeta. apply Forall_app. split.
  - apply for_each_frames_Forall. intros; apply handle_chunk_known.
  - destruct (src_failure _); repeat constructor.
Qed.

(** X3. A chat stream is never empty: it consists of frames that are not
    the terminal marker, followed by one last frame that is either the
    terminal marker or an error record.  So the terminal marker is never
    followed by anything, and a stream that lacks it ends with an error
    record. *)
Theorem stream_ends_with_done_or_error env messages sid :
  exists init last,
    process_chat_stream env messages sid = init ++ [last]
    /\ count_done init = O
    /\ (is_done last = true \/ has_type "error" last = true).
Proof.
  rewrite process_chat_stream_run.
  destruct (create_agent env) as [agent|e].
  2:{ exists [FData (error_event (exn_str e))], FDone. repeat split. left. reflexivity. }
  destruct (env_recursion_limit env) as [limit|e].
  2:{ exists [FData (error_event (exn_str e))], FDone. repeat split. left. reflexivity. }
  destruct (langchain_messages messages) as [conversation|e].
  2:{ exists [], (FData (stream_error_event (exn_str e) (format_exc e))).
      repeat split. right. reflexivity. }
  cbv zeta. eexists _, _. split; [reflexivity|]. split; [apply run_units_counts|].
  destruct (src_failure _); [right | left]; reflexivity.
Qed.

End KindFacts.

(** ** The log buffer and the session id have no influence *)

Lemma relog_relog sid buf sid' buf' self :
  relog sid buf (relog sid' buf' self) = relog sid buf self.
Proof. reflexivity. Qed.

Lemma log_blind_ret {A} (a : A) : log_blind (Gen.ret a).
Proof. intros self sid buf. exists buf. reflexivity. Qed.

Lemma log_blind_yield f : log_blind (Gen.yield f).
Proof. intros self sid buf. exists buf. reflexivity. Qed.

Lemma log_blind_raise {A} e : log_blind (@Gen.raise A e).
Proof. intros self sid buf. exists buf. reflexivity. Qed.

Lemma log_blind_bind {A B} (m : Gen A) (k : A -> Gen B) :
  log_blind m -> (forall a, log_blind (k a)) -> log_blind (Gen.bind m k).
Proof.
  intros Hm Hk self sid buf. destruct (Hm self sid buf) as [buf1 H1].
  unfold Gen.bind. rewrite H1.
  destruct (m self) as [[s1 o1] [a|e]]; cbn [Gen.state_of Gen.frames_of Gen.outcome_of fst snd].
  - destruct (Hk a s1 sid buf1) as [buf2 H2]. rewrite H2.
    destruct (k a s1) as [[s2 o2] r2]. exists buf2. reflexivity.
  - exists buf1. reflexivity.
Qed.

Lemma log_blind_try_except (m : Gen unit) (h : Exn -> Gen unit) :
  log_blind m -> (forall e, log_blind (h e)) -> log_blind (Gen.try_except m h).
Proof.
  intros Hm Hh self sid buf. destruct (Hm self sid buf) as [buf1 H1].
  unfold Gen.try_except. rewrite H1.
  destruct (m self) as [[s1 o1] [a|e]]; cbn [Gen.state_of Gen.frames_of Gen.outcome_of fst snd].
  - exists buf1. reflexivity.
  - destruct (Hh e s1 sid buf1) as [buf2 H2]. rewrite H2.
    destruct (h e s1) as [[s2 o2] r2]. exists buf2. reflexivity.
Qed.

Lemma log_blind_for_each {A} (xs : list A) (body : A -> Gen unit) :
  (forall x, log_blind (body x)) -> log_blind (Gen.for_each xs body).
Proof.
  intros Hb. induction xs as [|x xs IH]; [apply log_blind_ret|].
  cbn [Gen.for_each]. apply log_blind_bind; [apply Hb | intros _; exact IH].
Qed.

Lemma log_blind_when b (m : Gen unit) : log_blind m -> log_blind (Gen.when b m).
Proof. intros Hm. destruct b; [exact Hm | apply log_blind_ret]. Qed.

Section LogFacts.
Context `{Externals}.

Lemma log_blind_log_text s : log_blind (log_text s).
Proof.
  intros self sid buf. unfold log_text, Gen.modify.
  cbn [Gen.state_of Gen.frames_of Gen.outcome_of fst snd].
  cbn [relog text_buffer].
  destruct (_ || _); destruct (_ || _); eexists; reflexivity.
Qed.

Lemma log_blind_handle_content content : log_blind (handle_content content).
Proof.
  unfold handle_content.
  destruct (_ && _); [|apply log_blind_ret].
  destruct (negb _); [|apply log_blind_ret].
  apply log_blind_bind; [apply log_blind_log_text | intros _; apply log_blind_yield].
Qed.

Lemma log_blind_handle_tool_call tool_call : log_blind (handle_tool_call tool_call).
Proof.
  intros self sid buf. exists buf. unfold handle_tool_call.
  destruct (_ || _); [reflexivity|].
  destruct self as [sid0 buf0 tca lim].
  unfold update_args, Gen.bind, Gen.modify, Gen.get_self, Gen.when, Gen.yield,
    Gen.ret, Gen.raise, relog, set_tool_call_args.
  cbn [tool_call_args session_id text_buffer recursion_limit].
  destruct (tca !! default "" (tc_id tool_call)) as [entry|] eqn:Hl;
    destruct (args_truthy (tc_args tool_call));
    cbn [tool_call_args session_id text_buffer recursion_limit];
    rewrite ?Hl, ?lookup_insert_eq;
    try reflexivity;
    destruct (tc_args tool_call);
    cbn [tool_call_args session_id text_buffer recursion_limit];
    rewrite ?lookup_insert_eq; reflexivity.
Qed.

Lemma log_blind_handle_tool_call_chunk tcc : log_blind (handle_tool_call_chunk tcc).
Proof.
  intros self sid buf. exists buf. rewrite !handle_tool_call_chunk_run. reflexivity.
Qed.

Lemma log_blind_handle_tool_message id content :
  log_blind (handle_tool_message id content).
Proof.
  intros self sid buf. exists buf. rewrite !handle_tool_message_run. reflexivity.
Qed.

Lemma log_blind_message_chunk_body m : log_blind (message_chunk_body m).
Proof.
  destruct m as [|s|xs|xs|kvs|id content|content tcs tccs|cls data];
    try apply log_blind_ret.
  - apply log_blind_handle_tool_message.
  - cbn [message_chunk_body].
    apply log_blind_bind; [apply log_blind_handle_content | intros _].
    apply log_blind_bind; [|intros _].
    + apply log_blind_when, log_blind_for_each, log_blind_handle_tool_call.
    + apply log_blind_when, log_blind_for_each, log_blind_handle_tool_call_chunk.
Qed.

Lemma log_blind_handle_message_chunk m : log_blind (_handle_message_chunk m).
Proof.
  apply log_blind_try_except; [apply log_blind_message_chunk_body|].
  intros e. apply log_blind_yield.
Qed.

Lemma log_blind_handle_values_chunk data : log_blind (_handle_values_chunk data).
Proof.
  destruct data; try apply log_blind_raise.
  cbn [_handle_values_chunk]. destruct (chunk_truthy _); [|apply log_blind_ret].
  destruct (convert_to_openai_messages _); [apply log_blind_yield | apply log_blind_raise].
Qed.

Lemma log_blind_handle_chunk chunk : log_blind (_handle_chunk chunk).
Proof.
  apply log_blind_try_except; [|intros e; apply log_blind_yield].
  unfold chunk_body.
  destruct (as_pair chunk) as [[ty data]|].
  - destruct (chunk_is_str ty "values"); [apply log_blind_handle_values_chunk|].
    destruct (as_nonempty_list data);
      [apply log_blind_for_each, log_blind_handle_message_chunk|].
    destruct (iter_items data);
      [apply log_blind_for_each |]; apply log_blind_handle_message_chunk.
  - destruct (as_nonempty_list chunk);
      [apply log_blind_for_each |]; apply log_blind_handle_message_chunk.
Qed.

Lemma log_blind_with_limit {A} (k : Z -> Gen A) :
  (forall n, log_blind (k n)) ->
  log_blind (Gen.bind Gen.get_self (fun self => k (recursion_limit self))).
Proof.
  intros Hk self sid buf. unfold Gen.bind, Gen.get_self.
  cbn [relog recursion_limit].
  destruct (Hk (recursion_limit self) self sid buf) as [buf1 H1].
  change {| session_id := sid; text_buffer := buf; tool_call_args := tool_call_args self;
            recursion_limit := recursion_limit self |} with (relog sid buf self).
  rewrite H1. destruct (k (recursion_limit self) self) as [[s1 o1] r1].
  exists buf1. reflexivity.
Qed.

Lemma log_blind_flush :
  log_blind (Gen.modify (fun self =>
    if negb (String.eqb (text_buffer self) "") then set_text_buffer "" self else self)).
Proof.
  intros self sid buf. exists "". unfold Gen.modify.
  cbn [Gen.state_of Gen.frames_of Gen.outcome_of fst snd relog text_buffer].
  destruct (String.eqb_spec buf "") as [->|Hb];
    destruct (String.eqb (text_buffer self) ""); reflexivity.
Qed.

Lemma log_blind_process_stream agent messages :
  log_blind (process_stream agent messages).
Proof.
  apply log_blind_try_except; [|intros e; apply log_blind_yield].
  unfold stream_body.
  destruct (langchain_messages messages) as [conversation|e]; [|apply log_blind_raise].
  apply (log_blind_with_limit (fun n =>
    Gen.bind (Gen.for_each (src_chunks (agent conversation n))
                           _handle_chunk)
             (fun _ =>
                match src_failure (agent conversation n) with
                | Some e => Gen.raise e
                | None =>
                    Gen.bind
                      (Gen.modify (fun self =>
                         if negb (String.eqb (text_buffer self) "")
                         then set_text_buffer "" self else self))
                      (fun _ => Gen.yield FDone)
                end))).
  intros n. apply log_blind_bind.
  - apply log_blind_for_each, log_blind_handle_chunk.
  - intros _. destruct (src_failure _); [apply log_blind_raise|].
    apply log_blind_bind; [apply log_blind_flush | intros _; apply log_blind_yield].
Qed.

(** X4. The session id and the log buffer of the processor are never read
    for the output: a stream started from a processor that differs only in
    them yields the same frames, ends the same way and leaves the same
    argument accumulator and recursion limit. *)
Theorem log_state_has_no_influence agent messages self sid buf :
  let r := process_stream agent messages self in
  let r' := process_stream agent messages (relog sid buf self) in
  Gen.frames_of r' = Gen.frames_of r
  /\ Gen.outcome_of r' = Gen.outcome_of r
  /\ tool_call_args (Gen.state_of r') = tool_call_args (Gen.state_of r)
  /\ recursion_limit (Gen.state_of r') = recursion_limit (Gen.state_of r).
Proof.
  cbv zeta. destruct (log_blind_process_stream agent messages self sid buf) as [buf' ->].
  repeat split.
Qed.

End LogFacts.

(** ** The shapes of an inbound unit *)

Section ShapeFacts.
Context `{Externals}.

Lemma handle_chunk_list ms self :
  _handle_chunk (CList ms) self
  = Gen.try_except (Gen.for_each ms _handle_message_chunk)
      (fun e => Gen.yield (FData (chunk_error_event e))) self.
Proof.
  destruct ms as [|m ms]; [|reflexivity].
  unfold _handle_chunk, Gen.try_except, chunk_body.
  cbn [as_pair as_nonempty_list]. reflexivity.
Qed.

(** X5. The shapes in which message chunks are delivered are translated
    alike.  A pair whose first component is not the string [values] is
    handled as the bare list of the items of its second component, whether
    that is a list or a tuple, so the first component (the stream mode, or
    whatever else stands there) is never translated; and a bare message
    object is handled as the list that holds just it. *)
Theorem delivery_shapes_agree tag ms self :
  chunk_is_str tag "values" = false ->
  _handle_chunk (CTuple [tag; CList ms]) self = _handle_chunk (CList ms) self
  /\ _handle_chunk (CTuple [tag; CTuple ms]) self = _handle_chunk (CList ms) self
  /\ (forall id content,
        _handle_chunk (CToolMessage id content) self
        = _handle_chunk (CList [CToolMessage id content]) self)
  /\ (forall content tool_calls tool_call_chunks,
        _handle_chunk (CAIMessageChunk content tool_calls tool_call_chunks) self
        = _handle_chunk (CList [CAIMessageChunk content tool_calls tool_call_chunks]) self).
Proof.
  intros Htag. rewrite !handle_chunk_list.
  split; [|split; [|split]].
  - unfold _handle_chunk, chunk_body. cbn [as_pair]. rewrite Htag.
    destruct ms as [|m ms]; reflexivity.
  - unfold _handle_chunk, chunk_body. cbn [as_pair]. rewrite Htag. reflexivity.
  - intros id content. rewrite handle_chunk_list.
    unfold _handle_chunk, chunk_body, Gen.try_except. cbn [as_pair as_nonempty_list].
    rewrite for_each_singleton. reflexivity.
  - intros content tcs tccs. rewrite handle_chunk_list.
    unfold _handle_chunk, chunk_body, Gen.try_except. cbn [as_pair as_nonempty_list].
    rewrite for_each_singleton. reflexivity.
Qed.

End ShapeFacts.

Lemma delivery_shapes_agree_witness :
  chunk_is_str (CStr "messages") "values" = false
  /\ _handle_chunk (H := Sample.externals)
       (CTuple [CStr "messages"; CList [CToolMessage "c1" (JStr "ok")]]) Sample.processor
     = _handle_chunk (H := Sample.externals) (CList [CToolMessage "c1" (JStr "ok")])
         Sample.processor.
Proof.
  assert (Htag : chunk_is_str (CStr "messages") "values" = false) by reflexivity.
  split; [exact Htag|].
  apply (@delivery_shapes_agree Sample.externals (CStr "messages")
           [CToolMessage "c1" (JStr "ok")] Sample.processor Htag).
Defined.

(** ** The footprint of a stream on the argument accumulator *)

Lemma footprint_refl m : footprint [] [] m m.
Proof. split; [reflexivity | intros id Hs; left; exact Hs]. Qed.

Lemma footprint_weaken n r n' r' a b :
  footprint n r a b -> incl n n' -> incl r r' -> footprint n' r' a b.
Proof.
  intros [H1 H2] Hn Hr. split.
  - intros id Hid. apply H1. intros Hin. apply Hid, Hn, Hin.
  - intros id Hs. destruct (H2 id Hs) as [Hb|Hin]; [left; exact Hb | right; apply Hr, Hin].
Qed.

Lemma footprint_trans n1 r1 n2 r2 a b c :
  footprint n1 r1 a b -> footprint n2 r2 b c -> footprint (n1 ++ n2) (r1 ++ r2) a c.
Proof.
  intros [H1 H2] [H3 H4]. split.
  - intros id Hid. rewrite H3, H1; [reflexivity| |];
      intros Hin; apply Hid, in_or_app; tauto.
  - intros id Hs. destruct (H4 id Hs) as [Hb|Hin]; [|right; apply in_or_app; tauto].
    destruct (H2 id Hb) as [Ha|Hin]; [left; exact Ha | right; apply in_or_app; tauto].
Qed.

Lemma footprint_insert id entry m : footprint [id] [id] m (<[id := entry]> m).
Proof.
  split.
  - intros id' Hid. apply lookup_insert_ne. intros ->. apply Hid. left. reflexivity.
  - intros id' Hs. destruct (decide (id = id')) as [->|Hne]; [right; left; reflexivity|].
    left. rewrite lookup_insert_ne in Hs by exact Hne. exact Hs.
Qed.

Lemma footprint_delete id m : footprint [id] [] m (delete id m).
Proof.
  split.
  - intros id' Hid. apply lookup_delete_ne. intros ->. apply Hid. left. reflexivity.
  - intros id' Hs. left. destruct (decide (id = id')) as [->|Hne].
    + rewrite lookup_delete_eq in Hs. destruct Hs as [x Hx]. discriminate.
    + rewrite lookup_delete_ne in Hs by exact Hne. exact Hs.
Qed.

Section FootprintFacts.
Context `{Externals}.

Lemma handle_tool_call_footprint tool_call self :
  let ids := map (fun tc => (call_of tc).1) (List.filter valid_tool_call [tool_call]) in
  footprint ids ids (tool_call_args self)
            (tool_call_args (Gen.state_of (handle_tool_call tool_call self))).
Proof.
  cbv zeta. cbn [List.filter].
  destruct (valid_tool_call tool_call) eqn:Hv.
  - destruct (valid_tool_call_inv _ Hv) as (id & name & args & Hid & Hname & ->).
    cbn [map call_of tc_id tc_name default fst].
    destruct args as [d| |s].
    + rewrite handle_tool_call_dict by assumption. apply footprint_insert.
    + rewrite handle_tool_call_falsy by (assumption || reflexivity). apply footprint_insert.
    + destruct (String.eqb_spec s "") as [->|Hs].
      * rewrite handle_tool_call_falsy by (assumption || reflexivity).
        apply footprint_insert.
      * rewrite handle_tool_call_text by assumption. apply footprint_insert.
  - rewrite handle_tool_call_skip; [apply footprint_refl|].
    unfold valid_tool_call in Hv. apply negb_false_iff in Hv. exact Hv.
Qed.

Lemma tool_calls_loop_footprint tcs self :
  let ids := map (fun tc => (call_of tc).1) (List.filter valid_tool_call tcs) in
  footprint ids ids (tool_call_args self)
            (tool_call_args (Gen.state_of (Gen.for_each tcs handle_tool_call self))).
Proof.
  cbv zeta. revert self. induction tcs as [|tc tcs IH]; intros self; [apply footprint_refl|].
  pose proof (handle_tool_call_footprint tc self) as H1. cbv zeta in H1.
  cbn [Gen.for_each]. unfold Gen.bind.
  destruct (handle_tool_call tc self) as [[s1 o1] [[]|e]];
    cbn [Gen.state_of fst] in H1.
  - specialize (IH s1).
    destruct (Gen.for_each tcs handle_tool_call s1) as [[s2 o2] r2].
    cbn [Gen.state_of fst] in IH |- *.
    change (tc :: tcs) with ([tc] ++ tcs). rewrite List.filter_app, map_app.
    eapply footprint_trans; eassumption.
  - cbn [Gen.state_of fst].
    change (tc :: tcs) with ([tc] ++ tcs). rewrite List.filter_app, map_app.
    eapply footprint_weaken; [exact H1 | apply incl_appl, incl_refl..].
Qed.

Lemma message_chunk_body_footprint m self :
  footprint (named_ids m) (requested_ids m) (tool_call_args self)
            (tool_call_args (Gen.state_of (message_chunk_body m self))).
Proof.
  destruct m as [|s|xs|xs|kvs|id content|content tcs tccs|cls data];
    try apply footprint_refl.
  - cbn [message_chunk_body]. rewrite handle_tool_message_run. apply footprint_delete.
  - rewrite ai_chunk_body_run. cbv zeta.
    pose proof (tool_calls_loop_footprint tcs (Gen.state_of (handle_content content self)))
      as Hl. cbv zeta in Hl. rewrite handle_content_tool_call_args in Hl.
    destruct (Gen.outcome_of _); exact Hl.
Qed.

Lemma handle_message_chunk_state m self :
  Gen.state_of (_handle_message_chunk m self) = Gen.state_of (message_chunk_body m self).
Proof.
  rewrite handle_message_chunk_run. cbv zeta. destruct (Gen.outcome_of _); reflexivity.
Qed.

Lemma messages_loop_footprint ms self :
  footprint (flat_map named_ids ms) (flat_map requested_ids ms) (tool_call_args self)
    (tool_call_args (Gen.state_of (Gen.for_each ms _handle_message_chunk self))).
Proof.
  revert self. induction ms as [|m ms IH]; intros self; [apply footprint_refl|].
  rewrite for_each_cons_returns by apply handle_message_chunk_returns.
  cbv zeta. cbn [Gen.state_of fst flat_map].
  eapply footprint_trans; [|apply IH].
  rewrite handle_message_chunk_state. apply message_chunk_body_footprint.
Qed.

Lemma handle_chunk_state chunk self :
  Gen.state_of (_handle_chunk chunk self)
  = Gen.state_of (Gen.for_each (unit_messages chunk) _handle_message_chunk self).
Proof.
  rewrite handle_chunk_run. cbv zeta.
  assert (Hb : Gen.state_of (chunk_body chunk self)
               = Gen.state_of (Gen.for_each (unit_messages chunk)
                                 _handle_message_chunk self)).
  { rewrite chunk_body_run. unfold unit_messages.
    destruct (as_pair chunk) as [[ty data]|]; [|reflexivity].
    destruct (chunk_is_str ty "values"); [|reflexivity].
    rewrite values_chunk_run. destruct data; try reflexivity.
    cbv zeta. destruct (chunk_truthy _); [|reflexivity].
    destruct (convert_to_openai_messages _); reflexivity. }
  destruct (Gen.outcome_of _); exact Hb.
Qed.

Lemma run_units_footprint chunks self :
  footprint (flat_map named_ids (flat_map unit_messages chunks))
            (flat_map requested_ids (flat_map unit_messages chunks))
            (tool_call_args self)
            (tool_call_args (Gen.state_of (run_units chunks self))).
Proof.
  revert self. induction chunks as [|c cs IH]; intros self; [apply footprint_refl|].
  rewrite run_units_cons. cbv zeta. cbn [Gen.state_of fst flat_map].
  rewrite !flat_map_app.
  eapply footprint_trans; [|apply IH].
  rewrite handle_chunk_state. apply messages_loop_footprint.
Qed.

Lemma requested_ids_nonempty m id : In id (requested_ids m) -> id <> "".
Proof.
  destruct m; try contradiction. cbn [requested_ids].
  intros Hin. apply in_map_iff in Hin. destruct Hin as (tc & <- & Htc).
  apply filter_In in Htc. destruct Htc as [_ Hv].
  destruct (valid_tool_call_inv _ Hv) as (id & name & args & Hid & _ & ->).
  exact Hid.
Qed.

(** X6. Translating inbound units touches the argument accumulator only
    at the call ids they name: the entry of a call id that is neither the
    id of a valid tool-call entry nor the id of a tool result among the
    units' message chunks is exactly as before, whether or not it exists. *)
Theorem accumulator_isolated_by_call_id chunks self id :
  ~ In id (flat_map named_ids (flat_map unit_messages chunks)) ->
  tool_call_args (Gen.state_of (run_units chunks self)) !! id
  = tool_call_args self !! id.
Proof. intros Hid. apply (proj1 (run_units_footprint chunks self)), Hid. Qed.

(** X7. Entries of the argument accumulator come from valid tool-call
    requests only: an entry that exists after inbound units are translated
    either existed before, or its id is the non-empty call id of a valid
    tool-call entry of one of the units' message chunks.  In particular
    argument fragments and tool results never create an entry, and the
    empty string never becomes a key. *)
Theorem accumulator_entries_come_from_requests chunks self id :
  is_Some (tool_call_args (Gen.state_of (run_units chunks self)) !! id) ->
  is_Some (tool_call_args self !! id)
  \/ (id <> ""
      /\ In id (flat_map requested_ids (flat_map unit_messages chunks))).
Proof.
  intros Hs. destruct (proj2 (run_units_footprint chunks self) id Hs) as [Hb|Hin];
    [left; exact Hb | right].
  split; [|exact Hin].
  apply in_flat_map in Hin. destruct Hin as (m & _ & Hm).
  eapply requested_ids_nonempty, Hm.
Qed.

End FootprintFacts.

Lemma accumulator_isolated_by_call_id_witness :
  (In "c2" (flat_map named_ids
              (flat_map (unit_messages (H := Sample.externals)) Sample.scenario)) -> False)
  /\ tool_call_args (Gen.state_of (run_units (H := Sample.externals) Sample.scenario
                                     Sample.processor_c1)) !! "c2"
     = tool_call_args Sample.processor_c1 !! "c2".
Proof.
  assert (Hid : ~ In "c2" (flat_map named_ids
                  (flat_map (unit_messages (H := Sample.externals)) Sample.scenario))).
  { cbn. intros [Heq|[Heq|[]]]; discriminate Heq. }
  split; [exact Hid|].
  exact (@accumulator_isolated_by_call_id Sample.externals Sample.scenario
           Sample.processor_c1 "c2" Hid).
Defined.

Lemma accumulator_entries_come_from_requests_witness :
  is_Some (tool_call_args
             (Gen.state_of (run_units (H := Sample.externals)
                              [Sample.wrap Sample.malformed_message] Sample.processor))
           !! "c1")
  /\ (is_Some (tool_call_args Sample.processor !! "c1")
      \/ ("c1" <> ""
          /\ In "c1" (flat_map requested_ids
                        (flat_map (unit_messages (H := Sample.externals))
                                  [Sample.wrap Sample.malformed_message])))).
Proof.
  assert (Hs : is_Some (tool_call_args
             (Gen.state_of (run_units (H := Sample.externals)
                              [Sample.wrap Sample.malformed_message] Sample.processor))
           !! "c1")).
  { exists []. vm_compute. reflexivity. }
  split; [exact Hs|].
  exact (@accumulator_entries_come_from_requests Sample.externals
           [Sample.wrap Sample.malformed_message] Sample.processor "c1" Hs).
Defined.

(** ** What a stream carries *)

Lemma append_assoc a b c : (a +:+ b) +:+ c = a +:+ (b +:+ c).
Proof.
  induction a as [|x a IH]; [reflexivity|].
  change (String x ((a +:+ b) +:+ c) = String x (a +:+ (b +:+ c))).
  rewrite IH. reflexivity.
Qed.

Lemma stream_text_app out1 out2 :
  stream_text (out1 ++ out2) = stream_text out1 +:+ stream_text out2.
Proof.
  induction out1 as [|f out1 IH]; [reflexivity|].
  cbn [app stream_text fold_right]. fold (stream_text (out1 ++ out2)).
  fold (stream_text out1). rewrite IH. symmetry. apply append_assoc.
Qed.

Lemma append_empty_r s : s +:+ "" = s.
Proof.
  induction s as [|c s IH]; [reflexivity|].
  change (String c (s +:+ "") = String c s). rewrite IH. reflexivity.
Qed.

Lemma has_other_type t t' f : has_type t f = true -> t <> t' -> has_type t' f = false.
Proof.
  unfold has_type. destruct (frame_type f) as [u|]; [|discriminate].
  intros Hu Hne. apply String.eqb_eq in Hu. subst u.
  apply String.eqb_neq. exact Hne.
Qed.

Lemma stream_text_other t out :
  t <> "delta" ->
  Forall (fun f => has_type t f = true) out -> stream_text out = "".
Proof.
  intros Hne. induction 1 as [|f out Hf _ IH]; [reflexivity|].
  cbn [stream_text fold_right]. fold (stream_text out). rewrite IH.
  unfold delta_text. rewrite (has_other_type t "delta" f Hf Hne). reflexivity.
Qed.

Lemma omap_frame_result_other t out :
  t <> "tool_result" ->
  Forall (fun f => has_type t f = true) out -> omap frame_result out = [].
Proof.
  intros Hne. induction 1 as [|f out Hf _ IH]; [reflexivity|].
  change (omap frame_result (f :: out))
    with (match frame_result f with
          | Some r => r :: omap frame_result out
          | None => omap frame_result out
          end).
  unfold frame_result. rewrite (has_other_type t "tool_result" f Hf Hne). exact IH.
Qed.

Section CarriedFacts.
Context `{Externals}.

Lemma handle_message_chunk_frames m self :
  exists E,
    Gen.frames_of (_handle_message_chunk m self)
    = Gen.frames_of (message_chunk_body m self) ++ E
    /\ Forall (fun f => has_type "error" f = true) E.
Proof.
  rewrite handle_message_chunk_run. cbv zeta.
  destruct (Gen.outcome_of _) as [[]|e]; cbn [Gen.frames_of fst snd].
  - exists []. rewrite app_nil_r. split; [reflexivity | constructor].
  - exists [FData (message_error_event e)]. split; [reflexivity | repeat constructor].
Qed.

Lemma ai_chunk_body_frames content tcs tccs self :
  exists T K,
    Gen.frames_of (message_chunk_body (CAIMessageChunk content tcs tccs) self)
    = Gen.frames_of (handle_content content self) ++ T ++ K
    /\ Forall (fun f => has_type "tool_call" f = true) T
    /\ Forall (fun f => has_type "tool_call_chunk" f = true) K.
Proof.
  rewrite ai_chunk_body_run. cbv zeta.
  destruct (tool_calls_loop_frames tcs (Gen.state_of (handle_content content self)))
    as (HT & _).
  destruct (Gen.outcome_of _); cbn [Gen.frames_of fst snd].
  - eexists _, _. split; [reflexivity|]. split; [exact HT|].
    apply Forall_flat_map, fragment_frames_type.
  - eexists _, []. rewrite app_nil_r. split; [reflexivity|]. split; [exact HT | constructor].
Qed.

Lemma handle_message_chunk_text m self :
  stream_text (Gen.frames_of (_handle_message_chunk m self)) = message_text m.
Proof.
  destruct (handle_message_chunk_frames m self) as (E & -> & HE).
  rewrite stream_text_app, (stream_text_other "error" E) by (discriminate || exact HE).
  rewrite append_empty_r.
  destruct m as [|s|xs|xs|kvs|id content|content tcs tccs|cls data]; try reflexivity.
  - destruct (ai_chunk_body_frames content tcs tccs self) as (T & K & -> & HT & HK).
    rewrite !stream_text_app, (stream_text_other "tool_call" T),
      (stream_text_other "tool_call_chunk" K) by (discriminate || assumption).
    rewrite !append_empty_r, handle_content_run. cbn [Gen.frames_of fst snd message_text].
    destruct (String.eqb_spec (text_of content) "") as [->|_]; [reflexivity|].
    cbn. apply append_empty_r.
Qed.

Lemma handle_message_chunk_results m self :
  omap frame_result (Gen.frames_of (_handle_message_chunk m self))
  = match message_result m with Some r => [r] | None => [] end.
Proof.
  destruct (handle_message_chunk_frames m self) as (E & -> & HE).
  rewrite omap_app, (omap_frame_result_other "error" E) by (discriminate || exact HE).
  rewrite app_nil_r.
  destruct m as [|s|xs|xs|kvs|id content|content tcs tccs|cls data]; try reflexivity.
  - destruct (ai_chunk_body_frames content tcs tccs self) as (T & K & -> & HT & HK).
    rewrite !omap_app, (omap_frame_result_other "tool_call" T),
      (omap_frame_result_other "tool_call_chunk" K) by (discriminate || assumption).
    rewrite !app_nil_r.
    apply (omap_frame_result_other "delta"); [discriminate | apply handle_content_frames].
Qed.

Lemma messages_loop_carried ms self :
  let out := Gen.frames_of (Gen.for_each ms _handle_message_chunk self) in
  stream_text out = fold_right (fun m rest => message_text m +:+ rest) "" ms
  /\ omap frame_result out = omap message_result ms.
Proof.
  cbv zeta. revert self. induction ms as [|m ms IH]; intros self; [split; reflexivity|].
  rewrite for_each_cons_returns by apply handle_message_chunk_returns.
  cbv zeta. cbn [Gen.frames_of fst snd fold_right].
  destruct (IH (Gen.state_of (_handle_message_chunk m self))) as [IH1 IH2].
  rewrite stream_text_app, omap_app, handle_message_chunk_text,
    handle_message_chunk_results, IH1, IH2.
  split; [reflexivity|].
  change (omap message_result (m :: ms))
    with (match message_result m with
          | Some r => r :: omap message_result ms
          | None => omap message_result ms
          end).
  destruct (message_result m); reflexivity.
Qed.

Lemma handle_chunk_frames chunk self :
  exists S,
    Gen.frames_of (_handle_chunk chunk self)
    = Gen.frames_of (Gen.for_each (unit_messages chunk) _handle_message_chunk self) ++ S
    /\ (Forall (fun f => has_type "messages" f = true) S
        \/ Forall (fun f => has_type "error" f = true) S).
Proof.
  rewrite handle_chunk_run. cbv zeta. rewrite chunk_body_run. unfold unit_messages.
  pose proof (fun ms => messages_loop_not_raises ms self) as Hr. unfold raises in Hr.
  destruct (as_pair chunk) as [[ty data]|].
  2:{ specialize (Hr (match as_nonempty_list chunk with Some m => m | None => [chunk] end)).
      destruct (Gen.outcome_of _); [|discriminate].
      exists []. rewrite app_nil_r. split; [reflexivity | left; constructor]. }
  destruct (chunk_is_str ty "values").
  - rewrite values_chunk_run.
    destruct data as [|s|xs|xs|kvs|id content|content tcs tccs|cls d];
      try (cbn; eexists; split;
           [reflexivity | right; constructor; [reflexivity | constructor]]).
    cbn. destruct (chunk_truthy _); [destruct (convert_to_openai_messages _)|];
      cbn; eexists; (split; [reflexivity|]);
      [left; constructor; [reflexivity | constructor]
      |right; constructor; [reflexivity | constructor]
      |left; constructor].
  - specialize (Hr (match as_nonempty_list data with
                    | Some m => m
                    | None => match iter_items data with Some m => m | None => [data] end
                    end)).
    destruct (Gen.outcome_of _); [|discriminate].
    exists []. rewrite app_nil_r. split; [reflexivity | left; constructor].
Qed.

Lemma run_units_carried chunks self :
  let out := Gen.frames_of (run_units chunks self) in
  let ms := flat_map unit_messages chunks in
  stream_text out = fold_right (fun m rest => message_text m +:+ rest) "" ms
  /\ omap frame_result out = omap message_result ms.
Proof.
  cbv zeta. revert self. induction chunks as [|c cs IH]; intros self; [split; reflexivity|].
  rewrite run_units_cons. cbv zeta. cbn [Gen.frames_of fst snd flat_map].
  destruct (IH (Gen.state_of (_handle_chunk c self))) as [IH1 IH2].
  destruct (handle_chunk_frames c self) as (S & -> & HS).
  destruct (messages_loop_carried (unit_messages c) self) as [H1 H2].
  rewrite !stream_text_app, !omap_app, H1, H2, IH1, IH2.
  assert (HS1 : stream_text S = "")
    by (destruct HS as [HS|HS]; eapply stream_text_other; try exact HS; discriminate).
  assert (HS2 : omap frame_result S = [])
    by (destruct HS as [HS|HS]; eapply omap_frame_result_other; try exact HS; discriminate).
  rewrite HS1, HS2, append_empty_r, app_nil_r. split; [|reflexivity].
  clear. induction (unit_messages c) as [|m ms IHm]; [reflexivity|].
  cbn [app fold_right]. rewrite append_assoc, IHm. reflexivity.
Qed.

Lemma deliveries_carried (deliveries : list (Chunk * list (string * Chunk))) :
  let ms := flat_map unit_messages (map (fun d => messages_unit d.1 d.2) deliveries) in
  fold_right (fun m rest => message_text m +:+ rest) "" ms
  = fold_right (fun d rest => message_text d.1 +:+ rest) "" deliveries
  /\ omap message_result ms = omap (fun d => message_result d.1) deliveries.
Proof.
  cbv zeta. induction deliveries as [|[m md] ds [IH1 IH2]]; [split; reflexivity|].
  cbn [map flat_map fst snd].
  change (unit_messages (messages_unit m md)) with [m; CDict md].
  cbn [app fold_right]. rewrite IH1. split; [reflexivity|].
  rewrite !omap_cons_unfold, IH2. cbn [fst message_result].
  destruct (message_result m); reflexivity.
Qed.

(** X8. In the messages mode the [delta] records carry exactly the text
    of the delivered [AIMessageChunk] objects.  When the conversation is
    built and the units that the agent delivers are pairs of the mode and of
    a message with its metadata, the contents of the [delta] records of the
    stream, concatenated, are the texts of the delivered assistant message
    chunks, concatenated in their order of arrival: none of that text is
    lost, repeated or reordered.  A message of any other class, a tool
    message or an object that is not an [AIMessageChunk], adds nothing.
    This holds also when message chunks fail and when the agent raises in
    the end. *)
Theorem deltas_carry_the_answer_text agent messages conversation self deliveries :
  langchain_messages messages = Return conversation ->
  src_chunks (agent conversation (recursion_limit self))
  = map (fun d => messages_unit d.1 d.2) deliveries ->
  stream_text (Gen.frames_of (process_stream agent messages self))
  = fold_right (fun d rest => message_text d.1 +:+ rest) "" deliveries
  /\ (forall content tool_calls tool_call_chunks,
        message_text (CAIMessageChunk content tool_calls tool_call_chunks)
        = match content with
          | JNull => ""
          | JStr s => s
          | _ => py_str content
          end)
  /\ (forall tool_call_id content, message_text (CToolMessage tool_call_id content) = "").
Proof.
  intros Hc Hd. split; [|split; [intros content; destruct content|]; reflexivity].
  rewrite process_stream_run, Hc. cbv zeta.
  destruct (run_units_carried (src_chunks (agent conversation (recursion_limit self)))
              self) as [Ht _].
  cbv zeta in Ht. rewrite Hd in Ht at 2.
  rewrite (proj1 (deliveries_carried deliveries)) in Ht.
  destruct (src_failure _); cbn [Gen.frames_of fst snd];
    rewrite stream_text_app, Ht; apply append_empty_r.
Qed.

(** X9. In the messages mode every tool result is reported once, in
    order.  When the conversation is built and the units that the agent
    delivers are pairs of the mode and of a message with its metadata, the
    [tool_result] records of the stream carry, in their order, exactly the
    call ids and contents of the delivered tool messages, whether or not a
    tool call with that id was ever requested. *)
Theorem tool_results_are_reported_in_order agent messages conversation self deliveries :
  langchain_messages messages = Return conversation ->
  src_chunks (agent conversation (recursion_limit self))
  = map (fun d => messages_unit d.1 d.2) deliveries ->
  omap frame_result (Gen.frames_of (process_stream agent messages self))
  = omap (fun d => match d.1 with
                   | CToolMessage tool_call_id content => Some (tool_call_id, content)
                   | _ => None
                   end) deliveries.
Proof.
  intros Hc Hd. rewrite process_stream_run, Hc. cbv zeta.
  destruct (run_units_carried (src_chunks (agent conversation (recursion_limit self)))
              self) as [_ Hr].
  cbv zeta in Hr. rewrite Hd in Hr at 2.
  rewrite (proj2 (deliveries_carried deliveries)) in Hr.
  destruct (src_failure _); cbn [Gen.frames_of fst snd];
    rewrite omap_app, Hr; apply app_nil_r.
Qed.

End CarriedFacts.

Lemma deltas_carry_the_answer_text_witness :
  langchain_messages (H := Sample.externals) Sample.conversation
  = Return [HumanMessage (JStr "draw a cat")]
  /\ src_chunks (Sample.delivering_agent [HumanMessage (JStr "draw a cat")]
                                         (recursion_limit Sample.processor))
     = map (fun d => messages_unit d.1 d.2) Sample.deliveries
  /\ stream_text (Gen.frames_of (process_stream (H := Sample.externals)
                                   Sample.delivering_agent Sample.conversation
                                   Sample.processor))
     = "HelHilo".
Proof.
  split; [reflexivity|]. split; [reflexivity|].
  rewrite (proj1 (@deltas_carry_the_answer_text Sample.externals
                    Sample.delivering_agent Sample.conversation
                    [HumanMessage (JStr "draw a cat")] Sample.processor
                    Sample.deliveries eq_refl eq_refl)).
  reflexivity.
Defined.

Lemma tool_results_are_reported_in_order_witness :
  langchain_messages (H := Sample.externals) Sample.conversation
  = Return [HumanMessage (JStr "draw a cat")]
  /\ src_chunks (Sample.delivering_agent [HumanMessage (JStr "draw a cat")]
                                         (recursion_limit Sample.processor))
     = map (fun d => messages_unit d.1 d.2) Sample.deliveries
  /\ omap frame_result
       (Gen.frames_of (process_stream (H := Sample.externals)
                         Sample.delivering_agent Sample.conversation Sample.processor))
     = [("c1", JStr "ok")].
Proof.
  split; [reflexivity|]. split; [reflexivity|].
  rewrite (@tool_results_are_reported_in_order Sample.externals
             Sample.delivering_agent Sample.conversation
             [HumanMessage (JStr "draw a cat")] Sample.processor
             Sample.deliveries eq_refl eq_refl).
  reflexivity.
Defined.

(** ** The chat endpoint *)

Section ChatFacts.
Context `{Externals}.

Lemma langchain_messages_app messages1 messages2 :
  langchain_messages (messages1 ++ messages2)
  = match langchain_messages messages1 with
    | Return conversation1 =>
        match langchain_messages messages2 with
        | Return conversation2 => Return (conversation1 ++ conversation2)
        | Raise e => Raise e
        end
    | Raise e => Raise e
    end.
Proof.
  induction messages1 as [|msg rest IH].
  { cbn [app langchain_messages]. destruct (langchain_messages messages2); reflexivity. }
  cbn [app]. rewrite !langchain_messages_cons, IH.
  destruct (forwarded msg) as [m|]; [|reflexivity].
  destruct (valid_content (content_of m)); [|reflexivity].
  destruct (langchain_messages rest); [|reflexivity].
  destruct (langchain_messages messages2); reflexivity.
Qed.

(** X10. When no API key is configured, [create_agent] raises before the
    model or the agent is built, and every chat request is answered by
    exactly two frames: one error record that carries the configuration
    hint, written verbatim (not escaped) in the JSON text, and the terminal
    marker.  The agent is never run, whatever the request and the rest of
    the environment are. *)
Theorem chat_without_api_key build limit request :
  let env := {| create_agent := create_agent_with "" build;
                env_recursion_limit := limit |} in
  let hint :=
    "未配置 OPENAI_API_KEY。请在 backend/.env 中设置，可参考 env.example（cp env.example .env）。" in
  create_agent_with "" build = Raise missing_key_error
  /\ chat env request = [FData (error_event hint); FDone]
  /\ map wire (chat env request)
     = ["data: {" +:+ dq +:+ "type" +:+ dq +:+ ": " +:+ dq +:+ "error" +:+ dq +:+ ", "
        +:+ dq +:+ "error" +:+ dq +:+ ": " +:+ dq +:+ hint +:+ dq +:+ "}" +:+ nl +:+ nl;
        done_marker].
Proof.
  cbv zeta. split; [reflexivity|]. split; [reflexivity|].
  unfold chat, process_chat_stream. cbn [create_agent create_agent_with String.eqb].
  vm_compute. reflexivity.
Qed.

(** X11. The conversation that a chat request builds for the agent is
    the conversation of the request's history (its [user] and [assistant]
    messages, none when the history is absent) followed by the new user
    message as a human message, whenever the conversation of the history
    can be built: then the agent receives a conversation that is not empty
    and whose last message is the new one.  When a message of the history
    is rejected, so is the request: the stream is the error record of that
    message alone, and the agent is not run. *)
Theorem chat_appends_user_message request :
  let history := default [] (req_messages request) in
  let new_message := HumanMessage (JStr (req_message request)) in
  langchain_messages (chat_messages request)
  = match langchain_messages history with
    | Return conversation => Return (conversation ++ [new_message])
    | Raise e => Raise e
    end
  /\ (forall conversation agent limit,
        langchain_messages history = Return conversation ->
        chat {| create_agent := Return agent; env_recursion_limit := limit |} request
        = chat {| create_agent := Return (fun _ n => agent (conversation ++ [new_message]) n);
                  env_recursion_limit := limit |} request)
  /\ (forall e agent limit,
        langchain_messages history = Raise e ->
        chat {| create_agent := Return agent; env_recursion_limit := Return limit |} request
        = [FData [("type", JStr "error"); ("error", JStr (exn_str e));
                  ("traceback", JStr (format_exc e))]]).
Proof.
  cbv zeta.
  assert (Hc : langchain_messages (chat_messages request)
               = match langchain_messages (default [] (req_messages request)) with
                 | Return conversation =>
                     Return (conversation ++ [HumanMessage (JStr (req_message request))])
                 | Raise e => Raise e
                 end).
  { unfold chat_messages. rewrite langchain_messages_app.
    destruct (req_messages request) as [[|m ms]|]; reflexivity. }
  split; [exact Hc|]. split.
  - intros conversation agent limit Hh. unfold chat. rewrite !process_chat_stream_run.
    cbn [create_agent env_recursion_limit].
    destruct limit as [n|e]; [|reflexivity].
    rewrite Hc, Hh. reflexivity.
  - intros e agent limit Hh. unfold chat. rewrite process_chat_stream_run.
    cbn [create_agent env_recursion_limit]. rewrite Hc, Hh. reflexivity.
Qed.

End ChatFacts.

(** ** The canvas history *)

Lemma set_history_file_same st : set_history_file (history_file st) st = st.
Proof. destruct st; reflexivity. Qed.

Lemma json_get_dict k c :
  is_dict c = true -> json_get k c = Return (match c with JDict d => py_get k d | _ => JNull end).
Proof. destruct c; try discriminate. reflexivity. Qed.

Lemma find_index_absent d cs i :
  Forall (fun c => is_dict c = true) cs ->
  Forall (fun c => has_id (py_get "id" d) c = false) cs ->
  find_index (JDict d) cs i = Return None.
Proof.
  intros Hd Hn. revert i. induction cs as [|c cs IH]; intros i; [reflexivity|].
  inversion Hd as [|? ? Hc Hd']; subst. inversion Hn as [|? ? Hm Hn']; subst.
  destruct c as [| | | | |kvs]; try discriminate Hc.
  cbn [find_index json_get]. unfold has_id in Hm. cbn [canvas_id_of] in Hm.
  rewrite Hm. apply IH; assumption.
Qed.

Lemma find_index_present d pre c post i :
  Forall (fun c => is_dict c = true) pre ->
  Forall (fun c => has_id (py_get "id" d) c = false) pre ->
  is_dict c = true ->
  has_id (py_get "id" d) c = true ->
  find_index (JDict d) (pre ++ c :: post) i = Return (Some (i + length pre)%nat).
Proof.
  intros Hd Hn Hc Hm. revert i. induction pre as [|p pre IH]; intros i.
  - destruct c as [| | | | |kvs]; try discriminate Hc.
    cbn [app find_index json_get length]. unfold has_id in Hm. cbn [canvas_id_of] in Hm.
    rewrite Hm, Nat.add_0_r. reflexivity.
  - inversion Hd as [|? ? Hp Hd']; subst. inversion Hn as [|? ? Hpm Hn']; subst.
    destruct p as [| | | | |kvs]; try discriminate Hp.
    cbn [app find_index json_get length]. unfold has_id in Hpm. cbn [canvas_id_of] in Hpm.
    rewrite Hpm, IH by assumption. do 2 f_equal. lia.
Qed.

Lemma insert_middle {A} (pre : list A) c post x :
  <[length pre := x]> (pre ++ c :: post) = pre ++ x :: post.
Proof.
  replace (length pre) with (length pre + 0)%nat by lia.
  rewrite insert_app_r. reflexivity.
Qed.

(** X12. Saving a canvas whose id no stored canvas has puts it in front of
    the stored list, leaves the stored canvases as they are and in their
    order, and returns the canvas. *)
Theorem save_new_canvas_goes_first st cs d :
  history_file st = Parsed (JList cs) ->
  writable st = true ->
  Forall (fun c => is_dict c = true) cs ->
  Forall (fun c => has_id (py_get "id" d) c = false) cs ->
  save_canvas (JDict d) st
  = (set_history_file (Parsed (JList (JDict d :: cs))) st, Return (JDict d)).
Proof.
  intros Hf Hw Hd Hn. unfold save_canvas, _load_data. rewrite Hf.
  rewrite (find_index_absent d cs 0 Hd Hn). unfold _save_data. rewrite Hw. reflexivity.
Qed.

(** X13. Saving a canvas whose id a stored canvas has replaces the first
    stored canvas with that id, in place: the canvases before and after it
    are untouched and the list keeps its length. *)
Theorem save_existing_canvas_replaces_in_place st pre c post d :
  history_file st = Parsed (JList (pre ++ c :: post)) ->
  writable st = true ->
  Forall (fun c => is_dict c = true) pre ->
  Forall (fun c => has_id (py_get "id" d) c = false) pre ->
  is_dict c = true ->
  has_id (py_get "id" d) c = true ->
  save_canvas (JDict d) st
  = (set_history_file (Parsed (JList (pre ++ JDict d :: post))) st, Return (JDict d)).
Proof.
  intros Hf Hw Hd Hn Hc Hm. unfold save_canvas, _load_data. rewrite Hf.
  rewrite (find_index_present d pre c post 0 Hd Hn Hc Hm). cbn [Nat.add].
  rewrite insert_middle. unfold _save_data. rewrite Hw. reflexivity.
Qed.

Lemma keep_others_dicts canvas_id cs :
  Forall (fun c => is_dict c = true) cs ->
  keep_others canvas_id cs
  = Return (List.filter (fun c => negb (has_id (JStr canvas_id) c)) cs).
Proof.
  induction 1 as [|c cs Hc Hd IH]; [reflexivity|].
  destruct c as [| | | | |kvs]; try discriminate Hc.
  cbn [keep_others json_get List.filter]. rewrite IH.
  unfold has_id. cbn [canvas_id_of].
  destruct (py_eq (py_get "id" kvs) (JStr canvas_id)); reflexivity.
Qed.

Lemma keep_others_idempotent canvas_id cs kept :
  keep_others canvas_id cs = Return kept ->
  keep_others canvas_id kept = Return kept.
Proof.
  revert kept. induction cs as [|c cs IH]; intros kept Hk.
  - cbn in Hk. injection Hk as <-. reflexivity.
  - cbn [keep_others] in Hk.
    destruct (json_get "id" c) as [id_c|e] eqn:Hg; [|discriminate].
    destruct (keep_others canvas_id cs) as [kept'|e]; [|discriminate].
    specialize (IH kept' eq_refl).
    destruct (py_eq id_c (JStr canvas_id)) eqn:He; injection Hk as <-; [exact IH|].
    cbn [keep_others]. rewrite Hg, IH, He. reflexivity.
Qed.

(** X14. Deleting a canvas id removes every stored canvas with that id
    and nothing else: the canvases with other ids stay, in their order. *)
Theorem delete_canvas_removes_that_id st cs canvas_id :
  history_file st = Parsed (JList cs) ->
  writable st = true ->
  Forall (fun c => is_dict c = true) cs ->
  delete_canvas canvas_id st
  = (set_history_file
       (Parsed (JList (List.filter (fun c => negb (has_id (JStr canvas_id) c)) cs))) st,
     Return true).
Proof.
  intros Hf Hw Hd. unfold delete_canvas, _load_data. rewrite Hf.
  rewrite (keep_others_dicts canvas_id cs Hd). unfold _save_data. rewrite Hw. reflexivity.
Qed.

(** X15. Deleting is idempotent on every store: a second deletion of the
    same id gives the same result and leaves the store as the first one
    left it, whatever the history file holds, whether or not it can be
    written, and whether or not the deletion raises. *)
Theorem delete_canvas_idempotent st canvas_id :
  delete_canvas canvas_id (fst (delete_canvas canvas_id st))
  = delete_canvas canvas_id st.
Proof.
  destruct st as [f b w bw mk].
  destruct f as [| |data|text|]; try (destruct w, bw; reflexivity).
  destruct data as [|x|n|s|cs|kvs]; try (destruct w; reflexivity).
  - destruct (String.eqb_spec s "") as [->|Hs]; [destruct w; reflexivity|].
    apply String.eqb_neq in Hs.
    unfold delete_canvas, _load_data, iteration_error. cbn [history_file].
    rewrite Hs. cbn [fst history_file]. rewrite Hs. reflexivity.
  - unfold delete_canvas, _load_data, _save_data. cbn [history_file writable fst].
    destruct (keep_others canvas_id cs) as [kept|e] eqn:Hk.
    + destruct w; cbn [history_file writable fst set_history_file];
        rewrite ?Hk, ?(keep_others_idempotent _ _ _ Hk); reflexivity.
    + cbn [history_file fst]. rewrite Hk. reflexivity.
  - destruct kvs; destruct w; reflexivity.
Qed.

Lemma string_id_dict c s :
  string_id c = Some s -> is_dict c = true /\ canvas_id_of c = JStr s.
Proof.
  destruct c as [| | | | |d]; try discriminate. cbn [string_id is_dict canvas_id_of].
  unfold py_get. destruct (PyDict.get "id" d) as [[| | |s'| |]|]; try discriminate.
  intros [= ->]. split; reflexivity.
Qed.

Lemma has_id_string c s t :
  string_id c = Some s -> has_id (JStr t) c = String.eqb s t.
Proof.
  intros Hc. destruct (string_id_dict c s Hc) as [_ Hid].
  unfold has_id. rewrite Hid. reflexivity.
Qed.

Lemma first_match_split {A} (f : A -> bool) (l : list A) :
  Forall (fun x => f x = false) l
  \/ exists pre x post,
       l = pre ++ x :: post /\ Forall (fun x => f x = false) pre /\ f x = true.
Proof.
  induction l as [|x l IH]; [left; constructor|].
  destruct (f x) eqn:Hx.
  - right. exists [], x, l. repeat split; [constructor | exact Hx].
  - destruct IH as [Hn | (pre & y & post & -> & Hpre & Hy)].
    + left. constructor; assumption.
    + right. exists (x :: pre), y, post. repeat split; [constructor; assumption | exact Hy].
Qed.

Lemma omap_cons_Some {A B} (f : A -> option B) x y l :
  f x = Some y -> omap f (x :: l) = y :: omap f l.
Proof.
  intros Hx.
  change (omap f (x :: l))
    with (match f x with Some y => y :: omap f l | None => omap f l end).
  rewrite Hx. reflexivity.
Qed.

Lemma distinct_ids_dicts cs :
  distinct_ids cs -> Forall (fun c => is_dict c = true) cs.
Proof.
  intros [Hs _]. eapply Forall_impl; [exact Hs|].
  intros c [s Hc]. apply (string_id_dict c s Hc).
Qed.

(** X16. Saving keeps the ids of the stored canvases distinct.  When the
    stored canvases have string ids, no two of them equal, and the canvas
    to save has a string id, the save succeeds, the stored canvases again
    have pairwise distinct string ids, the saved canvas is among them, and
    every canvas with another id is kept; the list grows by one canvas at
    most. *)
Theorem save_keeps_ids_distinct st cs new :
  history_file st = Parsed (JList cs) ->
  writable st = true ->
  distinct_ids cs ->
  is_Some (string_id new) ->
  exists cs',
    save_canvas new st = (set_history_file (Parsed (JList cs')) st, Return new)
    /\ distinct_ids cs'
    /\ In new cs'
    /\ (forall c, In c cs -> string_id c <> string_id new -> In c cs')
    /\ (length cs <= length cs' <= S (length cs))%nat.
Proof.
  intros Hf Hw Hdist [s Hnew].
  pose proof (distinct_ids_dicts cs Hdist) as Hd.
  destruct Hdist as [Hs Hnd].
  destruct new as [| | | | |d]; try discriminate Hnew.
  assert (Hid : py_get "id" d = JStr s).
  { apply (string_id_dict (JDict d) s Hnew). }
  unfold save_canvas, _load_data, _save_data. rewrite Hf, Hw.
  destruct (first_match_split (has_id (JStr s)) cs)
    as [Hn | (pre & c & post & -> & Hpre & Hc)].
  - rewrite find_index_absent by (rewrite ?Hid; assumption).
    exists (JDict d :: cs). split; [reflexivity|].
    split; [|split; [left; reflexivity | split; [intros c Hc _; right; exact Hc | cbn; lia]]].
    split; [constructor; [exists s; exact Hnew | exact Hs]|].
    rewrite (omap_cons_Some _ _ _ _ Hnew). apply NoDup_cons_2; [|exact Hnd].
    intros Hin. apply list_elem_of_omap in Hin.
    destruct Hin as (c & Hc & Hcs).
    rewrite Forall_forall in Hn. specialize (Hn c Hc).
    rewrite (has_id_string c s s Hcs), String.eqb_refl in Hn. discriminate.
  - apply Forall_app in Hd. destruct Hd as [Hdpre Hdc].
    inversion Hdc as [|? ? Hcd Hdpost]; subst.
    rewrite (find_index_present d pre c post 0) by (rewrite ?Hid; assumption).
    cbn [Nat.add]. rewrite insert_middle.
    exists (pre ++ JDict d :: post). split; [reflexivity|].
    apply Forall_app in Hs. destruct Hs as [Hspre Hsc].
    inversion Hsc as [|? ? [s' Hcs] Hspost]; subst.
    assert (s' = s) as ->.
    { rewrite (has_id_string c s' s Hcs) in Hc. apply String.eqb_eq, Hc. }
    assert (Homap : omap string_id (pre ++ JDict d :: post)
                    = omap string_id (pre ++ c :: post)).
    { rewrite !omap_app, (omap_cons_Some _ _ _ _ Hnew), (omap_cons_Some _ _ _ _ Hcs).
      reflexivity. }
    split; [|split; [|split]].
    + split; [|rewrite Homap; exact Hnd].
      apply Forall_app. split; [exact Hspre|].
      constructor; [exists s; exact Hnew | exact Hspost].
    + apply in_or_app. right. left. reflexivity.
    + intros c' Hin Hne. apply in_app_or in Hin. apply in_or_app.
      destruct Hin as [Hin|[<-|Hin]]; [left; exact Hin | | right; right; exact Hin].
      rewrite Hcs, Hnew in Hne. congruence.
    + rewrite !length_app. cbn [length]. lia.
Qed.

(** X17. Saving a canvas with a fresh string id and then deleting that id
    restores the store: the stored list is what it was before the two
    calls. *)
Theorem save_then_delete_restores st cs d s :
  history_file st = Parsed (JList cs) ->
  writable st = true ->
  Forall (fun c => is_dict c = true) cs ->
  Forall (fun c => has_id (JStr s) c = false) cs ->
  PyDict.get "id" d = Some (JStr s) ->
  fst (delete_canvas s (fst (save_canvas (JDict d) st))) = st.
Proof.
  intros Hf Hw Hd Hn Hid.
  assert (Hid' : py_get "id" d = JStr s) by (unfold py_get; rewrite Hid; reflexivity).
  unfold save_canvas, _load_data, _save_data. rewrite Hf, Hw.
  rewrite find_index_absent by (rewrite ?Hid'; assumption).
  cbn [fst]. unfold delete_canvas, _load_data, _save_data.
  cbn [history_file set_history_file writable]. rewrite Hw.
  cbn [keep_others json_get]. rewrite (keep_others_dicts s cs Hd), Hid'.
  cbn [py_eq]. rewrite String.eqb_refl.
  cbn [fst set_history_file history_file backup_file writable backup_writable
       makedirs_failure].
  assert (Hfilter : List.filter (fun c => negb (has_id (JStr s) c)) cs = cs).
  { clear -Hn. induction Hn as [|c cs Hc _ IH]; [reflexivity|].
    cbn [List.filter]. rewrite Hc, IH. reflexivity. }
  rewrite Hfilter, <- Hf. destruct st; reflexivity.
Qed.

(** X18. A failed write is not reported.  When the history file cannot be
    written, saving still returns the canvas and deleting still returns
    [True], while the store is unchanged, so the next read gives the old
    list. *)
Theorem failed_write_is_reported_as_success st cs d canvas_id :
  history_file st = Parsed (JList cs) ->
  writable st = false ->
  Forall (fun c => is_dict c = true) cs ->
  save_canvas (JDict d) st = (st, Return (JDict d))
  /\ delete_canvas canvas_id st = (st, Return true)
  /\ get_canvases st = (st, JList cs).
Proof.
  intros Hf Hw Hd.
  assert (Hfind : exists index, find_index (JDict d) cs 0 = Return index).
  { clear Hf. generalize 0%nat.
    induction Hd as [|c cs Hc _ IH]; intros i; [exists None; reflexivity|].
    destruct c as [| | | | |kvs]; try discriminate Hc.
    cbn [find_index json_get]. destruct (py_eq _ _); [exists (Some i); reflexivity | apply IH]. }
  destruct Hfind as [index Hfind].
  unfold save_canvas, delete_canvas, get_canvases, _load_data, _save_data.
  rewrite Hf, Hw, Hfind, (keep_others_dicts canvas_id cs Hd).
  destruct index; repeat split.
Qed.

(** X19. Reading the history is stable and never fails: a second read
    returns what the first returned and changes nothing.  A file that
    parses is returned as it is and left alone; anything else reads as the
    empty list; and a corrupt file is copied to the backup path, when that
    can be written, and reset to the empty list, when the file can be
    written. *)
Theorem get_canvases_is_stable st :
  get_canvases (fst (get_canvases st)) = get_canvases st
  /\ snd (get_canvases st)
     = match history_file st with Parsed data => data | _ => JList [] end
  /\ match history_file st with
     | Corrupt text =>
         (backup_writable st = false -> fst (get_canvases st) = st)
         /\ (backup_writable st = true ->
             backup_file (fst (get_canvases st)) = Corrupt text
             /\ history_file (fst (get_canvases st))
                = if writable st then Parsed (JList []) else Corrupt text)
     | _ => fst (get_canvases st) = st
     end.
Proof.
  destruct st as [f b w bw mk].
  destruct f as [| |d|text|]; try (repeat split; fail).
  destruct bw, w; repeat split; intros; (reflexivity || discriminate).
Qed.

(** X20. Start-up repairs without a backup.  When the storage directory
    can be made and the history file can be written, initialising the
    service leaves a file that parses: a file that parsed before is
    untouched, and a missing, blank, corrupt or unreadable one is replaced
    by the empty list, the backup path being left as it was, so the
    corrupt text is lost; reading afterwards changes nothing. *)
Theorem start_up_resets_without_backup st :
  makedirs_failure st = None ->
  writable st = true ->
  let st' := fst (_ensure_storage_dir st) in
  let data := match history_file st with Parsed d => d | _ => JList [] end in
  snd (_ensure_storage_dir st) = Return tt
  /\ history_file st' = Parsed data
  /\ backup_file st' = backup_file st
  /\ get_canvases st' = (st', data).
Proof.
  destruct st as [f b w bw mk]. cbn [makedirs_failure writable]. intros -> ->.
  destruct f; repeat split.
Qed.

(** X21. A history file that holds JSON other than a list is never
    repaired: every save raises, and the store is left as it is. *)
Theorem non_list_history_blocks_saving st data canvas_data :
  history_file st = Parsed data ->
  (forall cs, data <> JList cs) ->
  exists e, save_canvas canvas_data st = (st, Raise e).
Proof.
  intros Hf Hl. unfold save_canvas, _load_data. rewrite Hf.
  destruct data as [|x|n|s|cs|kvs]; try (eexists; reflexivity).
  - cbn [iteration_error]. destruct (String.eqb s ""); eexists; reflexivity.
  - destruct (Hl cs eq_refl).
  - destruct kvs; eexists; reflexivity.
Qed.

Lemma save_new_canvas_goes_first_witness :
  history_file SampleStore.store = Parsed (JList SampleStore.canvases)
  /\ writable SampleStore.store = true
  /\ Forall (fun c => is_dict c = true) SampleStore.canvases
  /\ Forall (fun c => has_id (py_get "id" [("id", JStr "c"); ("name", JStr "third")]) c
                      = false) SampleStore.canvases
  /\ save_canvas (SampleStore.canvas "c" "third") SampleStore.store
     = (set_history_file
          (Parsed (JList (SampleStore.canvas "c" "third" :: SampleStore.canvases)))
          SampleStore.store,
        Return (SampleStore.canvas "c" "third")).
Proof.
  assert (H1 : history_file SampleStore.store = Parsed (JList SampleStore.canvases))
    by reflexivity.
  assert (H2 : writable SampleStore.store = true) by reflexivity.
  assert (H3 : Forall (fun c => is_dict c = true) SampleStore.canvases)
    by (repeat constructor).
  assert (H4 : Forall (fun c => has_id (py_get "id" [("id", JStr "c");
                                                    ("name", JStr "third")]) c = false)
                      SampleStore.canvases)
    by (repeat constructor).
  repeat (split; [assumption|]).
  exact (save_new_canvas_goes_first SampleStore.store SampleStore.canvases
           [("id", JStr "c"); ("name", JStr "third")] H1 H2 H3 H4).
Defined.

Lemma save_existing_canvas_replaces_in_place_witness :
  history_file SampleStore.store
  = Parsed (JList ([SampleStore.canvas "a" "first"]
                   ++ SampleStore.canvas "b" "second" :: []))
  /\ writable SampleStore.store = true
  /\ Forall (fun c => is_dict c = true) [SampleStore.canvas "a" "first"]
  /\ Forall (fun c => has_id (py_get "id" [("id", JStr "b"); ("name", JStr "renamed")]) c
                      = false) [SampleStore.canvas "a" "first"]
  /\ is_dict (SampleStore.canvas "b" "second") = true
  /\ has_id (py_get "id" [("id", JStr "b"); ("name", JStr "renamed")])
            (SampleStore.canvas "b" "second") = true
  /\ save_canvas (SampleStore.canvas "b" "renamed") SampleStore.store
     = (set_history_file
          (Parsed (JList ([SampleStore.canvas "a" "first"]
                          ++ SampleStore.canvas "b" "renamed" :: [])))
          SampleStore.store,
        Return (SampleStore.canvas "b" "renamed")).
Proof.
  assert (H1 : history_file SampleStore.store
               = Parsed (JList ([SampleStore.canvas "a" "first"]
                                ++ SampleStore.canvas "b" "second" :: [])))
    by reflexivity.
  assert (H2 : writable SampleStore.store = true) by reflexivity.
  assert (H3 : Forall (fun c => is_dict c = true) [SampleStore.canvas "a" "first"])
    by (repeat constructor).
  assert (H4 : Forall (fun c => has_id (py_get "id" [("id", JStr "b");
                                                    ("name", JStr "renamed")]) c = false)
                      [SampleStore.canvas "a" "first"])
    by (repeat constructor).
  assert (H5 : is_dict (SampleStore.canvas "b" "second") = true) by reflexivity.
  assert (H6 : has_id (py_get "id" [("id", JStr "b"); ("name", JStr "renamed")])
                      (SampleStore.canvas "b" "second") = true) by reflexivity.
  repeat (split; [assumption|]).
  exact (save_existing_canvas_replaces_in_place SampleStore.store
           [SampleStore.canvas "a" "first"] (SampleStore.canvas "b" "second") []
           [("id", JStr "b"); ("name", JStr "renamed")] H1 H2 H3 H4 H5 H6).
Defined.

Lemma delete_canvas_removes_that_id_witness :
  history_file SampleStore.store = Parsed (JList SampleStore.canvases)
  /\ writable SampleStore.store = true
  /\ Forall (fun c => is_dict c = true) SampleStore.canvases
  /\ delete_canvas "a" SampleStore.store
     = (set_history_file (Parsed (JList [SampleStore.canvas "b" "second"]))
          SampleStore.store,
        Return true).
Proof.
  assert (H1 : history_file SampleStore.store = Parsed (JList SampleStore.canvases))
    by reflexivity.
  assert (H2 : writable SampleStore.store = true) by reflexivity.
  assert (H3 : Forall (fun c => is_dict c = true) SampleStore.canvases)
    by (repeat constructor).
  repeat (split; [assumption|]).
  exact (delete_canvas_removes_that_id SampleStore.store SampleStore.canvases "a"
           H1 H2 H3).
Defined.

Lemma sample_canvases_distinct : distinct_ids SampleStore.canvases.
Proof.
  split.
  - repeat constructor; eexists; reflexivity.
  - change (NoDup ["a"; "b"]).
    apply NoDup_cons_2; [|apply NoDup_cons_2; [|apply NoDup_nil_2]].
    + intros Hin. apply list_elem_of_In in Hin. destruct Hin as [Heq|[]]. discriminate Heq.
    + intros Hin. apply list_elem_of_In in Hin. destruct Hin.
Qed.

Lemma save_keeps_ids_distinct_witness :
  history_file SampleStore.store = Parsed (JList SampleStore.canvases)
  /\ writable SampleStore.store = true
  /\ distinct_ids SampleStore.canvases
  /\ is_Some (string_id (SampleStore.canvas "b" "renamed"))
  /\ exists cs',
       save_canvas (SampleStore.canvas "b" "renamed") SampleStore.store
       = (set_history_file (Parsed (JList cs')) SampleStore.store,
          Return (SampleStore.canvas "b" "renamed"))
       /\ distinct_ids cs'
       /\ In (SampleStore.canvas "b" "renamed") cs'
       /\ (forall c, In c SampleStore.canvases ->
                     string_id c <> string_id (SampleStore.canvas "b" "renamed") ->
                     In c cs')
       /\ (length SampleStore.canvases <= length cs'
           <= S (length SampleStore.canvases))%nat.
Proof.
  assert (H1 : history_file SampleStore.store = Parsed (JList SampleStore.canvases))
    by reflexivity.
  assert (H2 : writable SampleStore.store = true) by reflexivity.
  pose proof sample_canvases_distinct as H3.
  assert (H4 : is_Some (string_id (SampleStore.canvas "b" "renamed")))
    by (eexists; reflexivity).
  repeat (split; [assumption|]).
  exact (save_keeps_ids_distinct SampleStore.store SampleStore.canvases
           (SampleStore.canvas "b" "renamed") H1 H2 H3 H4).
Defined.

Lemma save_then_delete_restores_witness :
  history_file SampleStore.store = Parsed (JList SampleStore.canvases)
  /\ writable SampleStore.store = true
  /\ Forall (fun c => is_dict c = true) SampleStore.canvases
  /\ Forall (fun c => has_id (JStr "c") c = false) SampleStore.canvases
  /\ PyDict.get "id" [("id", JStr "c"); ("name", JStr "third")] = Some (JStr "c")
  /\ fst (delete_canvas "c"
            (fst (save_canvas (SampleStore.canvas "c" "third") SampleStore.store)))
     = SampleStore.store.
Proof.
  assert (H1 : history_file SampleStore.store = Parsed (JList SampleStore.canvases))
    by reflexivity.
  assert (H2 : writable SampleStore.store = true) by reflexivity.
  assert (H3 : Forall (fun c => is_dict c = true) SampleStore.canvases)
    by (repeat constructor).
  assert (H4 : Forall (fun c => has_id (JStr "c") c = false) SampleStore.canvases)
    by (repeat constructor).
  assert (H5 : PyDict.get "id" [("id", JStr "c"); ("name", JStr "third")]
               = Some (JStr "c")) by reflexivity.
  repeat (split; [assumption|]).
  exact (save_then_delete_restores SampleStore.store SampleStore.canvases
           [("id", JStr "c"); ("name", JStr "third")] "c" H1 H2 H3 H4 H5).
Defined.

Lemma failed_write_is_reported_as_success_witness :
  history_file SampleStore.read_only = Parsed (JList SampleStore.canvases)
  /\ writable SampleStore.read_only = false
  /\ Forall (fun c => is_dict c = true) SampleStore.canvases
  /\ save_canvas (SampleStore.canvas "c" "third") SampleStore.read_only
     = (SampleStore.read_only, Return (SampleStore.canvas "c" "third"))
  /\ delete_canvas "a" SampleStore.read_only = (SampleStore.read_only, Return true)
  /\ get_canvases SampleStore.read_only
     = (SampleStore.read_only, JList SampleStore.canvases).
Proof.
  assert (H1 : history_file SampleStore.read_only = Parsed (JList SampleStore.canvases))
    by reflexivity.
  assert (H2 : writable SampleStore.read_only = false) by reflexivity.
  assert (H3 : Forall (fun c => is_dict c = true) SampleStore.canvases)
    by (repeat constructor).
  repeat (split; [assumption|]).
  exact (failed_write_is_reported_as_success SampleStore.read_only SampleStore.canvases
           [("id", JStr "c"); ("name", JStr "third")] "a" H1 H2 H3).
Defined.

Lemma start_up_resets_without_backup_witness :
  makedirs_failure SampleStore.damaged = None
  /\ writable SampleStore.damaged = true
  /\ snd (_ensure_storage_dir SampleStore.damaged) = Return tt
  /\ history_file (fst (_ensure_storage_dir SampleStore.damaged)) = Parsed (JList [])
  /\ backup_file (fst (_ensure_storage_dir SampleStore.damaged)) = Missing
  /\ get_canvases (fst (_ensure_storage_dir SampleStore.damaged))
     = (fst (_ensure_storage_dir SampleStore.damaged), JList []).
Proof.
  assert (H1 : makedirs_failure SampleStore.damaged = None) by reflexivity.
  assert (H2 : writable SampleStore.damaged = true) by reflexivity.
  repeat (split; [assumption|]).
  exact (start_up_resets_without_backup SampleStore.damaged H1 H2).
Defined.

Lemma non_list_history_blocks_saving_witness :
  history_file SampleStore.broken = Parsed (JDict [("version", JInt 1)])
  /\ (forall cs, JDict [("version", JInt 1)] <> JList cs)
  /\ exists e,
       save_canvas (SampleStore.canvas "c" "third") SampleStore.broken
       = (SampleStore.broken, Raise e).
Proof.
  assert (H1 : history_file SampleStore.broken = Parsed (JDict [("version", JInt 1)]))
    by reflexivity.
  assert (H2 : forall cs, JDict [("version", JInt 1)] <> JList cs)
    by (intros cs; discriminate).
  repeat (split; [assumption|]).
  exact (non_list_history_blocks_saving SampleStore.broken _
           (SampleStore.canvas "c" "third") H1 H2).
Defined.

(** ** Image sizes *)

Lemma has_char_app c a b : has_char c (a +:+ b) = has_char c a || has_char c b.
Proof.
  induction a as [|c' a IH]; [reflexivity|].
  simpl. rewrite IH. apply orb_assoc.
Qed.

Lemma contains_char c s : PyStr.contains (String c EmptyString) s = has_char c s.
Proof.
  induction s as [|c' s IH]; [reflexivity|].
  cbn [PyStr.contains has_char String.prefix]. rewrite IH.
  destruct (ascii_dec c c') as [->|Hne].
  - rewrite Ascii.eqb_refl. destruct s; reflexivity.
  - destruct (Ascii.eqb_spec c' c) as [->|_]; [contradiction | reflexivity].
Qed.

Lemma string_of_uint_has_char c d :
  (Nat.ltb (nat_of_ascii c) 48 || Nat.ltb 57 (nat_of_ascii c)) = true ->
  has_char c (NilEmpty.string_of_uint d) = false.
Proof.
  intros Hc. induction d; cbn [NilEmpty.string_of_uint has_char]; [reflexivity|..].
  all: rewrite IHd, orb_false_r.
  all: match goal with
       | |- Ascii.eqb ?a ?b = false =>
           destruct (Ascii.eqb_spec a b) as [<-|]; [discriminate Hc | reflexivity]
       end.
Qed.

(** The decimal text of an integer consists of digits and a sign. *)
Lemma dumps_int_has_char c n :
  (Nat.ltb (nat_of_ascii c) 48 || Nat.ltb 57 (nat_of_ascii c)) = true ->
  c <> "-"%char ->
  has_char c (Json.dumps_int n) = false.
Proof.
  intros Hc Hm. unfold Json.dumps_int.
  assert (Hu : forall d, has_char c (NilZero.string_of_uint d) = false).
  { intros d. destruct d; try apply (string_of_uint_has_char c _ Hc).
    cbn [NilZero.string_of_uint has_char].
    destruct (Ascii.eqb_spec "0" c) as [<-|]; [discriminate Hc | reflexivity]. }
  destruct (Z.to_int n) as [d|d]; cbn [NilZero.string_of_int has_char]; rewrite Hu.
  - reflexivity.
  - destruct (Ascii.eqb_spec "-" c) as [<-|]; [contradiction | reflexivity].
Qed.

Lemma pixels_has_x wh : has_char "x" (pixels wh) = true.
Proof.
  unfold pixels. rewrite !has_char_app. cbn. apply orb_true_r.
Qed.

Lemma pixels_has_no_X wh : has_char "X" (pixels wh) = false.
Proof.
  unfold pixels. rewrite !has_char_app, !dumps_int_has_char by (reflexivity || discriminate).
  reflexivity.
Qed.

Lemma replace_char_absent old new s :
  has_char old s = false -> replace_char old new s = s.
Proof.
  induction s as [|c s IH]; [reflexivity|].
  cbn [has_char replace_char]. intros Hc. apply orb_false_iff in Hc. destruct Hc as [Hc Hs].
  rewrite Hc, IH by exact Hs. reflexivity.
Qed.

Lemma split_char_absent sep s :
  has_char sep s = false -> split_char sep s = [s].
Proof.
  induction s as [|c s IH]; [reflexivity|].
  cbn [has_char split_char]. intros Hc. apply orb_false_iff in Hc. destruct Hc as [Hc Hs].
  rewrite Hc, IH by exact Hs. reflexivity.
Qed.

Lemma split_char_at sep a b :
  has_char sep a = false ->
  split_char sep (a +:+ String sep b) = a :: split_char sep b.
Proof.
  induction a as [|c a IH]; intros Ha.
  - simpl. rewrite Ascii.eqb_refl. reflexivity.
  - cbn [has_char] in Ha. apply orb_false_iff in Ha. destruct Ha as [Hc Ha].
    simpl. rewrite Hc, IH by exact Ha. reflexivity.
Qed.

Lemma upper_has_X s :
  has_char "x" s || has_char "X" s = true -> has_char "X" (upper s) = true.
Proof.
  induction s as [|c s IH]; [discriminate|].
  cbn [has_char upper]. intros Hc.
  destruct (Ascii.eqb_spec c "x") as [->|Hx]; [reflexivity|].
  destruct (Ascii.eqb_spec c "X") as [->|HX]; [reflexivity|].
  cbn [orb] in Hc. rewrite IH by exact Hc. apply orb_true_r.
Qed.

Lemma api_size_has_no_X s : In s api_sizes -> has_char "X" s = false.
Proof. intros [<-|[<-|[<-|[]]]]; reflexivity. Qed.

Lemma api_test_In s :
  existsb (String.eqb s) api_sizes = true <-> In s api_sizes.
Proof.
  rewrite existsb_exists. split.
  - intros (t & Ht & He). apply String.eqb_eq in He. subst t. exact Ht.
  - intros Hs. exists s. split; [exact Hs | apply String.eqb_refl].
Qed.

Lemma separator_not_api s :
  has_char "x" s || has_char "X" s = true ->
  existsb (String.eqb (upper s)) api_sizes = false.
Proof.
  intros Hs. apply upper_has_X in Hs.
  destruct (existsb _ _) eqn:He; [|reflexivity].
  apply api_test_In, api_size_has_no_X in He. congruence.
Qed.

Lemma aspect_ratio_Some size wh :
  aspect_ratio size = Some wh ->
  has_char "x" size = false /\ has_char "X" size = false
  /\ 0 <= fst wh < 10000 /\ 0 <= snd wh < 10000.
Proof.
  unfold aspect_ratio. cbn [List.find ASPECT_RATIO_MAP fst].
  repeat match goal with
         | |- context [String.eqb size ?k] =>
             destruct (String.eqb_spec size k) as [->|_];
             [intros Hwh; cbv in Hwh; injection Hwh as <-;
              repeat split; cbn [fst snd]; (reflexivity || lia)|]
         end.
  intros Hwh. discriminate Hwh.
Qed.

Lemma separator_not_ratio s :
  has_char "x" s || has_char "X" s = true -> aspect_ratio s = None.
Proof.
  intros Hs. destruct (aspect_ratio s) as [wh|] eqn:Ha; [|reflexivity].
  destruct (aspect_ratio_Some s wh Ha) as (Hx & HX & _). rewrite Hx, HX in Hs. discriminate.
Qed.

Section ParseSizeFacts.
Variable py_int : string -> option Z.

(** A size made of two parts around one [x] is a custom size when [int]
    reads both parts. *)
Lemma parse_size_custom part0 part1 width height :
  has_char "x" part0 || has_char "X" part0 = false ->
  has_char "x" part1 || has_char "X" part1 = false ->
  py_int part0 = Some width ->
  py_int part1 = Some height ->
  parse_size py_int (part0 +:+ String "x" part1) = pixels (width, height).
Proof.
  intros H0 H1 Hw Hh.
  apply orb_false_iff in H0. destruct H0 as [H0x H0X].
  apply orb_false_iff in H1. destruct H1 as [H1x H1X].
  assert (Hx : has_char "x" (part0 +:+ String "x" part1)
               || has_char "X" (part0 +:+ String "x" part1) = true).
  { rewrite !has_char_app. cbn [has_char]. rewrite Ascii.eqb_refl.
    rewrite orb_true_r. reflexivity. }
  unfold parse_size.
  rewrite (separator_not_api _ Hx), (separator_not_ratio _ Hx).
  unfold custom_size. rewrite !contains_char, Hx.
  rewrite replace_char_absent.
  2:{ rewrite has_char_app. cbn [has_char]. rewrite H0X, H1X. reflexivity. }
  rewrite split_char_at, split_char_absent by assumption.
  rewrite Hw, Hh. reflexivity.
Qed.

(** X22. The result of [parse_size] has one of two shapes: it is one of
    the names [2K], [4K] and [1K], or a width and a height in decimal
    joined by [x]; no input, however malformed, makes it return anything
    else.  Only the shape is ensured, not a range: the width and the height
    of a custom size are the integers that [int] reads from its two parts,
    whatever they are, so zero, negative and very large numbers are
    returned as they are. *)
Theorem parse_size_result_shape size :
  (In (parse_size py_int size) api_sizes
   \/ exists width height, parse_size py_int size = pixels (width, height))
  /\ (forall part0 part1 width height,
        size = part0 +:+ String "x" part1 ->
        has_char "x" part0 || has_char "X" part0 = false ->
        has_char "x" part1 || has_char "X" part1 = false ->
        py_int part0 = Some width ->
        py_int part1 = Some height ->
        parse_size py_int size
        = Json.dumps_int width +:+ "x" +:+ Json.dumps_int height).
Proof.
  split.
  2:{ intros part0 part1 width height -> H0 H1 Hw Hh.
      apply parse_size_custom; assumption. }
  unfold parse_size.
  destruct (existsb _ _) eqn:He; [left; apply api_test_In, He | right].
  destruct (aspect_ratio size) as [[w h]|]; [exists w, h; reflexivity|].
  unfold custom_size.
  destruct (_ || _); [|exists 2048, 2048; reflexivity].
  destruct (split_char _ _) as [|p0 [|p1 [|p2 ps]]]; try (exists 2048, 2048; reflexivity).
  destruct (py_int p0) as [w|]; [|exists 2048, 2048; reflexivity].
  destruct (py_int p1) as [h|]; [|exists 2048, 2048; reflexivity].
  exists w, h. reflexivity.
Qed.

Lemma parse_size_pixels width height :
  py_int (Json.dumps_int width) = Some width ->
  py_int (Json.dumps_int height) = Some height ->
  parse_size py_int (pixels (width, height)) = pixels (width, height).
Proof.
  intros Hw Hh. unfold parse_size.
  assert (Hx : has_char "x" (pixels (width, height))
               || has_char "X" (pixels (width, height)) = true)
    by (rewrite pixels_has_x; reflexivity).
  rewrite (separator_not_api _ Hx), (separator_not_ratio _ Hx).
  unfold custom_size. rewrite !contains_char, Hx.
  rewrite (replace_char_absent _ _ _ (pixels_has_no_X _)).
  unfold pixels at 1. cbn [fst snd].
  change (Json.dumps_int width +:+ "x" +:+ Json.dumps_int height)
    with (Json.dumps_int width +:+ String "x" (Json.dumps_int height)).
  rewrite split_char_at, split_char_absent
    by (apply dumps_int_has_char; (reflexivity || discriminate)).
  rewrite Hw, Hh. reflexivity.
Qed.

(** X23. [parse_size] is idempotent: its result is a size that it maps
    to itself, for every input.  The property rests on two facts about
    [int]: an integer that [int] has produced is read back from its decimal
    text, and so are the numbers below 10000 (which cover the table of
    aspect ratios). *)
Theorem parse_size_idempotent size :
  (forall s z, py_int s = Some z -> py_int (Json.dumps_int z) = Some z) ->
  (forall z, 0 <= z < 10000 -> py_int (Json.dumps_int z) = Some z) ->
  parse_size py_int (parse_size py_int size) = parse_size py_int size.
Proof.
  intros Hread Hsmall.
  unfold parse_size at 2 3.
  destruct (existsb _ _) eqn:He.
  { apply api_test_In in He. destruct He as [<-|[<-|[<-|[]]]]; reflexivity. }
  destruct (aspect_ratio size) as [[w h]|] eqn:Ha.
  { destruct (aspect_ratio_Some _ _ Ha) as (_ & _ & Hw & Hh).
    apply parse_size_pixels; apply Hsmall; assumption. }
  unfold custom_size.
  assert (Hdefault : parse_size py_int (pixels (default (2048, 2048) (aspect_ratio "1:1")))
                     = pixels (default (2048, 2048) (aspect_ratio "1:1"))).
  { apply parse_size_pixels; apply Hsmall; cbn; lia. }
  destruct (_ || _); [|exact Hdefault].
  destruct (split_char _ _) as [|p0 [|p1 [|p2 ps]]]; try exact Hdefault.
  destruct (py_int p0) as [w|] eqn:Hw; [|exact Hdefault].
  destruct (py_int p1) as [h|] eqn:Hh; [|exact Hdefault].
  apply parse_size_pixels; eapply Hread; eassumption.
Qed.

Lemma upper_replace s : upper (replace_char "X" "x" s) = upper s.
Proof.
  induction s as [|c s IH]; [reflexivity|].
  cbn [replace_char upper]. rewrite IH.
  destruct (Ascii.eqb_spec c "X") as [->|_]; reflexivity.
Qed.

Lemma replace_has_x s :
  has_char "x" (replace_char "X" "x" s) = has_char "x" s || has_char "X" s.
Proof.
  induction s as [|c s IH]; [reflexivity|].
  cbn [replace_char has_char]. rewrite IH.
  destruct (Ascii.eqb_spec c "X") as [->|HX];
    [destruct (has_char "x" s), (has_char "X" s); reflexivity|].
  destruct (Ascii.eqb c "x"), (has_char "x" s); reflexivity.
Qed.

Lemma replace_has_no_X s : has_char "X" (replace_char "X" "x" s) = false.
Proof.
  induction s as [|c s IH]; [reflexivity|].
  cbn [replace_char has_char]. rewrite IH.
  destruct (Ascii.eqb_spec c "X") as [->|HX]; [reflexivity|].
  destruct (Ascii.eqb_spec c "X"); [contradiction | reflexivity].
Qed.

(** X24. The separator of a custom size is read without regard to case:
    a size in which every [X] is written [x] is parsed to the same result,
    through every branch of [parse_size]. *)
Theorem parse_size_separator_case size :
  parse_size py_int (replace_char "X" "x" size) = parse_size py_int size.
Proof.
  destruct (has_char "X" size) eqn:HX.
  2:{ rewrite (replace_char_absent _ _ _ HX). reflexivity. }
  unfold parse_size. rewrite upper_replace.
  assert (Hs : has_char "x" size || has_char "X" size = true)
    by (rewrite HX; apply orb_true_r).
  assert (Hs' : has_char "x" (replace_char "X" "x" size)
                || has_char "X" (replace_char "X" "x" size) = true)
    by (rewrite replace_has_x, Hs; reflexivity).
  rewrite (separator_not_api _ Hs), (separator_not_ratio _ Hs),
    (separator_not_ratio _ Hs').
  unfold custom_size. rewrite !contains_char, Hs, Hs'.
  rewrite (replace_char_absent "X" "x" (replace_char "X" "x" size))
    by apply replace_has_no_X.
  reflexivity.
Qed.

Lemma split_char_length sep s :
  length (split_char sep s)
  = S (length (List.filter (fun c => Ascii.eqb c sep) (list_ascii_of_string s))).
Proof.
  induction s as [|c s IH]; [reflexivity|].
  cbn [split_char list_ascii_of_string List.filter].
  destruct (Ascii.eqb c sep); cbn [length]; [rewrite IH; reflexivity|].
  destruct (split_char sep s) as [|p ps]; [discriminate IH | exact IH].
Qed.

Lemma separators_replace s :
  length (List.filter (fun c => Ascii.eqb c "x")
            (list_ascii_of_string (replace_char "X" "x" s)))
  = separators s.
Proof.
  induction s as [|c s IH]; [reflexivity|].
  cbn [replace_char list_ascii_of_string List.filter separators].
  destruct (Ascii.eqb_spec c "X") as [->|HX]; cbn; [rewrite IH; reflexivity|].
  destruct (Ascii.eqb c "x"); cbn; rewrite IH; reflexivity.
Qed.

Lemma separators_has s :
  (1 <= separators s)%nat -> has_char "x" s || has_char "X" s = true.
Proof.
  induction s as [|c s IH]; [cbn; lia|].
  cbn [separators has_char].
  destruct (Ascii.eqb c "x"); [reflexivity|].
  destruct (Ascii.eqb c "X"); [intros _; apply orb_true_r|].
  cbn. exact IH.
Qed.

(** X25. A size with two or more separators is not a custom size: it
    falls back to the default of 2048 by 2048 pixels, whatever stands
    between the separators. *)
Theorem parse_size_many_separators size :
  (2 <= separators size)%nat ->
  parse_size py_int size = "2048x2048".
Proof.
  intros Hn.
  assert (Hs : has_char "x" size || has_char "X" size = true)
    by (apply separators_has; lia).
  unfold parse_size. rewrite (separator_not_api _ Hs), (separator_not_ratio _ Hs).
  unfold custom_size. rewrite !contains_char, Hs.
  pose proof (split_char_length "x" (replace_char "X" "x" size)) as Hl.
  rewrite separators_replace in Hl.
  destruct (split_char _ _) as [|p0 [|p1 [|p2 ps]]]; cbn [length] in Hl;
    try reflexivity; lia.
Qed.

End ParseSizeFacts.

Lemma decimal_int_reads_back z :
  SampleSizes.decimal_int (Json.dumps_int z) = Some z.
Proof.
  unfold SampleSizes.decimal_int, Json.dumps_int.
  rewrite NilZero.isi.
  - cbn. rewrite DecimalZ.of_to. reflexivity.
  - destruct z as [|p|p]; cbn; try discriminate.
    intros [= Hp]. exact (DecimalPos.Unsigned.to_uint_nonnil p Hp).
  - destruct z as [|p|p]; cbn; try discriminate.
    intros [= Hp]. exact (DecimalPos.Unsigned.to_uint_nonnil p Hp).
Qed.

Lemma parse_size_idempotent_witness :
  (forall s z, SampleSizes.decimal_int s = Some z ->
               SampleSizes.decimal_int (Json.dumps_int z) = Some z)
  /\ (forall z, 0 <= z < 10000 -> SampleSizes.decimal_int (Json.dumps_int z) = Some z)
  /\ parse_size SampleSizes.decimal_int (parse_size SampleSizes.decimal_int "1024X768")
     = parse_size SampleSizes.decimal_int "1024X768".
Proof.
  assert (H1 : forall s z, SampleSizes.decimal_int s = Some z ->
                           SampleSizes.decimal_int (Json.dumps_int z) = Some z)
    by (intros s z _; apply decimal_int_reads_back).
  assert (H2 : forall z, 0 <= z < 10000 ->
                         SampleSizes.decimal_int (Json.dumps_int z) = Some z)
    by (intros z _; apply decimal_int_reads_back).
  split; [exact H1|]. split; [exact H2|].
  exact (parse_size_idempotent SampleSizes.decimal_int "1024X768" H1 H2).
Defined.

Lemma parse_size_many_separators_witness :
  (2 <= separators "1024x768x3")%nat
  /\ parse_size SampleSizes.decimal_int "1024x768x3" = "2048x2048".
Proof.
  assert (H1 : (2 <= separators "1024x768x3")%nat) by (cbn; lia).
  split; [exact H1|].
  exact (parse_size_many_separators SampleSizes.decimal_int "1024x768x3" H1).
Defined.

Lemma parse_size_result_shape_witness :
  "-5x0" = "-5" +:+ String "x" "0"
  /\ has_char "x" "-5" || has_char "X" "-5" = false
  /\ has_char "x" "0" || has_char "X" "0" = false
  /\ SampleSizes.decimal_int "-5" = Some (-5)
  /\ SampleSizes.decimal_int "0" = Some 0
  /\ parse_size SampleSizes.decimal_int "-5x0" = "-5x0".
Proof.
  repeat (split; [reflexivity|]).
  exact (proj2 (parse_size_result_shape SampleSizes.decimal_int "-5x0")
           "-5" "0" (-5) 0 eq_refl eq_refl eq_refl eq_refl eq_refl).
Defined.

(** ** Image inputs *)

Section ImageInputFacts.
Context `{ImageFiles}.

Lemma read_localhost_path_agrees path : read_localhost_path path = read_local_path path.
Proof. reflexivity. Qed.

Lemma read_local_path_data_url path r :
  read_local_path path = Return r ->
  exists image_format image_data,
    r = "data:image/" +:+ image_format +:+ ";base64," +:+ b64encode image_data
    /\ In image_format image_formats
    /\ read_file (lstrip_slash path) = FileData image_data.
Proof.
  unfold read_local_path. destruct (read_file (lstrip_slash path)) as [|data|e];
    try discriminate.
  intros [= <-]. cbv zeta. cbn [existsb].
  set (ext := suffix_lower (lstrip_slash path)).
  repeat match goal with
         | |- context [String.eqb ext ?k] => destruct (String.eqb ext k)
         end;
    cbn [orb]; eexists _, data;
    (split; [reflexivity|]); (split; [cbn; tauto | reflexivity]).
Qed.

Lemma lstrip_slash_storage rest :
  lstrip_slash ("/storage/" +:+ rest) = "storage/" +:+ rest.
Proof. reflexivity. Qed.

Lemma prefix_storage rest : String.prefix "/storage/" ("/storage/" +:+ rest) = true.
Proof.
  change ("/storage/" +:+ rest)
    with (String "/" (String "s" (String "t" (String "o" (String "r" (String "a"
           (String "g" (String "e" (String "/" rest))))))))).
  cbn. destruct rest; reflexivity.
Qed.

(** X26. Whatever [prepare_image_input] returns is a data URL: the text
    [data:image/], one of the six image formats, [;base64,] and the encoded
    bytes of the file that was read.  That file is the one at the given
    path, or at the path of a URL whose host is local, joined to [BASE_DIR]
    without its leading slashes.  The path only has to start with
    [/storage/]: nothing checks that the file lies in the storage
    directory, so whatever follows [/storage/], parent directories
    included, is read when a file is there. *)
Theorem prepared_image_is_a_data_url image_url :
  (forall r,
      prepare_image_input image_url = Return r ->
      exists image_format path image_data,
        r = "data:image/" +:+ image_format +:+ ";base64," +:+ b64encode image_data
        /\ In image_format image_formats
        /\ read_file (lstrip_slash path) = FileData image_data
        /\ String.prefix "/storage/" path = true
        /\ (path = image_url
            \/ exists hostname,
                 urlparse image_url = Return (hostname, path)
                 /\ local_host hostname = true))
  /\ (forall rest image_data,
        image_url = "/storage/" +:+ rest ->
        read_file ("storage/" +:+ rest) = FileData image_data ->
        exists image_format,
          prepare_image_input image_url
          = Return ("data:image/" +:+ image_format +:+ ";base64," +:+ b64encode image_data)
          /\ In image_format image_formats).
Proof.
  split.
  - intros r. unfold prepare_image_input.
    destruct (String.prefix "/storage/" image_url) eqn:Hp.
    + intros Hr. destruct (read_local_path_data_url _ _ Hr) as (fmt & data & H1 & H2 & H3).
      exists fmt, image_url, data. repeat split; try assumption. left. reflexivity.
    + destruct (urlparse image_url) as [[hostname path]|e] eqn:Hu; [|discriminate].
      destruct (local_host hostname) eqn:Hh; [|discriminate].
      destruct (String.prefix "/storage/" path) eqn:Hpath; [|discriminate].
      cbn [andb]. rewrite read_localhost_path_agrees.
      intros Hr. destruct (read_local_path_data_url _ _ Hr) as (fmt & data & H1 & H2 & H3).
      exists fmt, path, data. repeat split; try assumption.
      right. exists hostname. split; [reflexivity | exact Hh].
  - intros rest image_data -> Hfile. unfold prepare_image_input.
    rewrite prefix_storage.
    destruct (read_local_path ("/storage/" +:+ rest)) as [r|e] eqn:Hr.
    + destruct (read_local_path_data_url _ _ Hr) as (fmt & data & H1 & H2 & H3).
      rewrite lstrip_slash_storage, Hfile in H3. injection H3 as <-.
      exists fmt. split; [rewrite H1; reflexivity | exact H2].
    + unfold read_local_path in Hr. rewrite lstrip_slash_storage, Hfile in Hr.
      discriminate Hr.
Qed.

(** X27. A localhost URL is read exactly like the local path it carries:
    when the host of a URL is [localhost], [127.0.0.1], [0.0.0.0] or a name
    that contains [localhost], and its path lies below [/storage/], the
    result, or the exception, is that of the path alone. *)
Theorem localhost_url_reads_as_local_path image_url hostname path :
  String.prefix "/storage/" image_url = false ->
  urlparse image_url = Return (hostname, path) ->
  local_host hostname = true ->
  String.prefix "/storage/" path = true ->
  prepare_image_input image_url = prepare_image_input path.
Proof.
  intros Hu Hparse Hhost Hpath. unfold prepare_image_input.
  rewrite Hu, Hparse, Hhost, Hpath. reflexivity.
Qed.

End ImageInputFacts.

Lemma prepared_image_is_a_data_url_witness :
  "/storage/images/cat.png" = "/storage/" +:+ "images/cat.png"
  /\ read_file (ImageFiles := SampleFiles.files) ("storage/" +:+ "images/cat.png")
     = FileData "abc"
  /\ prepare_image_input (H := SampleFiles.files) "/storage/images/cat.png"
     = Return "data:image/png;base64,YWJj"
  /\ "/storage/../secret.jpg" = "/storage/" +:+ "../secret.jpg"
  /\ read_file (ImageFiles := SampleFiles.outside) ("storage/" +:+ "../secret.jpg")
     = FileData "key"
  /\ (exists image_format,
        prepare_image_input (H := SampleFiles.outside) "/storage/../secret.jpg"
        = Return ("data:image/" +:+ image_format +:+ ";base64,"
                  +:+ b64encode (ImageFiles := SampleFiles.outside) "key")
        /\ In image_format image_formats)
  /\ exists image_format path image_data,
       "data:image/png;base64,YWJj"
       = "data:image/" +:+ image_format +:+ ";base64,"
         +:+ b64encode (ImageFiles := SampleFiles.files) image_data
       /\ In image_format image_formats
       /\ read_file (ImageFiles := SampleFiles.files) (lstrip_slash path)
          = FileData image_data
       /\ String.prefix "/storage/" path = true
       /\ (path = "/storage/images/cat.png"
           \/ exists hostname,
                urlparse (ImageFiles := SampleFiles.files) "/storage/images/cat.png"
                = Return (hostname, path)
                /\ local_host hostname = true).
Proof.
  assert (Hr : prepare_image_input (H := SampleFiles.files) "/storage/images/cat.png"
               = Return "data:image/png;base64,YWJj") by reflexivity.
  split; [reflexivity|]. split; [reflexivity|]. split; [exact Hr|].
  split; [reflexivity|]. split; [reflexivity|]. split.
  - exact (proj2 (@prepared_image_is_a_data_url SampleFiles.outside
                    "/storage/../secret.jpg") "../secret.jpg" "key" eq_refl eq_refl).
  - exact (proj1 (@prepared_image_is_a_data_url SampleFiles.files
                    "/storage/images/cat.png") _ Hr).
Defined.

Lemma localhost_url_reads_as_local_path_witness :
  String.prefix "/storage/" "http://localhost:8000/storage/images/cat.png" = false
  /\ urlparse (ImageFiles := SampleFiles.files)
       "http://localhost:8000/storage/images/cat.png"
     = Return (Some "localhost", "/storage/images/cat.png")
  /\ local_host (Some "localhost") = true
  /\ String.prefix "/storage/" "/storage/images/cat.png" = true
  /\ prepare_image_input (H := SampleFiles.files)
       "http://localhost:8000/storage/images/cat.png"
     = prepare_image_input (H := SampleFiles.files) "/storage/images/cat.png".
Proof.
  assert (H1 : String.prefix "/storage/" "http://localhost:8000/storage/images/cat.png"
               = false) by reflexivity.
  assert (H2 : urlparse (ImageFiles := SampleFiles.files)
                 "http://localhost:8000/storage/images/cat.png"
               = Return (Some "localhost", "/storage/images/cat.png")) by reflexivity.
  assert (H3 : local_host (Some "localhost") = true) by reflexivity.
  assert (H4 : String.prefix "/storage/" "/storage/images/cat.png" = true) by reflexivity.
  repeat (split; [assumption|]).
  exact (@localhost_url_reads_as_local_path SampleFiles.files _ _ _ H1 H2 H3 H4).
Defined.

(** ** Uploads *)

Lemma last_segment_None sep s :
  last_segment sep s = None -> has_char sep s = false.
Proof.
  induction s as [|c s IH]; [reflexivity|].
  cbn [last_segment has_char].
  destruct (last_segment sep s) as [r|]; [discriminate|].
  destruct (Ascii.eqb c sep); [discriminate|].
  intros _. apply IH. reflexivity.
Qed.

Lemma last_segment_has_char c sep s r :
  has_char c s = false -> last_segment sep s = Some r -> has_char c r = false.
Proof.
  revert r. induction s as [|x s IH]; intros r; [discriminate 2|].
  cbn [last_segment has_char]. intros Hc. apply orb_false_iff in Hc. destruct Hc as [_ Hs].
  destruct (last_segment sep s) as [r'|].
  - intros [= <-]. apply IH; [exact Hs | reflexivity].
  - destruct (Ascii.eqb x sep); [intros [= <-]; exact Hs | discriminate].
Qed.

Lemma last_segment_no_sep sep s r :
  last_segment sep s = Some r -> has_char sep r = false.
Proof.
  revert r. induction s as [|x s IH]; intros r; [discriminate|].
  cbn [last_segment].
  destruct (last_segment sep s) as [r'|] eqn:Hl.
  - intros [= <-]. apply IH. reflexivity.
  - destruct (Ascii.eqb x sep); [|discriminate].
    intros [= <-]. apply last_segment_None, Hl.
Qed.

Lemma lstrip_dot_has_char c s :
  has_char c s = false -> has_char c (lstrip_dot s) = false.
Proof.
  induction s as [|x s IH]; [reflexivity|].
  cbn [lstrip_dot]. destruct (Ascii.eqb x "."); [|intros Hc; exact Hc].
  cbn [has_char]. intros Hc. apply orb_false_iff in Hc. apply IH, Hc.
Qed.

(** The extension that [splitext] returns is empty or starts with a dot,
    and it holds no path separator. *)
Lemma splitext_ext_shape p :
  (splitext_ext p = "" \/ String.prefix "." (splitext_ext p) = true)
  /\ has_char "/" (splitext_ext p) = false.
Proof.
  unfold splitext_ext.
  assert (Hname : has_char "/" (default p (last_segment "/" p)) = false).
  { destruct (last_segment "/" p) as [r|] eqn:Hl; cbn [default].
    - apply (last_segment_no_sep _ _ _ Hl).
    - apply last_segment_None, Hl. }
  apply (lstrip_dot_has_char "/") in Hname.
  destruct (last_segment "." _) as [e|] eqn:He; [|split; [left|]; reflexivity].
  split; [right; cbn; destruct e; reflexivity|].
  cbn [has_char]. apply (last_segment_has_char "/" "." _ e Hname He).
Qed.

Section UploadFacts.
Context `{UploadEnv}.

Lemma upload_name_ext file :
  exists ext,
    upload_name file = "upload_" +:+ timestamp +:+ "_" +:+ unique_id +:+ ext
    /\ String.prefix "." ext = true
    /\ has_char "/" ext = false.
Proof.
  unfold upload_name.
  set (p := match upload_filename file with
            | Some name => if String.eqb name "" then "image" else name
            | None => "image"
            end).
  destruct (splitext_ext_shape p) as [[He|Hd] Hs].
  - rewrite He. exists ".jpg". repeat split.
  - destruct (String.eqb_spec (splitext_ext p) "") as [He|_].
    + rewrite He in Hd. discriminate Hd.
    + rewrite Hd. cbn [negb]. exists (splitext_ext p). repeat split; assumption.
Qed.

(** X28. An upload that is not an image is reported as a server error.
    The [400] exception that [upload_image] raises for it is caught by the
    handler of the same function and raised again with status 500, the text
    of the first exception in its detail; so [upload_image] never answers
    with any status but 500 when it fails. *)
Theorem rejected_upload_is_reported_as_500 file :
  mkdir_failure = None ->
  String.prefix "image/" (default "" (upload_content_type file)) = false ->
  upload_image file
  = HTTPException 500 ("上传失败: " +:+ http_exception_str 400 "只支持图片文件")
  /\ forall other status_code detail,
       upload_image other = HTTPException status_code detail -> status_code = 500.
Proof.
  intros Hm Hc. split.
  - unfold upload_image. rewrite Hm, Hc. reflexivity.
  - intros other status detail. unfold upload_image.
    destruct mkdir_failure; [intros [= <- _]; reflexivity|].
    destruct (negb _); [intros [= <- _]; reflexivity|].
    destruct (save_failure _); [intros [= <- _]; reflexivity | discriminate].
Qed.

(** X29. A stored upload cannot leave the images directory.  When the
    time stamp and the random id hold no slash, the name the upload is
    stored under holds none either, whatever file name the client sent:
    it is [upload_], the time stamp, the id and an extension that starts
    with a dot (the client's, or [.jpg]); and a successful upload answers
    with that name and its URL below [/storage/images/]. *)
Theorem stored_upload_stays_in_images_dir file :
  has_char "/" timestamp = false ->
  has_char "/" unique_id = false ->
  has_char "/" (upload_name file) = false
  /\ (exists ext,
        upload_name file = "upload_" +:+ timestamp +:+ "_" +:+ unique_id +:+ ext
        /\ String.prefix "." ext = true)
  /\ forall body,
       upload_image file = Responded body ->
       body = [("url", JStr ("/storage/images/" +:+ upload_name file));
               ("filename", JStr (upload_name file))].
Proof.
  intros Ht Hu. destruct (upload_name_ext file) as (ext & Hn & Hd & Hs).
  split; [|split].
  - rewrite Hn, !has_char_app, Ht, Hu, Hs. reflexivity.
  - exists ext. split; assumption.
  - intros body. unfold upload_image.
    destruct mkdir_failure; [discriminate|].
    destruct (negb _); [discriminate|].
    destruct (save_failure _); [discriminate|].
    intros [= <-]. reflexivity.
Qed.

End UploadFacts.

Lemma rejected_upload_is_reported_as_500_witness :
  mkdir_failure (UploadEnv := SampleUpload.env) = None
  /\ String.prefix "image/" (default "" (Some "text/plain")) = false
  /\ upload_image (H := SampleUpload.env) (mkUploadFile (Some "notes.txt") (Some "text/plain"))
     = HTTPException 500 "上传失败: 400: 只支持图片文件".
Proof.
  assert (H1 : mkdir_failure (UploadEnv := SampleUpload.env) = None) by reflexivity.
  assert (H2 : String.prefix "image/" (default "" (Some "text/plain")) = false)
    by reflexivity.
  split; [exact H1|]. split; [exact H2|].
  exact (proj1 (@rejected_upload_is_reported_as_500 SampleUpload.env
                  (mkUploadFile (Some "notes.txt") (Some "text/plain")) H1 H2)).
Defined.

Lemma stored_upload_stays_in_images_dir_witness :
  has_char "/" (timestamp (UploadEnv := SampleUpload.env)) = false
  /\ has_char "/" (unique_id (UploadEnv := SampleUpload.env)) = false
  /\ has_char "/" (upload_name (H := SampleUpload.env) SampleUpload.file) = false
  /\ upload_name (H := SampleUpload.env) SampleUpload.file
     = "upload_20250101_120000_1a2b3c4d.png".
Proof.
  assert (H1 : has_char "/" (timestamp (UploadEnv := SampleUpload.env)) = false)
    by reflexivity.
  assert (H2 : has_char "/" (unique_id (UploadEnv := SampleUpload.env)) = false)
    by reflexivity.
  split; [exact H1|]. split; [exact H2|].
  split; [|reflexivity].
  exact (proj1 (@stored_upload_stays_in_images_dir SampleUpload.env SampleUpload.file
                  H1 H2)).
Defined.

(** ** Evaluations *)

Example parse_size_examples :
  map (parse_size SampleSizes.decimal_int)
      ["2k"; "16:9"; "1024X768"; "1024x768x3"; "wide"; ""]
  = ["2K"; "2560x1440"; "1024x768"; "2048x2048"; "2048x2048"; "2048x2048"].
Proof. reflexivity. Qed.

Example splitext_ext_examples :
  map splitext_ext ["cat.png"; "archive.tar.gz"; ".bashrc"; "..a"; "dir.d/file"; "a."]
  = [".png"; ".gz"; ""; ""; ""; "."].
Proof. reflexivity. Qed.

(** A new canvas is saved in front, a second save of its id replaces it in
    place, and deleting the id gives the first list back. *)
Example canvas_history_scenario :
  let st1 := fst (save_canvas (SampleStore.canvas "c" "third") SampleStore.store) in
  let st2 := fst (save_canvas (SampleStore.canvas "c" "renamed") st1) in
  let st3 := fst (delete_canvas "c" st2) in
  snd (get_canvases st1)
  = JList [SampleStore.canvas "c" "third"; SampleStore.canvas "a" "first";
           SampleStore.canvas "b" "second"]
  /\ snd (get_canvases st2)
     = JList [SampleStore.canvas "c" "renamed"; SampleStore.canvas "a" "first";
              SampleStore.canvas "b" "second"]
  /\ st3 = SampleStore.store.
Proof. repeat split. Qed.

(** A corrupt history file is backed up and reset by the first read. *)
Example damaged_history_is_reset :
  get_canvases SampleStore.damaged
  = ({| history_file := Parsed (JList []); backup_file := Corrupt "[{";
        writable := true; backup_writable := true; makedirs_failure := None |},
     JList []).
Proof. reflexivity. Qed.

Example public_url_example :
  prepare_image_input (H := SampleFiles.files) "https://example.com/cat.png"
  = Raise (public_url_error "https://example.com/cat.png").
Proof. reflexivity. Qed.
